(** * turo_crawler: a shallow embedding and its verified properties

    The Python sources embedded here are [crawler.py] (the round-trip
    navigator of [TuroCrawler], its selector variant, the page snapshot
    and the form filler), [receipt_processor.py] (cost parsing, income
    calculation, receipt batch, income table and summary report),
    [rental_extractor.py] (date parsing, month filter, vehicle batch),
    [extract_vehicle_from_listing.py] (the in-page card extractor) and
    one caller from [navigation_example.py].

    Conventions of the embedding:
    - a Python [str] is a [string] of 8-bit characters; character classes
      ([\w], [\s], [\d], [str.lower], [str.strip]) are the ASCII ones,
      which are Python's on ASCII text only: statements that depend on
      how a text is parsed carry an [is_ascii] hypothesis;
    - a Python [float] is a binary64 [float] ([PrimFloat]), the integer
      literal [0] used as a default is the float [+0.0];
    - a Python [dict] is an insertion-ordered association list with
      unique keys ([dict_set] overwrites in place, as [d[k] = v] does);
    - a call that may raise returns an [outcome];
    - the browser is an oracle: every Playwright call gets its response
      from a script indexed by the target being processed, the URL that
      [self.page.url] shows after a navigation is part of that response
      (a [goto] may land elsewhere than where it was sent), and the
      calls made are recorded in an event trace. *)

From Stdlib Require Import ZArith Floats Ascii String List Lia Bool.
From stdpp Require Import base list strings gmap.

Set Warnings "-inexact-float,-register-all,-clear-no-such-hyp".
Set Default Proof Using "Type".

Local Open Scope string_scope.
Local Open Scope list_scope.

(** ** Python values shared by all modules *)

Module Py.

(** Exceptions that the embedded code raises or catches. *)
Inductive exn :=
| RuntimeError (msg : string)
| AttributeError (msg : string)
| ValueError (msg : string)
| TypeError (msg : string)
| KeyError (key : string)
| IndexError (msg : string)
| BrowserError (msg : string).

(** [str(e)] *)
Definition exn_str (e : exn) : string :=
  match e with
  | RuntimeError m | AttributeError m | ValueError m
  | TypeError m | IndexError m | BrowserError m => m
  | KeyError k => "'" +:+ k +:+ "'"
  end.

Inductive outcome (A : Type) :=
| Return (a : A)
| Raise (e : exn).
Arguments Return {A} a.
Arguments Raise {A} e.

Definition bind {A B} (m : outcome A) (k : A -> outcome B) : outcome B :=
  match m with
  | Return a => k a
  | Raise e => Raise e
  end.

(** *** Characters and strings *)

Definition code (c : ascii) : nat := nat_of_ascii c.

Definition in_range (lo hi : nat) (c : ascii) : bool :=
  (lo <=? code c)%nat && (code c <=? hi)%nat.

(** The classes below are Python's on ASCII characters.  On other
    characters the patterns and [str.strip] follow the Unicode tables
    (a no-break space is white space, an accented letter a word
    character), which are not part of the model: what is stated about
    parsing is stated for ASCII texts, see [is_ascii]. *)

(** [\d], on ASCII characters *)
Definition is_digit (c : ascii) : bool := in_range 48 57 c.

(** [\w], on ASCII characters: letters, digits and the underscore *)
Definition is_word (c : ascii) : bool :=
  in_range 97 122 c || in_range 65 90 c || is_digit c || (code c =? 95)%nat.

(** [\s] and [str.isspace], on ASCII characters: TAB..CR, FS..US and
    the blank *)
Definition is_space (c : ascii) : bool :=
  in_range 9 13 c || in_range 28 32 c.

Definition lower_char (c : ascii) : ascii :=
  if in_range 65 90 c then ascii_of_nat (code c + 32) else c.

(** [s.lower()] *)
Fixpoint lower (s : string) : string :=
  match s with
  | EmptyString => EmptyString
  | String c r => String (lower_char c) (lower r)
  end.

(** [sub in s] *)
Fixpoint str_contains (sub s : string) : bool :=
  String.prefix sub s ||
  match s with
  | EmptyString => false
  | String _ r => str_contains sub r
  end.

(** [s.lstrip()], [s.rstrip()] and [s.strip()] *)
Fixpoint lstrip (s : string) : string :=
  match s with
  | String c r => if is_space c then lstrip r else s
  | EmptyString => EmptyString
  end.

Fixpoint rstrip (s : string) : string :=
  match s with
  | EmptyString => EmptyString
  | String c r =>
      match rstrip r with
      | EmptyString => if is_space c then EmptyString else String c EmptyString
      | r' => String c r'
      end
  end.

Definition strip (s : string) : string := rstrip (lstrip s).

(** Longest prefix of [s] whose characters satisfy [p], and the rest. *)
Fixpoint span (p : ascii -> bool) (s : string) : string * string :=
  match s with
  | String c r =>
      if p c then let '(a, b) := span p r in (String c a, b)
      else (EmptyString, s)
  | EmptyString => (EmptyString, EmptyString)
  end.

Fixpoint str_forallb (p : ascii -> bool) (s : string) : bool :=
  match s with
  | EmptyString => true
  | String c r => p c && str_forallb p r
  end.

(** [s.isascii()] *)
Definition is_ascii (s : string) : bool :=
  str_forallb (fun c => (code c <? 128)%nat) s.

(** *** Insertion-ordered dictionaries *)

Definition dict (V : Type) := list (string * V).

Fixpoint dict_get {V} (d : dict V) (k : string) : option V :=
  match d with
  | [] => None
  | (k', v) :: r => if String.eqb k' k then Some v else dict_get r k
  end.

(** [d[k] = v]: overwrite where the key is, append otherwise. *)
Fixpoint dict_set {V} (d : dict V) (k : string) (v : V) : dict V :=
  match d with
  | [] => [(k, v)]
  | (k', v') :: r =>
      if String.eqb k' k then (k', v) :: r else (k', v') :: dict_set r k v
  end.

(** [d.update(e)] *)
Definition dict_update {V} (d e : dict V) : dict V :=
  fold_left (fun acc kv => dict_set acc kv.1 kv.2) e d.

(** [sum(xs)] over floats, starting from the integer [0]. *)
Definition sum (xs : list float) : float :=
  fold_left PrimFloat.add xs 0%float.

(** A value that is zero, or negative, or minus infinity. *)
Definition sf_nonpositive (x : spec_float) : Prop :=
  match x with
  | S754_zero _ => True
  | S754_infinity s | S754_finite s _ _ => s = true
  | S754_nan => False
  end.

(** A value that carries the sign [s]: a zero, an infinity or a finite
    number, not a NaN. *)
Definition sf_signed (s : bool) (x : spec_float) : Prop :=
  match x with
  | S754_zero s' | S754_infinity s' | S754_finite s' _ _ => s' = s
  | S754_nan => False
  end.

End Py.

Export Py.

(** ** The parsed document tree that BeautifulSoup hands to the code *)

Module Dom.

Inductive node :=
| Text (s : string)
| Tag (name : string) (attrs : list (string * string)) (children : list node).

Definition children (n : node) : list node :=
  match n with
  | Text _ => []
  | Tag _ _ cs => cs
  end.

Definition is_tag (name : string) (n : node) : bool :=
  match n with
  | Text _ => false
  | Tag t _ _ => String.eqb t name
  end.

Definition has_attr (k v : string) (n : node) : bool :=
  match n with
  | Text _ => false
  | Tag _ attrs _ =>
      match dict_get attrs k with
      | Some v' => String.eqb v' v
      | None => false
      end
  end.

(** First node, in document order, among [n] and its descendants that
    satisfies [p]. *)
Fixpoint first_in (p : node -> bool) (n : node) : option node :=
  if p n then Some n
  else
    match n with
    | Text _ => None
    | Tag _ _ cs =>
        (fix first_of (l : list node) : option node :=
           match l with
           | [] => None
           | c :: r =>
               match first_in p c with
               | Some x => Some x
               | None => first_of r
               end
           end) cs
    end.

Fixpoint first_of (p : node -> bool) (l : list node) : option node :=
  match l with
  | [] => None
  | c :: r =>
      match first_in p c with
      | Some x => Some x
      | None => first_of p r
      end
  end.

(** [n.find(...)]: the first matching proper descendant of [n]. *)
Definition find (p : node -> bool) (n : node) : option node :=
  first_of p (children n).

(** [n.find_all(name, recursive=False)] *)
Definition find_all_children (name : string) (n : node) : list node :=
  List.filter (is_tag name) (children n).

(** The text strings below [n], in document order. *)
Fixpoint strings (n : node) : list string :=
  match n with
  | Text s => [s]
  | Tag _ _ cs => flat_map strings cs
  end.

(** [n.get_text(strip=True)]: every string stripped, the empty ones
    dropped, the rest concatenated. *)
Definition get_text_strip (n : node) : string :=
  String.concat ""
    (List.filter (fun s => negb (String.eqb s "")) (map strip (strings n))).

End Dom.

(** ** crawler.py *)

Module Crawler.

(** *** Classes of the code base and attribute lookup on [self] *)

Inductive cls := TuroCrawler | TuroVehicleExtractor | RentalExtractor | ReceiptProcessor.

(** The [def]s in each class body. *)
Definition methods (c : cls) : list string :=
  match c with
  | TuroCrawler =>
      ["__init__"; "connect_to_browser"; "get_all_hrefs"; "navigate_and_return";
       "navigate_and_return_with_selector"; "take_screenshot"; "get_page_data";
       "save_page_data"; "execute_script"; "wait_for_element"; "click_element";
       "fill_form"; "close"]
  | TuroVehicleExtractor =>
      ["__init__"; "extract_vehicle_listings"; "save_vehicle_data"]
  | RentalExtractor =>
      ["__init__"; "set_target_month"; "parse_date_range"; "is_rental_in_target_month";
       "extract_rentals_from_page"; "process_vehicle_rentals"; "process_all_vehicles";
       "save_rental_data"]
  | ReceiptProcessor =>
      ["__init__"; "load_vehicle_owners"; "load_rental_data"; "create_folder_structure";
       "get_owner_for_license_plate"; "extract_cost_details"; "calculate_income";
       "process_receipt"; "process_all_receipts"; "generate_income_table";
       "save_summary_report"]
  end.

(** The attributes that [__init__] assigns on the instance. *)
Definition instance_attributes (c : cls) : list string :=
  ["debug_port"; "output_dir"; "browser"; "context"; "page"] ++
  match c with
  | TuroCrawler => []
  | TuroVehicleExtractor => ["vehicle_data"]
  | RentalExtractor => ["rental_data"; "target_month"]
  | ReceiptProcessor => ["vehicle_owners"; "rental_data"; "owner_folders"]
  end.

(** Method resolution order (without [object]). *)
Definition mro (c : cls) : list cls :=
  match c with
  | TuroCrawler => [TuroCrawler]
  | _ => [c; TuroCrawler]
  end.

(** Whether [self.name] resolves on an instance of [c]. *)
Definition has_attribute (c : cls) (name : string) : bool :=
  existsb (String.eqb name) (instance_attributes c) ||
  existsb (fun k => existsb (String.eqb name) (methods k)) (mro c).

Definition class_name (c : cls) : string :=
  match c with
  | TuroCrawler => "TuroCrawler"
  | TuroVehicleExtractor => "TuroVehicleExtractor"
  | RentalExtractor => "RentalExtractor"
  | ReceiptProcessor => "ReceiptProcessor"
  end.

(** The failure of [self.name] when it does not resolve. *)
Definition no_attribute (c : cls) (name : string) : exn :=
  AttributeError
    (String.concat "" ["'"; class_name c; "' object has no attribute '"; name; "'"]).

(** *** Data *)

Record Link := {
  text : string;
  href : string;
  title : string;
  className : string;
  id : string;
  dataTestid : string
}.

(** The snapshot returned by [get_page_data]. *)
Record PageData := {
  pd_url : string;
  pd_title : string;
  pd_timestamp : string;
  pd_meta_tags : dict string;
  pd_links : list (string * string * string);
  pd_text_content : string;
  pd_images : list (string * string * string)
}.

(** One dictionary appended to [results]; an absent key is [None]. *)
Record NavigationResult := {
  index : nat;
  original_link : Link;
  current_url : option string;
  page_title : option string;
  timestamp : string;
  screenshot_path : option string;
  data_path : option string;
  page_data : option PageData;
  error : option string
}.

(** The crawler object: [self.output_dir] and [self.page], the latter
    represented by the URL the connected page shows. *)
Record Session := {
  output_dir : string;
  page : option string
}.

(** What the browser and the file system answer while target [i] is
    processed. *)
Record Response := {
  on_goto : outcome unit;          (* self.page.goto(href, ...) *)
  url_after_goto : string;         (* self.page.url, read once that goto has returned *)
  on_title : outcome string;       (* self.page.title() *)
  now_captured : string;           (* datetime.now().isoformat() in the try body *)
  on_screenshot : outcome unit;    (* self.page.screenshot(...) in take_screenshot *)
  on_page_data : outcome PageData; (* get_page_data() *)
  on_save : outcome unit;          (* open(...) and json.dump in save_page_data *)
  now_failed : string;             (* datetime.now().isoformat() in the handler *)
  on_return : outcome unit;        (* self.page.goto(original_url, ...) *)
  url_after_return : string;       (* what self.page shows once that goto is over *)
  on_reconnect : option string     (* connect_to_browser(): the URL of pages[0], or False *)
}.

Inductive event :=
| EvNavigate (i : nat) (url : string)
| EvTitle (i : nat)
| EvScreenshot (i : nat) (path : string)
| EvPageData (i : nat)
| EvSave (i : nat) (path : string)
| EvReturn (i : nat) (url : string)
| EvReconnect (i : nat).

Definition traced (A : Type) : Type := list event * outcome A.

Definition tret {A} (a : A) : traced A := ([], Return a).

Definition tbind {A B} (m : traced A) (k : A -> traced B) : traced B :=
  match m with
  | (t, Return a) => let '(t', r) := k a in (t ++ t', r)
  | (t, Raise e) => (t, Raise e)
  end.

Definition call {A} (ev : event) (r : outcome A) : traced A := ([ev], r).

Notation "x <- m ;; k" := (tbind m (fun x => k))
  (at level 100, m at next level, right associativity).

(** *** File names *)

Definition digit_char (n : nat) : ascii := ascii_of_nat (48 + n mod 10).

Fixpoint decimal_digits (fuel n : nat) (acc : string) : string :=
  match fuel with
  | 0 => acc
  | S f =>
      let acc' := String (digit_char n) acc in
      if (n <? 10)%nat then acc' else decimal_digits f (n / 10) acc'
  end.

(** [f"{n:03d}"] *)
Definition format_03d (n : nat) : string :=
  let s := decimal_digits (S n) n "" in
  match String.length s with
  | 1 => "00" +:+ s
  | 2 => "0" +:+ s
  | _ => s
  end.

Fixpoint replace_char (a b : ascii) (s : string) : string :=
  match s with
  | EmptyString => EmptyString
  | String c r => String (if Ascii.eqb c a then b else c) (replace_char a b r)
  end.

(** [f"navigation_{i+1:03d}_{link_text[:30].replace(' ', '_')}" + ext] *)
Definition navigation_filename (i : nat) (link_text ext : string) : string :=
  String.concat ""
    ["navigation_"; format_03d (i + 1); "_";
     replace_char " " "_" (String.substring 0 30 link_text); ext].

Definition path_join (parts : list string) : string := String.concat "/" parts.

(** *** navigate_and_return *)

(** The [try] body of one loop iteration. *)
Definition try_body (out_dir : string) (take_screenshot extract_data : bool)
    (i : nat) (link_info : Link) (r : Response) : traced NavigationResult :=
  let href := href link_info in
  let link_text := text link_info in
  _ <- call (EvNavigate i href) (on_goto r) ;;
  page_title <- call (EvTitle i) (on_title r) ;;
  let result :=
    {| index := i; original_link := link_info;
       current_url := Some (url_after_goto r); page_title := Some page_title;
       timestamp := now_captured r;
       screenshot_path := None; data_path := None; page_data := None;
       error := None |} in
  result <-
    (if take_screenshot then
       let path := path_join [out_dir; "screenshots";
                              navigation_filename i link_text ".png"] in
       _ <- call (EvScreenshot i path) (on_screenshot r) ;;
       tret {| index := index result; original_link := original_link result;
               current_url := current_url result; page_title := Crawler.page_title result;
               timestamp := timestamp result;
               screenshot_path := Some path;
               data_path := data_path result; page_data := page_data result;
               error := error result |}
     else tret result) ;;
  (if extract_data then
     data <- call (EvPageData i) (on_page_data r) ;;
     let path := path_join [out_dir; "data";
                            navigation_filename i link_text ".json"] in
     _ <- call (EvSave i path) (on_save r) ;;
     tret {| index := index result; original_link := original_link result;
             current_url := current_url result; page_title := Crawler.page_title result;
             timestamp := timestamp result;
             screenshot_path := screenshot_path result;
             data_path := Some path; page_data := Some data;
             error := error result |}
   else tret result).

(** The dictionary appended by the [except] handler. *)
Definition failure_result (i : nat) (link_info : Link) (e : exn) (r : Response)
    : NavigationResult :=
  {| index := i; original_link := link_info;
     current_url := None; page_title := None;
     timestamp := now_failed r;
     screenshot_path := None; data_path := None; page_data := None;
     error := Some (exn_str e) |}.

(** [try: ... except Exception as e: ...] of one iteration: the result
    appended for target [i] and the calls made. *)
Definition visit (out_dir : string) (take_screenshot extract_data : bool)
    (i : nat) (link_info : Link) (r : Response) : list event * NavigationResult :=
  match try_body out_dir take_screenshot extract_data i link_info r with
  | (t, Return result) => (t, result)
  | (t, Raise e) => (t, failure_result i link_info e r)
  end.

(** The [for] loop from index [i] on.  [url] is what [self.page] shows;
    the browser is free to land elsewhere than on the URL a [goto] was
    given, so after a return step the page is where the answer says. *)
Fixpoint navigate_loop (out_dir : string) (take_screenshot extract_data : bool)
    (script : nat -> Response) (original_url : string)
    (i : nat) (hrefs : list Link) (url : string)
    : list NavigationResult * list event * string :=
  match hrefs with
  | [] => ([], [], url)
  | link_info :: rest =>
      let r := script i in
      let '(t, result) := visit out_dir take_screenshot extract_data i link_info r in
      let continue (t' : list event) (url' : string) :=
        let '(results, trace, final) :=
          navigate_loop out_dir take_screenshot extract_data script original_url
            (S i) rest url' in
        (result :: results, t ++ t' ++ trace, final) in
      match on_return r with
      | Return _ => continue [EvReturn i original_url] (url_after_return r)
      | Raise _ =>
          match on_reconnect r with
          | Some url' => continue [EvReturn i original_url; EvReconnect i] url'
          | None =>
              ([result], t ++ [EvReturn i original_url; EvReconnect i],
               url_after_return r)
          end
      end
  end.

Definition navigate_and_return (self : Session) (script : nat -> Response)
    (hrefs : list Link) (take_screenshot extract_data : bool)
    : outcome (list NavigationResult * list event * Session) :=
  match page self with
  | None => Raise (RuntimeError "No page connected. Call connect_to_browser() first.")
  | Some original_url =>
      let '(results, trace, final) :=
        navigate_loop (output_dir self) take_screenshot extract_data script
          original_url 0 hrefs original_url in
      Return (results, trace, {| output_dir := output_dir self; page := Some final |})
  end.

(** *** Vocabulary for the statements about the loop *)

Definition is_return {A} (o : outcome A) : bool :=
  match o with
  | Return _ => true
  | Raise _ => false
  end.

(** No navigation, capture or return step of the target fails. *)
Definition succeeds (take_screenshot extract_data : bool) (r : Response) : bool :=
  is_return (on_goto r) && is_return (on_title r) &&
  (negb take_screenshot || is_return (on_screenshot r)) &&
  (negb extract_data || (is_return (on_page_data r) && is_return (on_save r))) &&
  is_return (on_return r).

(** The return to the origin failed and so did the reconnect. *)
Definition aborted (r : Response) : bool :=
  negb (is_return (on_return r)) && negb (bool_decide (is_Some (on_reconnect r))).

(** How many targets the loop started at index [i] gets to. *)
Fixpoint processed (script : nat -> Response) (i : nat) (hrefs : list Link) : nat :=
  match hrefs with
  | [] => 0
  | _ :: rest => if aborted (script i) then 1 else S (processed script (S i) rest)
  end.

(** The calls of the return step after target [i]. *)
Definition return_trace (original_url : string) (i : nat) (r : Response) : list event :=
  EvReturn i original_url ::
  (if is_return (on_return r) then [] else [EvReconnect i]).

(** All calls made for target [i]. *)
Definition target_trace (out_dir : string) (take_screenshot extract_data : bool)
    (script : nat -> Response) (original_url : string) (i : nat) (link_info : Link)
    : list event :=
  (visit out_dir take_screenshot extract_data i link_info (script i)).1 ++
  return_trace original_url i (script i).

Definition target_result (out_dir : string) (take_screenshot extract_data : bool)
    (script : nat -> Response) (i : nat) (link_info : Link) : NavigationResult :=
  (visit out_dir take_screenshot extract_data i link_info (script i)).2.

(** The target an event belongs to. *)
Definition event_target (ev : event) : nat :=
  match ev with
  | EvNavigate i _ | EvTitle i | EvScreenshot i _ | EvPageData i
  | EvSave i _ | EvReturn i _ | EvReconnect i => i
  end.

Definition is_navigate (i : nat) (ev : event) : bool :=
  match ev with
  | EvNavigate j _ => (i =? j)%nat
  | _ => false
  end.

Definition is_reconnect (i : nat) (ev : event) : bool :=
  match ev with
  | EvReconnect j => (i =? j)%nat
  | _ => false
  end.

(** The success fields of a result: where the page was and what it was
    called. *)
Definition captured (r : NavigationResult) : bool :=
  bool_decide (is_Some (current_url r)) && bool_decide (is_Some (page_title r)).

Definition failed (r : NavigationResult) : bool :=
  bool_decide (is_Some (error r)).

End Crawler.

(** ** rental_extractor.py *)

Module RentalExtractor.

Record ParsedDates := {
  start_date : string;
  end_date : string;
  end_month : string
}.

(** One object pushed by the in-page script of
    [extract_rentals_from_page]. *)
Record RawRental := {
  raw_href : string;
  date_text : string;
  trip_name : string;
  vehicle_name : string
}.

Record RentalRecord := {
  vehicle_info : list string;
  rental_href : string;
  parsed_dates : ParsedDates
}.

(** *** The pattern of [parse_date_range]

    [(\w{3})\s+(\d{1,2})\s*-\s*(\w{3})\s+(\d{1,2})], applied with
    [re.match].  Each piece is followed by a piece that starts with a
    character outside its own class, so the greedy reading below is the
    only way the pattern can match. *)

(** [(\w{3})] *)
Definition word3 (s : string) : option (string * string) :=
  match s with
  | String a (String b (String c r)) =>
      if is_word a && is_word b && is_word c
      then Some (String a (String b (String c EmptyString)), r)
      else None
  | _ => None
  end.

(** [\s*] *)
Definition spaces (s : string) : string := (span is_space s).2.

(** [\s+] *)
Definition spaces1 (s : string) : option string :=
  match s with
  | String c r => if is_space c then Some (spaces r) else None
  | EmptyString => None
  end.

(** [(\d{1,2})] *)
Definition day (s : string) : option (string * string) :=
  match s with
  | String a r =>
      if is_digit a then
        match r with
        | String b r' =>
            if is_digit b then Some (String a (String b EmptyString), r')
            else Some (String a EmptyString, r)
        | EmptyString => Some (String a EmptyString, r)
        end
      else None
  | EmptyString => None
  end.

(** [-] *)
Definition dash (s : string) : option string :=
  match s with
  | String c r => if Ascii.eqb c "-" then Some r else None
  | EmptyString => None
  end.

(** [re.match(pattern, s)] and the dictionary built from its groups. *)
Definition match_date_range (s : string) : option ParsedDates :=
  '(start_month, s) ← word3 s;
  s ← spaces1 s;
  '(start_day, s) ← day s;
  s ← dash (spaces s);
  '(end_month, s) ← word3 (spaces s);
  s ← spaces1 s;
  '(end_day, _) ← day s;
  Some {| start_date := start_month +:+ " " +:+ start_day;
          end_date := end_month +:+ " " +:+ end_day;
          end_month := end_month |}.

Definition parse_date_range (date_text : string) : option ParsedDates :=
  match_date_range (strip date_text).

(** [self.target_month] is [None] until [set_target_month] is called. *)
Definition is_rental_in_target_month (target_month : option string)
    (date_info : ParsedDates) : bool :=
  match target_month with
  | None => false
  | Some m => if String.eqb m "" then false else String.eqb (end_month date_info) m
  end.

(** *** The shape of a date range, in words

    The stripped text starts with a month token, blanks, a day token,
    optional blanks, a dash, optional blanks, a month token, blanks and a
    day token; what follows is free, except that it cannot start with a
    digit that the last day token could still take. *)

Definition starts_with (p : ascii -> bool) (s : string) : bool :=
  match s with
  | String c _ => p c
  | EmptyString => false
  end.

(** Three word characters. *)
Definition is_month_token (s : string) : Prop :=
  String.length s = 3 /\ str_forallb is_word s = true.

(** One or two digits. *)
Definition is_day_token (s : string) : Prop :=
  (String.length s = 1 \/ String.length s = 2) /\ str_forallb is_digit s = true.

Definition is_blank (s : string) : Prop := str_forallb is_space s = true.

Definition make_dates (start_month start_day end_month end_day : string) : ParsedDates :=
  {| start_date := start_month +:+ " " +:+ start_day;
     end_date := end_month +:+ " " +:+ end_day;
     end_month := end_month |}.

(** The tokens and separators in a row. *)
Definition date_range_text (start_month ws1 start_day ws2 ws3 end_month ws4 end_day : string)
    : string :=
  start_month +:+ ws1 +:+ start_day +:+ ws2 +:+ "-" +:+ ws3 +:+
  end_month +:+ ws4 +:+ end_day.

Definition date_range_shape (date_text start_month start_day end_month end_day : string)
    : Prop :=
  exists ws1 ws2 ws3 ws4 rest,
    strip date_text =
      date_range_text start_month ws1 start_day ws2 ws3 end_month ws4 end_day +:+ rest /\
    is_month_token start_month /\ is_day_token start_day /\
    is_month_token end_month /\ is_day_token end_day /\
    is_blank ws1 /\ ws1 <> "" /\ is_blank ws2 /\ is_blank ws3 /\
    is_blank ws4 /\ ws4 <> "" /\
    (String.length end_day = 1 -> starts_with is_digit rest = false).

(** *** extract_rentals_from_page *)

(** What the browser answers for the rental page of one vehicle. *)
Record RentalsPage := {
  on_open_new_tab : outcome bool;          (* the tab returned, or None *)
  on_goto : outcome unit;                  (* new_page.goto(rental_url, ...) *)
  on_evaluate : outcome (list RawRental);  (* new_page.evaluate(script) *)
  on_close : outcome unit                  (* new_page.close() *)
}.

(** [await self.open_new_tab()], which first resolves the attribute. *)
Definition open_new_tab (c : Crawler.cls) (answer : outcome bool) : outcome unit :=
  if Crawler.has_attribute c "open_new_tab" then
    bind answer (fun tab =>
      if tab then Return ()
      else Raise (AttributeError "'NoneType' object has no attribute 'goto'"))
  else Raise (Crawler.no_attribute c "open_new_tab").

Definition extract_rentals_from_page (self : Crawler.Session)
    (browser : string -> RentalsPage) (vehicle_url : string)
    : outcome (list RawRental) :=
  match Crawler.page self with
  | None => Raise (RuntimeError "No page connected. Call connect_to_browser() first.")
  | Some _ =>
      let rental_url := vehicle_url +:+ "/rentals" in
      let site := browser rental_url in
      let body :=
        bind (open_new_tab Crawler.RentalExtractor (on_open_new_tab site)) (fun _ =>
        bind (on_goto site) (fun _ =>
        bind (on_evaluate site) (fun rentals =>
        bind (on_close site) (fun _ =>
        Return rentals)))) in
      match body with
      | Return rentals => Return rentals
      | Raise _ => Return []
      end
  end.

(** *** process_vehicle_rentals and process_all_vehicles

    [extract] stands for [self.extract_rentals_from_page]. *)

Section Batch.

Variable extract : string -> outcome (list RawRental).
Variable target_month : option string.

(** The body of the [for rental in all_rentals] loop. *)
Definition matching_rental (vehicle_info : list string) (rental : RawRental)
    : option RentalRecord :=
  match parse_date_range (date_text rental) with
  | Some date_info =>
      if is_rental_in_target_month target_month date_info
      then Some {| vehicle_info := vehicle_info;
                   rental_href := raw_href rental;
                   parsed_dates := date_info |}
      else None
  | None => None
  end.

Definition process_vehicle_rentals (vehicle_url : string)
    (vehicle_info : list string) : dict (list RentalRecord) :=
  match extract vehicle_url with
  | Return all_rentals =>
      [(vehicle_url, omap (matching_rental vehicle_info) all_rentals)]
  | Raise _ => []
  end.

(** [allowed_license_plates] *)
Definition allowed_license_plates (vehicle_owners : dict (list string)) : gset string :=
  fold_left (fun allowed op => allowed ∪ list_to_set op.2) vehicle_owners ∅.

(** [filtered_vehicles] *)
Definition filtered_vehicles (allowed : gset string)
    (vehicles : dict (list string)) : dict (list string) :=
  fold_left
    (fun filtered uv =>
       match uv.2 !! 2%nat with
       | Some license_plate =>
           if decide (license_plate ∈ allowed)
           then dict_set filtered uv.1 uv.2
           else filtered
       | None => filtered
       end)
    vehicles [].

(** [loaded] is what the two [json.load]s give: the ["vehicles"] and
    ["vehicle_owners"] mappings, or [None] when a file cannot be read. *)
Definition process_all_vehicles
    (loaded : option (dict (list string) * dict (list string)))
    : outcome (dict (list RentalRecord)) :=
  match target_month with
  | None => Raise (ValueError "Target month not set. Call set_target_month() first.")
  | Some m =>
      if String.eqb m "" then
        Raise (ValueError "Target month not set. Call set_target_month() first.")
      else
        match loaded with
        | None => Return []
        | Some (vehicles, vehicle_owners) =>
            let allowed := allowed_license_plates vehicle_owners in
            Return
              (fold_left
                 (fun all_matching uv =>
                    dict_update all_matching (process_vehicle_rentals uv.1 uv.2))
                 (filtered_vehicles allowed vehicles) [])
        end
  end.

End Batch.

End RentalExtractor.

(** ** receipt_processor.py *)

Module ReceiptProcessor.

Import Dom.

Record IncomeCalculation := {
  trip_price : float;
  discounts : float;
  net_amount : float;
  turo_fee : float;
  final_income : float
}.

(** One dictionary returned by [process_receipt]; an absent key is
    [None]. *)
Record Receipt := {
  rental_href : string;
  vehicle_info : list string;
  owner : string;
  license_plate : string;
  timestamp : option string;
  cost_breakdown : option (dict float);
  income_calculation : option IncomeCalculation;
  screenshot_path : option string;
  error : option string
}.

(** Whether some owner of the index lists the plate. *)
Definition indexed (vehicle_owners : dict (list string)) (license_plate : string) : bool :=
  existsb (fun op => existsb (String.eqb license_plate) op.2) vehicle_owners.

(** *** get_owner_for_license_plate *)

Fixpoint get_owner_for_license_plate (vehicle_owners : dict (list string))
    (license_plate : string) : option string :=
  match vehicle_owners with
  | [] => None
  | (owner_name, plates) :: rest =>
      if existsb (String.eqb license_plate) plates then Some owner_name
      else get_owner_for_license_plate rest license_plate
  end.

(** *** calculate_income *)

(** ['discount' in key.lower() and value < 0] *)
Definition is_discount (kv : string * float) : bool :=
  str_contains "discount" (lower kv.1) && (kv.2 <? 0)%float.

Definition calculate_income (cost_breakdown : dict float) : IncomeCalculation :=
  let trip_price := default 0%float (dict_get cost_breakdown "Trip price") in
  let discounts := sum (map snd (List.filter is_discount cost_breakdown)) in
  let net_amount := (trip_price + discounts)%float in
  let turo_fee := (net_amount * 0.10)%float in
  let final_income := (net_amount - turo_fee)%float in
  {| trip_price := trip_price;
     discounts := discounts;
     net_amount := net_amount;
     turo_fee := turo_fee;
     final_income := final_income |}.

(** *** extract_cost_details *)

Definition is_digit_or_comma (c : ascii) : bool :=
  is_digit c || Ascii.eqb c ",".

(** The text captured by the group of the amount pattern, [[\d,]+],
    [\.?], [\d*] in a row, when the group starts at [s]. *)
Definition capture_amount (s : string) : string :=
  let '(whole, rest) := span is_digit_or_comma s in
  match rest with
  | String c rest' =>
      if Ascii.eqb c "." then whole +:+ "." +:+ (span is_digit rest').1 else whole
  | EmptyString => whole
  end.

(** [re.search(pattern, value_text)], as [group(1)], for the pattern
    made of an optional dollar sign and the group above.  The leftmost
    match is the one whose group starts at the first digit or comma of
    the text: the optional dollar sign can only move the start of the
    match, not of the group. *)
Fixpoint search_amount (value_text : string) : option string :=
  match value_text with
  | EmptyString => None
  | String c r =>
      if is_digit_or_comma c then Some (capture_amount value_text)
      else search_amount r
  end.

(** [s.replace(',', '')] *)
Fixpoint remove_commas (s : string) : string :=
  match s with
  | EmptyString => EmptyString
  | String c r => if Ascii.eqb c "," then remove_commas r else String c (remove_commas r)
  end.

(** The characters the group can hold, and those left once the commas
    are removed. *)
Definition is_amount_char (c : ascii) : bool :=
  is_digit c || Ascii.eqb c "," || Ascii.eqb c ".".

Definition is_decimal_char (c : ascii) : bool :=
  is_digit c || Ascii.eqb c ".".

(** [label_div.find('span')], then [get_text(strip=True)] of the span or
    of the cell itself. *)
Definition cell_text (cell : node) : string :=
  match find (is_tag "span") cell with
  | Some span => get_text_strip span
  | None => get_text_strip cell
  end.

(** The sign rule. *)
Definition forced_negative (label value_text : string) : bool :=
  str_contains "-" value_text || str_contains "discount" (lower label).

Definition signed_amount (label value_text : string) (numeric_value : float) : float :=
  if forced_negative label value_text then (- abs numeric_value)%float
  else numeric_value.

Section CostDetails.

(** The built-in [float] applied to a string. *)
Variable py_float : string -> outcome float.

(** The body of the [for row_div in row_divs] loop: the entry stored for
    the row, if any. *)
Definition cost_row (row_div : node) : outcome (option (string * float)) :=
  match find_all_children "div" row_div with
  | label_div :: value_div :: _ =>
      let label := cell_text label_div in
      let value_text := cell_text value_div in
      if negb (String.eqb label "") && negb (String.eqb value_text "") then
        match search_amount value_text with
        | Some group =>
            bind (py_float (remove_commas group)) (fun numeric_value =>
            Return (Some (label, signed_amount label value_text numeric_value)))
        | None => Return None
        end
      else Return None
  | _ => Return None
  end.

Fixpoint cost_rows (row_divs : list node) (cost_breakdown : dict float)
    : outcome (dict float) :=
  match row_divs with
  | [] => Return cost_breakdown
  | row_div :: rest =>
      bind (cost_row row_div) (fun entry =>
      cost_rows rest
        match entry with
        | Some (label, numeric_value) => dict_set cost_breakdown label numeric_value
        | None => cost_breakdown
        end)
  end.

(** [soup] is [BeautifulSoup(cost_details_html, 'html.parser')]. *)
Definition extract_cost_details (soup : node) : outcome (dict float) :=
  match find (fun n => is_tag "div" n && has_attr "data-testid" "cost-details-section" n)
             soup with
  | None => Return []
  | Some cost_section => cost_rows (find_all_children "div" cost_section) []
  end.

(** *** process_receipt *)

(** What the browser and the file system answer for one receipt URL. *)
Record ReceiptPage := {
  on_open_new_tab : outcome bool;          (* the tab returned, or None *)
  on_goto : outcome unit;                  (* new_page.goto(receipt_url, ...) *)
  now_file : string;                       (* strftime("%Y%m%d_%H%M%S") *)
  on_screenshot : outcome unit;            (* new_page.screenshot(...) *)
  on_evaluate : outcome (option node);     (* the section's outerHTML, parsed; None for '' *)
  now_iso : string;                        (* datetime.now().isoformat() *)
  on_write : outcome unit;                 (* open(details_path, 'w') and json.dump *)
  on_close : outcome unit                  (* new_page.close() *)
}.

(** [await self.open_new_tab()] followed by [if not new_page: raise]. *)
Definition open_new_tab (c : Crawler.cls) (answer : outcome bool) : outcome unit :=
  if Crawler.has_attribute c "open_new_tab" then
    bind answer (fun tab =>
      if tab then Return () else Raise (RuntimeError "Failed to open new tab"))
  else Raise (Crawler.no_attribute c "open_new_tab").

(** [self.owner_folders[owner_name]] *)
Definition owner_folder (owner_folders : dict string) (owner_name : string)
    : outcome string :=
  match dict_get owner_folders owner_name with
  | Some folder => Return folder
  | None => Raise (KeyError owner_name)
  end.

Definition failed_receipt (rental_href : string) (vehicle_info : list string)
    (owner_name license_plate : string) (screenshot : option string)
    (message : string) : Receipt :=
  {| rental_href := rental_href; vehicle_info := vehicle_info;
     owner := owner_name; license_plate := license_plate;
     timestamp := None; cost_breakdown := None; income_calculation := None;
     screenshot_path := screenshot; error := Some message |}.

Definition process_receipt (owner_folders : dict string)
    (browser : string -> ReceiptPage)
    (rental_href : string) (vehicle_info : list string)
    (owner_name license_plate : string) : Receipt :=
  let receipt_url := rental_href +:+ "/receipt" in
  let site := browser receipt_url in
  let body :=
    bind (open_new_tab Crawler.ReceiptProcessor (on_open_new_tab site)) (fun _ =>
    bind (on_goto site) (fun _ =>
    bind (owner_folder owner_folders owner_name) (fun folder =>
    let screenshot_path :=
      Crawler.path_join [folder; license_plate; "receipt_" +:+ now_file site +:+ ".png"] in
    bind (on_screenshot site) (fun _ =>
    bind (on_evaluate site) (fun cost_details_html =>
    match cost_details_html with
    | None =>
        bind (on_close site) (fun _ =>
        Return (failed_receipt rental_href vehicle_info owner_name license_plate
                  (Some screenshot_path) "No cost details found"))
    | Some soup =>
        bind (extract_cost_details soup) (fun cost_breakdown =>
        let income_calculation := calculate_income cost_breakdown in
        let details_data :=
          {| rental_href := rental_href; vehicle_info := vehicle_info;
             owner := owner_name; license_plate := license_plate;
             timestamp := Some (now_iso site);
             cost_breakdown := Some cost_breakdown;
             income_calculation := Some income_calculation;
             screenshot_path := Some screenshot_path;
             error := None |} in
        bind (on_write site) (fun _ =>
        bind (on_close site) (fun _ =>
        Return details_data)))
    end))))) in
  match body with
  | Return receipt => receipt
  | Raise e =>
      failed_receipt rental_href vehicle_info owner_name license_plate None (exn_str e)
  end.

End CostDetails.

(** *** process_all_receipts

    [process] stands for [self.process_receipt]. *)

Section Batch.

Variable process : string -> list string -> string -> string -> Receipt.

(** The body of the [for vehicle_url, rentals in ...] loop: the results
    appended for one vehicle. *)
Definition vehicle_receipts (vehicle_owners : dict (list string))
    (rentals : list RentalExtractor.RentalRecord) : list Receipt :=
  match rentals with
  | [] => []
  | first :: _ =>
      let vehicle_info := RentalExtractor.vehicle_info first in
      match vehicle_info !! 2%nat with
      | None => []
      | Some license_plate =>
          match get_owner_for_license_plate vehicle_owners license_plate with
          | None => []
          | Some owner_name =>
              if String.eqb owner_name "" then []
              else
                map (fun rental =>
                       process (RentalExtractor.rental_href rental) vehicle_info
                         owner_name license_plate)
                    rentals
          end
      end
  end.

Definition process_all_receipts (vehicle_owners : dict (list string))
    (rental_data : dict (list RentalExtractor.RentalRecord)) : list Receipt :=
  match vehicle_owners, rental_data with
  | [], _ | _, [] => []
  | _, _ => flat_map (fun ur => vehicle_receipts vehicle_owners ur.2) rental_data
  end.

End Batch.

(** *** Aggregation: generate_income_table and save_summary_report *)

Record PlateSummary := {
  summary_vehicle_name : string;
  total_income : float;
  receipt_count : nat
}.

(** One step of the grouping loop of [generate_income_table].  A result
    without ['error'] and without ['income_calculation'] makes the
    subscript fail. *)
Definition summarise (owner_summary : dict (dict PlateSummary)) (result : Receipt)
    : outcome (dict (dict PlateSummary)) :=
  match error result with
  | Some _ => Return owner_summary
  | None =>
      match vehicle_info result, income_calculation result with
      | vehicle_name :: _, Some calc =>
          let income := final_income calc in
          let vehicles := default [] (dict_get owner_summary (owner result)) in
          let entry :=
            default {| summary_vehicle_name := vehicle_name;
                       total_income := 0; receipt_count := 0 |}
                    (dict_get vehicles (license_plate result)) in
          let entry' :=
            {| summary_vehicle_name := summary_vehicle_name entry;
               total_income := (total_income entry + income)%float;
               receipt_count := receipt_count entry + 1 |} in
          Return (dict_set owner_summary (owner result)
                    (dict_set vehicles (license_plate result) entry'))
      | [], _ => Raise (IndexError "list index out of range")
      | _, None => Raise (KeyError "income_calculation")
      end
  end.

Fixpoint owner_summary_from (receipt_results : list Receipt)
    (owner_summary : dict (dict PlateSummary)) : outcome (dict (dict PlateSummary)) :=
  match receipt_results with
  | [] => Return owner_summary
  | result :: rest =>
      bind (summarise owner_summary result) (owner_summary_from rest)
  end.

Definition owner_summary (receipt_results : list Receipt) :=
  owner_summary_from receipt_results [].

(** [grand_total] of the table: the incomes of all plates of all owners,
    added in table order. *)
Definition grand_total (owner_summary : dict (dict PlateSummary)) : float :=
  fold_left
    (fun total ov => fold_left (fun t pd => (t + total_income pd.2)%float) ov.2 total)
    owner_summary 0%float.

(** [total_income] of the summary report. *)
Fixpoint report_incomes (receipt_results : list Receipt) : outcome (list float) :=
  match receipt_results with
  | [] => Return []
  | r :: rest =>
      match error r, income_calculation r with
      | Some _, _ => report_incomes rest
      | None, Some calc => bind (report_incomes rest) (fun l => Return (final_income calc :: l))
      | None, None => Raise (KeyError "income_calculation")
      end
  end.

Definition report_total_income (receipt_results : list Receipt) : outcome float :=
  bind (report_incomes receipt_results) (fun l => Return (sum l)).

(** *** A reading of unsigned decimal texts

    [float_of_decimal] is [float] on the texts the amount pattern lets
    through once the commas are gone: digits with at most one dot.  The
    quotient of the digits by the power of ten is rounded once, to
    nearest even. *)

Fixpoint digits_value (s : string) (acc : Z) : Z :=
  match s with
  | EmptyString => acc
  | String c r => digits_value r (10 * acc + Z.of_nat (code c - 48))%Z
  end.

Definition float_of_decimal (s : string) : outcome float :=
  let '(whole, rest) := span is_digit s in
  let fraction :=
    match rest with
    | EmptyString => Some EmptyString
    | String c f => if Ascii.eqb c "." && str_forallb is_digit f then Some f else None
    end in
  match fraction with
  | Some f =>
      if (0 <? String.length whole + String.length f)%nat then
        match digits_value (whole +:+ f) 0 with
        | Zpos m =>
            Return (SF2Prim (SFdiv prec emax (S754_finite false m 0)
                               (S754_finite false (Z.to_pos (10 ^ Z.of_nat (String.length f))) 0)))
        | _ => Return 0%float
        end
      else Raise (ValueError ("could not convert string to float: '" +:+ s +:+ "'"))
  | None => Raise (ValueError ("could not convert string to float: '" +:+ s +:+ "'"))
  end.

End ReceiptProcessor.

(** ** extract_vehicle_from_listing.py *)

Module VehicleExtractor.

(** A [<p>] element as the in-page script sees it. *)
Record Paragraph := {
  title_attr : option string;   (* getAttribute('title') *)
  text_content : string         (* textContent *)
}.

(** One [a[data-testid=vehicle-listing-details-card]] element. *)
Record Card := {
  card_href : string;
  main_title : option Paragraph;    (* card.querySelector(p.css-1s9awq7-StyledText) *)
  subtitles : list Paragraph        (* card.querySelectorAll(p.css-1u90aiw-...) *)
}.

(** White space of [String.prototype.trim] in the ASCII range. *)
Definition js_is_space (c : ascii) : bool :=
  in_range 9 13 c || Ascii.eqb c " ".

Fixpoint js_trim_start (s : string) : string :=
  match s with
  | String c r => if js_is_space c then js_trim_start r else s
  | EmptyString => EmptyString
  end.

Fixpoint js_trim_end (s : string) : string :=
  match s with
  | EmptyString => EmptyString
  | String c r =>
      match js_trim_end r with
      | EmptyString => if js_is_space c then EmptyString else String c EmptyString
      | r' => String c r'
      end
  end.

Definition js_trim (s : string) : string := js_trim_end (js_trim_start s).

(** The template literal around a value that may be [null]. *)
Definition template (v : option string) : string := default "null" v.

(** [a || b] on strings, where [a] may be [null]. *)
Definition js_or (a : option string) (b : string) : string :=
  match a with
  | Some s => if String.eqb s "" then b else s
  | None => b
  end.

(** [subtitleElements[k].getAttribute('title')] *)
Definition subtitle_title (subtitleElements : list Paragraph) (k : nat)
    : outcome (option string) :=
  match subtitleElements !! k with
  | Some p => Return (title_attr p)
  | None =>
      Raise (TypeError "Cannot read properties of undefined (reading 'getAttribute')")
  end.

(** The body of the [forEach] callback up to the final test: the
    [details] array of one card. *)
Definition card_details (card : Card) : outcome (list string) :=
  let details :=
    match main_title card with
    | Some mainTitleElement =>
        let title := js_or (title_attr mainTitleElement)
                           (js_trim (text_content mainTitleElement)) in
        if String.eqb title "" then [] else [title]
    | None => []
    end in
  bind (subtitle_title (subtitles card) 0) (fun subtitle1 =>
  let details := details ++ [template subtitle1] in
  bind (subtitle_title (subtitles card) 1) (fun subtitle2 =>
  Return (details ++ [template subtitle2]))).

(** [vehicleCards.forEach(...)], threading the [vehicles] object. *)
Fixpoint for_each_card (vehicleCards : list Card) (vehicles : dict (list string))
    : outcome (dict (list string)) :=
  match vehicleCards with
  | [] => Return vehicles
  | card :: rest =>
      bind (card_details card) (fun details =>
      for_each_card rest
        (if (0 <? length details)%nat
         then dict_set vehicles (card_href card) details
         else vehicles))
  end.

(** The script given to [self.page.evaluate]. *)
Definition page_script (vehicleCards : list Card) : outcome (dict (list string)) :=
  for_each_card vehicleCards [].

(** [vehicleCards] are the cards of the connected page.  The pair
    returned is the value of the call and [self.vehicle_data] after it. *)
Definition extract_vehicle_listings (self : Crawler.Session)
    (vehicle_data : dict (list string)) (vehicleCards : list Card)
    : outcome (dict (list string)) * dict (list string) :=
  match Crawler.page self with
  | None =>
      (Raise (RuntimeError "No page connected. Call connect_to_browser() first."),
       vehicle_data)
  | Some _ =>
      match page_script vehicleCards with
      | Return vehicles => (Return vehicles, vehicles)
      | Raise _ => (Return [], vehicle_data)
      end
  end.

End VehicleExtractor.

(** ** Concrete inputs used by the examples *)

Module Examples.

Import Dom.

(** *** A crawl of two links *)

Definition host_page : string := "https://turo.com/us/en/trips/booked".

Definition connected : Crawler.Session :=
  {| Crawler.output_dir := "output"; Crawler.page := Some host_page |}.

Definition disconnected : Crawler.Session :=
  {| Crawler.output_dir := "output"; Crawler.page := None |}.

Definition link (text href : string) : Crawler.Link :=
  {| Crawler.text := text; Crawler.href := href; Crawler.title := "";
     Crawler.className := ""; Crawler.id := ""; Crawler.dataTestid := "" |}.

Definition first_link : Crawler.Link := link "Trip one" "https://turo.com/us/en/reservation/1".
Definition second_link : Crawler.Link := link "Trip two" "https://turo.com/us/en/reservation/2".
Definition two_links : list Crawler.Link := [first_link; second_link].

Definition snapshot : Crawler.PageData :=
  {| Crawler.pd_url := "https://turo.com/us/en/reservation/1";
     Crawler.pd_title := "Reservation";
     Crawler.pd_timestamp := "2025-07-22T19:46:50";
     Crawler.pd_meta_tags := [("viewport", "width=device-width")];
     Crawler.pd_links := [];
     Crawler.pd_text_content := "Reservation";
     Crawler.pd_images := [] |}.

(** Every call succeeds. *)
Definition calm : Crawler.Response :=
  {| Crawler.on_goto := Return ();
     Crawler.url_after_goto := "https://turo.com/us/en/reservation/1";
     Crawler.on_title := Return "Reservation";
     Crawler.now_captured := "2025-07-22T19:46:49";
     Crawler.on_screenshot := Return ();
     Crawler.on_page_data := Return snapshot;
     Crawler.on_save := Return ();
     Crawler.now_failed := "2025-07-22T19:47:19";
     Crawler.on_return := Return ();
     Crawler.url_after_return := host_page;
     Crawler.on_reconnect := Some host_page |}.

(** The navigation to the target times out. *)
Definition refused : Crawler.Response :=
  {| Crawler.on_goto := Raise (BrowserError "Timeout 30000ms exceeded.");
     Crawler.url_after_goto := host_page;
     Crawler.on_title := Return "Reservation";
     Crawler.now_captured := "2025-07-22T19:46:49";
     Crawler.on_screenshot := Return ();
     Crawler.on_page_data := Return snapshot;
     Crawler.on_save := Return ();
     Crawler.now_failed := "2025-07-22T19:47:19";
     Crawler.on_return := Return ();
     Crawler.url_after_return := host_page;
     Crawler.on_reconnect := Some host_page |}.

(** The browser goes away after the capture: neither the return nor the
    reconnect works. *)
Definition lost : Crawler.Response :=
  {| Crawler.on_goto := Return ();
     Crawler.url_after_goto := "https://turo.com/us/en/reservation/1";
     Crawler.on_title := Return "Reservation";
     Crawler.now_captured := "2025-07-22T19:46:49";
     Crawler.on_screenshot := Return ();
     Crawler.on_page_data := Return snapshot;
     Crawler.on_save := Return ();
     Crawler.now_failed := "2025-07-22T19:47:19";
     Crawler.on_return := Raise (BrowserError "Target page, context or browser has been closed");
     Crawler.url_after_return := "https://turo.com/us/en/reservation/1";
     Crawler.on_reconnect := None |}.

Definition sign_in_page : string := "https://turo.com/us/en/login".

(** Every call succeeds, but the site answers the return to the trips
    page with a redirection to the sign-in page. *)
Definition redirected : Crawler.Response :=
  {| Crawler.on_goto := Return ();
     Crawler.url_after_goto := "https://turo.com/us/en/reservation/1";
     Crawler.on_title := Return "Reservation";
     Crawler.now_captured := "2025-07-22T19:46:49";
     Crawler.on_screenshot := Return ();
     Crawler.on_page_data := Return snapshot;
     Crawler.on_save := Return ();
     Crawler.now_failed := "2025-07-22T19:47:19";
     Crawler.on_return := Return ();
     Crawler.url_after_return := sign_in_page;
     Crawler.on_reconnect := Some host_page |}.

Definition calm_script : nat -> Crawler.Response := fun _ => calm.

Definition redirected_script : nat -> Crawler.Response := fun _ => redirected.

Definition refused_script : nat -> Crawler.Response :=
  fun i => if (i =? 0)%nat then refused else calm.

Definition lost_script : nat -> Crawler.Response :=
  fun i => if (i =? 0)%nat then lost else calm.

(** *** A receipt *)

Definition cell (text : string) : node := Tag "div" [] [Tag "span" [] [Text text]].

Definition row (label value : string) : node := Tag "div" [] [cell label; cell value].

Definition receipt_soup : node :=
  Tag "[document]" []
    [Tag "div" [("data-testid", "cost-details-section")]
       [row "Trip price" "$490.00"; row "Weekly discount" "- $21.56"]].

(** *** Rentals of one vehicle *)

(** A horizontal tab. *)
Definition tab : string := String (ascii_of_nat 9) "".


Definition tesla_url : string := "https://turo.com/us/en/suv-rental/tesla/model-y/1".
Definition tesla : list string := ["Tesla Model Y 2023"; "Long Range"; "ABC123"].

Definition july_rental : RentalExtractor.RawRental :=
  {| RentalExtractor.raw_href := "https://turo.com/us/en/reservation/1";
     RentalExtractor.date_text := "Jul 3 - Jul 13";
     RentalExtractor.trip_name := "Trip one";
     RentalExtractor.vehicle_name := "Tesla Model Y 2023" |}.

Definition august_rental : RentalExtractor.RawRental :=
  {| RentalExtractor.raw_href := "https://turo.com/us/en/reservation/2";
     RentalExtractor.date_text := "Jul 28 - Aug 2";
     RentalExtractor.trip_name := "Trip two";
     RentalExtractor.vehicle_name := "Tesla Model Y 2023" |}.

Definition rentals_on_page : string -> outcome (list RentalExtractor.RawRental) :=
  fun _ => Return [july_rental; august_rental].

(** *** Owners and listings *)

Definition owners : dict (list string) := [("Alice", ["ABC123"]); ("Bob", ["XYZ789"])].

Definition civic_url : string := "https://turo.com/us/en/car-rental/honda/civic/2".
Definition civic : list string := ["Honda Civic 2020"; "EX"; "ZZZ999"].

Definition listings : dict (list string) := [(tesla_url, tesla); (civic_url, civic)].

(** *** Browser answers for the secondary pages *)

Definition quiet_rentals_page : RentalExtractor.RentalsPage :=
  {| RentalExtractor.on_open_new_tab := Return true;
     RentalExtractor.on_goto := Return ();
     RentalExtractor.on_evaluate := Return [july_rental; august_rental];
     RentalExtractor.on_close := Return () |}.

Definition quiet_receipt_page : ReceiptProcessor.ReceiptPage :=
  {| ReceiptProcessor.on_open_new_tab := Return true;
     ReceiptProcessor.on_goto := Return ();
     ReceiptProcessor.now_file := "20250722_194649";
     ReceiptProcessor.on_screenshot := Return ();
     ReceiptProcessor.on_evaluate := Return (Some receipt_soup);
     ReceiptProcessor.now_iso := "2025-07-22T19:46:49";
     ReceiptProcessor.on_write := Return ();
     ReceiptProcessor.on_close := Return () |}.

(** *** Listing cards *)

Definition paragraph (title : string) : VehicleExtractor.Paragraph :=
  {| VehicleExtractor.title_attr := Some title; VehicleExtractor.text_content := title |}.

Definition complete_card : VehicleExtractor.Card :=
  {| VehicleExtractor.card_href := tesla_url;
     VehicleExtractor.main_title := Some (paragraph "Tesla Model Y 2023");
     VehicleExtractor.subtitles := [paragraph "Long Range"; paragraph "ABC123"] |}.

(** A card with the trim but without the license plate paragraph. *)
Definition bare_card : VehicleExtractor.Card :=
  {| VehicleExtractor.card_href := civic_url;
     VehicleExtractor.main_title := Some (paragraph "Honda Civic 2020");
     VehicleExtractor.subtitles := [paragraph "EX"] |}.

End Examples.

(** ** crawler.py: the other entry points *)

Module Navigation.

Import Crawler.

(** [l[:n]] for an integer [n]: the first [n] elements, or all but the
    last [-n] when [n] is negative. *)
Definition slice_to {A} (n : Z) (l : list A) : list A :=
  if (0 <=? n)%Z then take (Z.to_nat n) l
  else take (length l - Z.to_nat (- n)) l.

(** [if max_links: hrefs = hrefs[:max_links]]; [None] and [0] are both
    false. *)
Definition cap_links (max_links : option Z) (hrefs : list Link) : list Link :=
  match max_links with
  | Some n => if (n =? 0)%Z then hrefs else slice_to n hrefs
  | None => hrefs
  end.

(** [found] is what [self.page.evaluate] returns for the selector. *)
Definition navigate_and_return_with_selector (self : Session)
    (script : nat -> Response) (found : outcome (list Link))
    (take_screenshot extract_data : bool) (max_links : option Z)
    : outcome (list NavigationResult * list event * Session) :=
  match page self with
  | None => Raise (RuntimeError "No page connected. Call connect_to_browser() first.")
  | Some _ =>
      bind found (fun hrefs =>
      navigate_and_return self script (cap_links max_links hrefs)
        take_screenshot extract_data)
  end.

(** *** Vocabulary for the statements *)

Definition failure_of {A} (o : outcome A) : option exn :=
  match o with
  | Raise e => Some e
  | Return _ => None
  end.

(** The first call of the [try] body that raises, in the order of the
    calls: the navigation, the title, the screenshot when asked for, the
    snapshot and its file when asked for. *)
Definition first_failure (take_screenshot extract_data : bool) (r : Response)
    : option exn :=
  match failure_of (on_goto r) with
  | Some e => Some e
  | None =>
      match failure_of (on_title r) with
      | Some e => Some e
      | None =>
          match (if take_screenshot then failure_of (on_screenshot r) else None) with
          | Some e => Some e
          | None =>
              if extract_data then
                match failure_of (on_page_data r) with
                | Some e => Some e
                | None => failure_of (on_save r)
                end
              else None
          end
      end
  end.

Definition is_return_to (i : nat) (ev : event) : bool :=
  match ev with
  | EvReturn j _ => (i =? j)%nat
  | _ => false
  end.

(** The calls an event may come from, given the two options. *)
Definition allowed_event (take_screenshot extract_data : bool) (ev : event) : bool :=
  match ev with
  | EvScreenshot _ _ => take_screenshot
  | EvPageData _ | EvSave _ _ => extract_data
  | _ => true
  end.

End Navigation.

(** ** crawler.py: filling a form *)

Module Interaction.

Import Crawler.

Definition not_connected {A} : outcome A :=
  Raise (RuntimeError "No page connected. Call connect_to_browser() first.").

(** The [for selector, value in form_data.items()] loop inside the
    [try]: whether it ran through, and the [self.page.fill] calls made. *)
Fixpoint fill_fields (fill : string -> string -> outcome unit)
    (form_data : dict string) : bool * list (string * string) :=
  match form_data with
  | [] => (true, [])
  | (selector, value) :: rest =>
      match fill selector value with
      | Return _ =>
          let '(done, calls) := fill_fields fill rest in
          (done, (selector, value) :: calls)
      | Raise _ => (false, [(selector, value)])
      end
  end.

Definition fill_form (self : Session) (fill : string -> string -> outcome unit)
    (form_data : dict string) : outcome (bool * list (string * string)) :=
  match page self with
  | None => not_connected
  | Some _ => Return (fill_fields fill form_data)
  end.

End Interaction.

(** ** crawler.py: the page snapshot *)

Module Snapshot.

Import Dom Crawler.

(** [tag.get(k)] *)
Definition attr (k : string) (n : node) : option string :=
  match n with
  | Text _ => None
  | Tag _ attrs _ => dict_get attrs k
  end.

(** [tag.get(k, "")] *)
Definition attr_or_empty (k : string) (n : node) : string := default "" (attr k n).

(** The nodes, in document order, among [n] and its descendants that
    satisfy [p]. *)
Fixpoint all_in (p : node -> bool) (n : node) : list node :=
  (if p n then [n] else []) ++
  match n with
  | Text _ => []
  | Tag _ _ cs => flat_map (all_in p) cs
  end.

(** [n.find_all(...)]: the matching proper descendants of [n]. *)
Definition find_all (p : node -> bool) (n : node) : list node :=
  flat_map (all_in p) (children n).

(** [a or b] on attribute values: [a] when it is a non-empty string. *)
Definition py_or (a b : option string) : option string :=
  match a with
  | Some s => if String.eqb s "" then b else a
  | None => b
  end.

(** [meta.get("name") or meta.get("property")] *)
Definition meta_name (meta : node) : option string :=
  py_or (attr "name" meta) (attr "property" meta).

(** The body of the [for meta in soup.find_all("meta")] loop. *)
Definition add_meta (meta_tags : dict string) (meta : node) : dict string :=
  match meta_name meta, attr "content" meta with
  | Some name, Some content =>
      if negb (String.eqb name "") && negb (String.eqb content "")
      then dict_set meta_tags name content
      else meta_tags
  | _, _ => meta_tags
  end.

Definition meta_tags_of (soup : node) : dict string :=
  fold_left add_meta (find_all (is_tag "meta") soup) [].

(** [soup.find_all("a", href=True)] and the dictionary built per link:
    text, href, title. *)
Definition links_of (soup : node) : list (string * string * string) :=
  map (fun link => (get_text_strip link, attr_or_empty "href" link,
                    attr_or_empty "title" link))
      (find_all (fun n => is_tag "a" n && bool_decide (is_Some (attr "href" n))) soup).

Definition is_script_or_style (n : node) : bool := is_tag "script" n || is_tag "style" n.

(** The tree once every element found by [soup(["script", "style"])]
    has been [decompose]d. *)
Fixpoint without (p : node -> bool) (n : node) : node :=
  match n with
  | Text s => Text s
  | Tag t attrs cs =>
      Tag t attrs
        ((fix kept (l : list node) : list node :=
            match l with
            | [] => []
            | c :: r => if p c then kept r else without p c :: kept r
            end) cs)
  end.

(** The children that stay, each one cleaned in turn. *)
Fixpoint kept (p : node -> bool) (l : list node) : list node :=
  match l with
  | [] => []
  | c :: r => if p c then kept p r else without p c :: kept p r
  end.

(** [n.get_text(separator=" ", strip=True)] *)
Definition get_text_spaced (n : node) : string :=
  String.concat " "
    (List.filter (fun s => negb (String.eqb s "")) (map strip (strings n))).

(** [soup.find_all("img")] and the dictionary built per image: src, alt,
    title. *)
Definition images_of (soup : node) : list (string * string * string) :=
  map (fun img => (attr_or_empty "src" img, attr_or_empty "alt" img,
                   attr_or_empty "title" img))
      (find_all (is_tag "img") soup).

(** [content] is [self.page.content()] parsed by BeautifulSoup, [title]
    is [self.page.title()], [now] the time read for the time stamp. *)
Definition get_page_data (self : Session) (content : outcome node)
    (title : outcome string) (now : string) : outcome PageData :=
  match page self with
  | None => Raise (RuntimeError "No page connected. Call connect_to_browser() first.")
  | Some url =>
      bind content (fun soup =>
      bind title (fun title =>
      let visible := without is_script_or_style soup in
      Return {| pd_url := url;
                pd_title := title;
                pd_timestamp := now;
                pd_meta_tags := meta_tags_of soup;
                pd_links := links_of soup;
                pd_text_content := get_text_spaced visible;
                pd_images := images_of visible |}))
  end.

(** A tree in which the children of every script and style element are
    replaced by what [f] makes of them. *)
Fixpoint rewrite_hidden (f : list node -> list node) (n : node) : node :=
  match n with
  | Text s => Text s
  | Tag t attrs cs =>
      if is_script_or_style n then Tag t attrs (f cs)
      else Tag t attrs (map (rewrite_hidden f) cs)
  end.

End Snapshot.

(** ** The reports written at the end of a batch *)

Module Reports.

Import ReceiptProcessor.

(** *** save_summary_report *)

Record SummaryData := {
  sd_timestamp : string;
  total_receipts : nat;
  successful_receipts : nat;
  failed_receipts : nat;
  sd_total_income : float;
  receipts : list Receipt
}.

Definition has_error (r : Receipt) : bool := bool_decide (is_Some (error r)).

(** [summary_data], and the outcome of writing it: [now] is the time
    read for the time stamp, [on_write] what [open] and [json.dump] do.
    The value is the path returned and the data written. *)
Definition save_summary_report (output_dir : string) (now_file now : string)
    (on_write : outcome unit) (receipt_results : list Receipt)
    (filename : option string) : outcome (string * SummaryData) :=
  let filename :=
    match filename with
    | Some f => if String.eqb f "" then "receipt_summary_" +:+ now_file +:+ ".json" else f
    | None => "receipt_summary_" +:+ now_file +:+ ".json"
    end in
  let report_path := Crawler.path_join [output_dir; "data"; filename] in
  let total := length receipt_results in
  let successful := length (List.filter (fun r => negb (has_error r)) receipt_results) in
  let failed := total - successful in
  bind (report_total_income receipt_results) (fun total_income =>
  bind on_write (fun _ =>
  Return (report_path,
          {| sd_timestamp := now;
             total_receipts := total;
             successful_receipts := successful;
             failed_receipts := failed;
             sd_total_income := total_income;
             receipts := receipt_results |}))).

(** *** The rows of the income table, in words *)

(** The row of a plate under an owner. *)
Definition row (owner_summary : dict (dict PlateSummary)) (owner_name plate : string)
    : option PlateSummary :=
  match dict_get owner_summary owner_name with
  | Some vehicles => dict_get vehicles plate
  | None => None
  end.

(** The receipts counted in that row. *)
Definition counted (owner_name plate : string) (r : Receipt) : bool :=
  negb (has_error r) && String.eqb (owner r) owner_name &&
  String.eqb (license_plate r) plate.

Definition receipt_income (r : Receipt) : float :=
  match income_calculation r with
  | Some calc => final_income calc
  | None => 0%float
  end.

Definition receipt_vehicle_name (r : Receipt) : string :=
  match ReceiptProcessor.vehicle_info r with
  | name :: _ => name
  | [] => ""
  end.

(** The row as a tally: nothing without a counted receipt; otherwise the
    name of the first, the incomes added in order, and their number. *)
Definition tally (owner_name plate : string) (receipt_results : list Receipt)
    : option PlateSummary :=
  match List.filter (counted owner_name plate) receipt_results with
  | [] => None
  | first :: rest =>
      Some {| summary_vehicle_name := receipt_vehicle_name first;
              total_income := sum (map receipt_income (first :: rest));
              receipt_count := length (first :: rest) |}
  end.

(** *** save_rental_data *)

Record RentalData := {
  rd_target_month : option string;
  total_vehicles : nat;
  total_rentals : nat;
  rentals : dict (list RentalExtractor.RentalRecord)
}.

(** [save_data] of [save_rental_data]. *)
Definition rental_data_summary (target_month : option string)
    (rental_data : dict (list RentalExtractor.RentalRecord)) : RentalData :=
  {| rd_target_month := target_month;
     total_vehicles := length rental_data;
     total_rentals := list_sum (map (fun ur => length ur.2) rental_data);
     rentals := rental_data |}.

End Reports.

(** ** navigation_example.py *)

Module Callers.

Import Crawler.

(** The parameters of [navigate_and_return_with_selector], [self]
    apart. *)
Definition with_selector_parameters : list string :=
  ["selector"; "take_screenshot"; "extract_data"; "delay_between_navigation";
   "max_links"].

(** Binding the keywords of a call to the parameters of a function
    without [**kwargs]: the first keyword that is no parameter fails the
    call before the body runs, with the message of CPython 3.10 and
    later. *)
Fixpoint bind_keywords (function : string) (parameters keywords : list string)
    : outcome unit :=
  match keywords with
  | [] => Return ()
  | k :: rest =>
      if existsb (String.eqb k) parameters then bind_keywords function parameters rest
      else Raise (TypeError (String.concat ""
             ["TuroCrawler."; function; "() got an unexpected keyword argument '"; k; "'"]))
  end.

(** The keywords of the call in [example_navigate_data_testid_links]. *)
Definition data_testid_call_keywords : list string :=
  ["selector"; "take_screenshot"; "extract_data"; "delay_between_navigation";
   "customUrlAppend"; "max_links"].

Definition data_testid_selectors : list string :=
  ["a[data-testid=baseTripCard][class=css-14aw0o6-BaseTripCard]"].

(** One round of the [for selector in data_testid_selectors] loop: the
    line printed in the handler, if the call raised, and the browser
    calls made. *)
Definition try_selector (self : Session) (script : nat -> Response)
    (found : string -> outcome (list Link)) (selector : string)
    : option string * list event :=
  let attempt :=
    bind (bind_keywords "navigate_and_return_with_selector"
            with_selector_parameters data_testid_call_keywords) (fun _ =>
    Navigation.navigate_and_return_with_selector self script (found selector)
      true false (Some 200%Z)) in
  match attempt with
  | Return (_, trace, _) => (None, trace)
  | Raise e =>
      (Some (String.concat "" ["  Error with selector '"; selector; "': "; exn_str e]), [])
  end.

(** The loop of [example_navigate_data_testid_links] once the crawler is
    connected: the error lines printed and the browser calls made. *)
Definition example_navigate_data_testid_links (self : Session)
    (script : nat -> Response) (found : string -> outcome (list Link))
    : list string * list event :=
  let rounds := map (try_selector self script found) data_testid_selectors in
  (omap fst rounds, flat_map snd rounds).

End Callers.

(** ** Further inputs for the examples *)

Module Scenarios.

Import Dom Examples.

(** The page loads but the screenshot cannot be written. *)
Definition unwritable : Crawler.Response :=
  {| Crawler.on_goto := Return ();
     Crawler.url_after_goto := "https://turo.com/us/en/reservation/1";
     Crawler.on_title := Return "Reservation";
     Crawler.now_captured := "2025-07-22T19:46:49";
     Crawler.on_screenshot := Raise (BrowserError "Unable to write screenshot");
     Crawler.on_page_data := Return snapshot;
     Crawler.on_save := Return ();
     Crawler.now_failed := "2025-07-22T19:47:19";
     Crawler.on_return := Return ();
     Crawler.url_after_return := host_page;
     Crawler.on_reconnect := Some host_page |}.

(** The return to the origin fails; the reconnect finds the browser on
    the sign-in page. *)
Definition strayed : Crawler.Response :=
  {| Crawler.on_goto := Return ();
     Crawler.url_after_goto := "https://turo.com/us/en/reservation/1";
     Crawler.on_title := Return "Reservation";
     Crawler.now_captured := "2025-07-22T19:46:49";
     Crawler.on_screenshot := Return ();
     Crawler.on_page_data := Return snapshot;
     Crawler.on_save := Return ();
     Crawler.now_failed := "2025-07-22T19:47:19";
     Crawler.on_return := Raise (BrowserError "Timeout 30000ms exceeded.");
     Crawler.url_after_return := "chrome-error://chromewebdata/";
     Crawler.on_reconnect := Some sign_in_page |}.

Definition unwritable_script : nat -> Crawler.Response :=
  fun i => if (i =? 0)%nat then unwritable else calm.

Definition strayed_script : nat -> Crawler.Response :=
  fun i => if (i =? 1)%nat then strayed else calm.

Definition third_link : Crawler.Link := link "Trip three" "https://turo.com/us/en/reservation/3".
Definition three_links : list Crawler.Link := [first_link; second_link; third_link].

(** *** A form *)

Definition sign_in_form : dict string :=
  [("#email", "owner@example.com"); ("#password", "secret"); ("#remember", "on")].

(** The password field is not on the page. *)
Definition no_password_field : string -> string -> outcome unit :=
  fun selector _ =>
    if String.eqb selector "#password"
    then Raise (BrowserError "Timeout 30000ms exceeded.")
    else Return ().

(** *** Receipts *)

(** The trip price is listed twice, the second time corrected. *)
Definition repriced_soup : node :=
  Tag "[document]" []
    [Tag "div" [("data-testid", "cost-details-section")]
       [row "Trip price" "$100.00"; row "Trip price" "$120.00";
        row "Cleaning fee" "$25.00"]].

(** The amount of the second row has no digit. *)
Definition garbled_soup : node :=
  Tag "[document]" []
    [Tag "div" [("data-testid", "cost-details-section")]
       [row "Trip price" "$100.00"; row "Extras" ","]].

Definition settled (href : string) (trip_price : float) : ReceiptProcessor.Receipt :=
  {| ReceiptProcessor.rental_href := href;
     ReceiptProcessor.vehicle_info := tesla;
     ReceiptProcessor.owner := "Alice";
     ReceiptProcessor.license_plate := "ABC123";
     ReceiptProcessor.timestamp := Some "2025-07-22T19:46:49";
     ReceiptProcessor.cost_breakdown := Some [("Trip price", trip_price)];
     ReceiptProcessor.income_calculation :=
       Some (ReceiptProcessor.calculate_income [("Trip price", trip_price)]);
     ReceiptProcessor.screenshot_path := Some "output/receipts/Alice/ABC123/receipt.png";
     ReceiptProcessor.error := None |}.

Definition two_settled : list ReceiptProcessor.Receipt :=
  [settled "https://turo.com/us/en/reservation/1" 100;
   settled "https://turo.com/us/en/reservation/2" 50].

(** *** A listing card without a title paragraph *)

Definition untitled_card : VehicleExtractor.Card :=
  {| VehicleExtractor.card_href := civic_url;
     VehicleExtractor.main_title := None;
     VehicleExtractor.subtitles := [paragraph "EX"; paragraph "ZZZ999"] |}.

(** *** A page *)

Definition page_soup : node :=
  Tag "[document]" []
    [Tag "html" []
       [Tag "head" []
          [Tag "meta" [("name", "description"); ("content", "Trips")] [];
           Tag "meta" [("property", "og:title"); ("content", "Booked")] [];
           Tag "meta" [("name", "description"); ("content", "Booked trips")] [];
           Tag "script" [] [Text "var trips = 2;"]];
        Tag "body" []
          [Tag "h1" [] [Text " Booked trips "];
           Tag "img" [("src", "/logo.png"); ("alt", "Turo")] []]]].

End Scenarios.

(** * Properties *)

(** ** Binary64 facts used by the income calculation *)

Section Floats.

Lemma iter_pos_invariant {A} (P : A -> Prop) (f : A -> A) :
  (forall x, P x -> P (f x)) -> forall n x, P x -> P (SpecFloat.iter_pos f n x).
Proof.
  intros Hf. induction n as [n IH|n IH|]; intros x Hx; simpl; auto.
Qed.

Lemma shr_1_nonneg mrs : (0 <= shr_m mrs)%Z -> (0 <= shr_m (shr_1 mrs))%Z.
Proof.
  destruct mrs as [m r s]. simpl.
  destruct m as [|[p|p|]|p]; simpl; lia.
Qed.

Lemma shr_nonneg mrs e n : (0 <= shr_m mrs)%Z -> (0 <= shr_m (shr mrs e n).1)%Z.
Proof.
  intros H. unfold shr. destruct n; simpl; auto.
  apply (iter_pos_invariant (fun x => (0 <= shr_m x)%Z)); auto using shr_1_nonneg.
Qed.

Lemma shr_fexp_nonneg m e l :
  (0 <= m)%Z -> (0 <= shr_m (shr_fexp prec emax m e l).1)%Z.
Proof.
  intros H. unfold shr_fexp. apply shr_nonneg.
  destruct l as [|[]]; simpl; exact H.
Qed.

Lemma round_nearest_even_nonneg m l : (0 <= m)%Z -> (0 <= round_nearest_even m l)%Z.
Proof.
  intros H. unfold round_nearest_even.
  destruct l as [|[]]; try destruct (Z.even m); lia.
Qed.

Lemma binary_round_aux_signed s m e l :
  (0 <= m)%Z -> sf_signed s (binary_round_aux prec emax s m e l).
Proof.
  intros H. unfold binary_round_aux.
  pose proof (shr_fexp_nonneg m e l H) as H1.
  destruct (shr_fexp prec emax m e l) as [mrs' e']. simpl in H1.
  pose proof (shr_fexp_nonneg _ e' loc_Exact
                (round_nearest_even_nonneg _ (loc_of_shr_record mrs') H1)) as H2.
  destruct (shr_fexp prec emax _ e' loc_Exact) as [mrs'' e'']. simpl in H2.
  destruct (shr_m mrs'') as [|q|q]; simpl; auto; try lia.
  destruct (e'' <=? emax - prec)%Z; reflexivity.
Qed.

Lemma binary_round_signed s m e : sf_signed s (binary_round prec emax s m e).
Proof.
  unfold binary_round. destruct (shl_align _ _ _) as [mz ez].
  apply binary_round_aux_signed. lia.
Qed.

Lemma sf_signed_nonpositive x : sf_signed true x -> sf_nonpositive x.
Proof. by destruct x. Qed.

Lemma SFadd_nonpositive x y :
  sf_nonpositive x -> sf_nonpositive y -> sf_nonpositive (SF64add x y).
Proof.
  destruct x as [sx|sx| |sx mx ex], y as [sy|sy| |sy my ey]; simpl;
    try tauto; intros Hx Hy; subst; simpl; auto.
  - destruct sx, sy; exact I.
  - apply sf_signed_nonpositive, binary_round_signed.
Qed.

Lemma leb_zero_nonpositive x : (x <=? 0)%float = true <-> sf_nonpositive (Prim2SF x).
Proof.
  rewrite FloatAxioms.leb_spec. change (Prim2SF 0) with (S754_zero false).
  destruct (Prim2SF x) as [s|[]| |[] m e]; cbv; intuition congruence.
Qed.

Lemma ltb_zero_nonpositive x : (x <? 0)%float = true -> sf_nonpositive (Prim2SF x).
Proof.
  rewrite FloatAxioms.ltb_spec. change (Prim2SF 0) with (S754_zero false).
  destruct (Prim2SF x) as [s|[]| |[] m e]; cbv; intuition congruence.
Qed.

Lemma add_nonpositive x y :
  (x <=? 0)%float = true -> (y <? 0)%float = true -> (x + y <=? 0)%float = true.
Proof.
  intros Hx Hy. apply leb_zero_nonpositive. rewrite FloatAxioms.add_spec.
  apply SFadd_nonpositive; [by apply leb_zero_nonpositive | by apply ltb_zero_nonpositive].
Qed.

Lemma sum_nonpositive (xs : list float) :
  Forall (fun x => (x <? 0)%float = true) xs -> (sum xs <=? 0)%float = true.
Proof.
  unfold sum. intros Hall.
  cut (forall acc, (acc <=? 0)%float = true ->
                   (fold_left PrimFloat.add xs acc <=? 0)%float = true).
  { intros H. by apply H. }
  induction Hall as [|x xs Hx _ IH]; intros acc Hacc; simpl; [exact Hacc|].
  apply IH. by apply add_nonpositive.
Qed.

(** Minus the absolute value of a number not below zero is not above it. *)
Lemma opp_abs_nonpositive x :
  (0 <=? x)%float = true -> (- abs x <=? 0)%float = true.
Proof.
  rewrite FloatAxioms.leb_spec. change (Prim2SF 0) with (S754_zero false).
  intros Hx. apply leb_zero_nonpositive.
  rewrite FloatAxioms.opp_spec, FloatAxioms.abs_spec.
  destruct (Prim2SF x) as [s|s| |s m e]; simpl in *; auto; discriminate.
Qed.

(** *** The decimal reader gives numbers that are not below zero *)

Lemma SFdiv_positive m1 m2 :
  sf_signed false (SFdiv prec emax (S754_finite false m1 0) (S754_finite false m2 0)).
Proof.
  unfold SFdiv, SFdiv_core_binary.
  set (s := (0 - 0 - _)%Z).
  set (m' := match s with Z.pos _ => Z.shiftl (Z.pos m1) s | Z0 => Z.pos m1 | _ => 0%Z end).
  assert (Hm' : (0 <= m')%Z).
  { unfold m'. destruct s; try lia. apply Z.shiftl_nonneg. lia. }
  pose proof (Z.div_pos m' (Z.pos m2) Hm' ltac:(lia)) as Hq.
  unfold Z.div in Hq. destruct (Z.div_eucl m' (Z.pos m2)) as [q r]. simpl in Hq.
  by apply binary_round_aux_signed.
Qed.

Lemma SF2Prim_nonnegative x :
  sf_signed false x -> (0 <=? SF2Prim x)%float = true.
Proof.
  destruct x as [[]|[]| |[] m e]; simpl; try done.
  intros _. rewrite FloatAxioms.leb_spec. change (Prim2SF 0) with (S754_zero false).
  unfold Z.ldexp. rewrite FloatAxioms.ldshiftexp_spec, FloatAxioms.of_uint63_spec.
  assert (Hn : sf_signed false
                 (binary_normalize prec emax
                    (Uint63.to_Z (Uint63.of_Z (Z.pos m))) 0 false)).
  { pose proof (Uint63.to_Z_bounded (Uint63.of_Z (Z.pos m))) as Hb.
    unfold binary_normalize. destruct (Uint63.to_Z _); [done | apply binary_round_signed | lia]. }
  destruct (binary_normalize _ _ _ _ _) as [[]|[]| |[] mx ex]; simpl in Hn; try done.
  unfold SFldexp.
  match goal with
  | |- context [binary_round ?p ?em ?sg ?mm ?k] =>
      pose proof (binary_round_signed sg mm k) as Hr;
      destruct (binary_round p em sg mm k) as [[]|[]| |[] my ey]
  end; simpl in Hr; done.
Qed.

Lemma float_of_decimal_nonnegative s v :
  ReceiptProcessor.float_of_decimal s = Return v -> (0 <=? v)%float = true.
Proof.
  unfold ReceiptProcessor.float_of_decimal.
  destruct (span is_digit s) as [whole rest].
  destruct (match rest with "" => _ | String _ _ => _ end) as [f|]; [|done].
  destruct (0 <? _)%nat; [|done].
  destruct (ReceiptProcessor.digits_value _ _) as [|m|m]; intros [= <-]; try done.
  apply SF2Prim_nonnegative, SFdiv_positive.
Qed.

End Floats.

(** ** Strings *)

Section Strings.

Lemma prefix_app (sub s : string) :
  String.prefix sub s = true <-> exists post, s = sub +:+ post.
Proof.
  revert s. induction sub as [|c sub IH]; intros s.
  - split; [intros _; by exists s | by destruct s].
  - destruct s as [|d s]; simpl; [split; [done | intros [post ?]; discriminate]|].
    destruct (ascii_dec c d) as [->|Hne].
    + rewrite IH. split; intros [post H]; exists post; [by rewrite H | by inversion H].
    + split; [done | intros [post H]; inversion H; congruence].
Qed.

Lemma str_contains_app (sub s : string) :
  str_contains sub s = true <-> exists pre post, s = pre +:+ sub +:+ post.
Proof.
  induction s as [|c s IH]; cbn [str_contains]; rewrite orb_true_iff, prefix_app.
  - split.
    + intros [[post H]|?]; [|done]. by exists "", post.
    + intros (pre & post & H). left. destruct pre; [by exists post | discriminate].
  - rewrite IH. split.
    + intros [[post H]|(pre & post & H)]; [by exists "", post|].
      exists (String c pre), post. by rewrite H.
    + intros (pre & post & H). destruct pre as [|d pre]; [left; by exists post|].
      right. inversion H. by exists pre, post.
Qed.

End Strings.

(** ** receipt_processor.py: the income calculation *)

Section Income.

Import ReceiptProcessor.

Lemma is_discount_negative (cost_breakdown : dict float) :
  Forall (fun x => (x <? 0)%float = true)
         (map snd (List.filter is_discount cost_breakdown)).
Proof.
  induction cost_breakdown as [|[k v] d IH]; simpl; [constructor|].
  destruct (is_discount (k, v)) eqn:Hd; [|exact IH].
  constructor; [|exact IH].
  unfold is_discount in Hd. by apply andb_true_iff in Hd as [_ Hd].
Qed.

(** C3.  [calculate_income] depends on its argument only.  The trip
    price is the value stored under the label "Trip price", or zero when
    the label is missing; the discounts are the sum of the entries whose
    lower-cased label contains "discount" and whose value is below zero,
    and that sum is not above zero; net amount, fee and final income are
    trip price plus discounts, a tenth of the net amount, and the net
    amount minus the fee.  The receipt with a trip price of 490.00 and a
    weekly discount of -21.56 gives 490.00, -21.56, 468.44, 46.844 and
    421.596, and a breakdown without "Trip price" and without a negative
    discount entry gives zero everywhere. *)
Theorem calculate_income_spec (cost_breakdown : dict float) :
  let r := calculate_income cost_breakdown in
  trip_price r = default 0%float (dict_get cost_breakdown "Trip price") /\
  (forall k v,
     In (k, v) (List.filter is_discount cost_breakdown) <->
     In (k, v) cost_breakdown /\
     (exists pre post, lower k = pre +:+ "discount" +:+ post) /\
     (v <? 0)%float = true) /\
  discounts r = sum (map snd (List.filter is_discount cost_breakdown)) /\
  (discounts r <=? 0)%float = true /\
  net_amount r = (trip_price r + discounts r)%float /\
  turo_fee r = (net_amount r * 0.10)%float /\
  final_income r = (net_amount r - turo_fee r)%float /\
  calculate_income [("Trip price", 490.00%float); ("Weekly discount", (-21.56)%float)] =
    {| trip_price := 490.00; discounts := -21.56; net_amount := 468.44;
       turo_fee := 46.844; final_income := 421.596 |} /\
  (dict_get cost_breakdown "Trip price" = None ->
   List.filter is_discount cost_breakdown = [] ->
   r = {| trip_price := 0; discounts := 0; net_amount := 0;
          turo_fee := 0; final_income := 0 |}).
Proof.
  simpl. repeat split; try reflexivity.
  - apply filter_In in H as [H _]. exact H.
  - apply filter_In in H as [_ H]. unfold is_discount in H.
    apply andb_true_iff in H as [H _]. by apply str_contains_app.
  - apply filter_In in H as [_ H]. unfold is_discount in H.
    by apply andb_true_iff in H as [_ H].
  - intros (Hin & Hk & Hv). apply filter_In. split; [done|].
    unfold is_discount. simpl. apply andb_true_iff. split; [|done].
    by apply str_contains_app.
  - apply sum_nonpositive, is_discount_negative.
  - intros Hget Hnone. unfold calculate_income. rewrite Hget, Hnone. reflexivity.
Qed.

(** A breakdown with a cleaning fee and a discount row of zero. *)
Lemma calculate_income_spec_witness :
  calculate_income [("Cleaning fee", 25.0%float); ("Discount", 0%float)] =
    {| trip_price := 0; discounts := 0; net_amount := 0;
       turo_fee := 0; final_income := 0 |}.
Proof.
  apply (calculate_income_spec [("Cleaning fee", 25.0%float); ("Discount", 0%float)]);
    reflexivity.
Defined.

End Income.

(** ** Dictionaries *)

Section Dictionaries.

Context {V : Type}.

Lemma dict_set_In (d : dict V) k v k' v' :
  In (k, v) (dict_set d k' v') -> (k, v) = (k', v') \/ In (k, v) d.
Proof.
  induction d as [|[k0 v0] d IH]; simpl.
  - intros [H|[]]. left. congruence.
  - destruct (String.eqb_spec k0 k') as [->|Hne]; simpl.
    + intros [H|H]; [left; congruence | right; by right].
    + intros [H|H]; [right; by left|]. destruct (IH H); [by left | right; by right].
Qed.

Lemma dict_update_In (d e : dict V) k v :
  In (k, v) (dict_update d e) -> In (k, v) d \/ In (k, v) e.
Proof.
  unfold dict_update. revert d. induction e as [|[k' v'] e IH]; intros d; simpl; [by left|].
  intros H. apply IH in H as [H|H]; [|right; by right].
  apply dict_set_In in H as [H|H]; [right; left; congruence | by left].
Qed.

Lemma dict_get_In (d : dict V) k v : dict_get d k = Some v -> In (k, v) d.
Proof.
  induction d as [|[k0 v0] d IH]; simpl; [done|].
  destruct (String.eqb_spec k0 k) as [->|Hne]; [intros [= ->]; by left|].
  intros H. right. by apply IH.
Qed.

End Dictionaries.

(** ** receipt_processor.py: the cost rows *)

Section CostRows.

Import Dom ReceiptProcessor.

Variable py_float : string -> outcome float.

(** Every entry of the breakdown was stored by one of the rows. *)
Lemma cost_rows_In row_divs d0 d k v :
  cost_rows py_float row_divs d0 = Return d ->
  In (k, v) d ->
  In (k, v) d0 \/
  exists row_div, In row_div row_divs /\ cost_row py_float row_div = Return (Some (k, v)).
Proof.
  revert d0. induction row_divs as [|row rows IH]; intros d0; simpl.
  - intros [= ->]. by left.
  - destruct (cost_row py_float row) as [entry|e] eqn:Hrow; simpl; [|discriminate].
    intros Hrows Hin. destruct (IH _ Hrows Hin) as [H0|(r & Hr & Hrr)].
    + destruct entry as [[label value]|]; [|by left].
      apply dict_set_In in H0 as [[= -> ->]|H0]; [|by left].
      right. exists row. split; [by left | done].
    + right. exists r. split; [by right | done].
Qed.

Lemma span_forallb p s : str_forallb p (span p s).1 = true.
Proof.
  induction s as [|c s IH]; simpl; [done|].
  destruct (p c) eqn:Hc; [|done].
  destruct (span p s) as [a b]. simpl in *. by rewrite Hc.
Qed.

Lemma str_forallb_app p s t :
  str_forallb p (s +:+ t) = str_forallb p s && str_forallb p t.
Proof. induction s as [|c s IH]; simpl; [done|]. by rewrite IH, andb_assoc. Qed.

Lemma str_forallb_impl (p q : ascii -> bool) s :
  (forall c, p c = true -> q c = true) ->
  str_forallb p s = true -> str_forallb q s = true.
Proof.
  intros Hpq. induction s as [|c s IH]; simpl; [done|].
  intros [Hc Hs]%andb_true_iff. by rewrite (Hpq c Hc), IH.
Qed.

Lemma capture_amount_chars s : str_forallb is_amount_char (capture_amount s) = true.
Proof.
  unfold capture_amount.
  pose proof (span_forallb is_digit_or_comma s) as Hw.
  destruct (span is_digit_or_comma s) as [whole rest]. simpl in Hw.
  assert (Hw' : str_forallb is_amount_char whole = true).
  { revert Hw. apply str_forallb_impl. intros c Hc. unfold is_amount_char.
    unfold is_digit_or_comma in Hc. by rewrite Hc. }
  destruct rest as [|c rest']; [done|].
  destruct (Ascii.eqb_spec c ".") as [->|Hne]; [|done].
  rewrite !str_forallb_app, Hw'. simpl.
  eapply str_forallb_impl; [|apply span_forallb].
  intros c Hc. unfold is_amount_char. by rewrite Hc.
Qed.

Lemma search_amount_chars s group :
  search_amount s = Some group -> str_forallb is_amount_char group = true.
Proof.
  induction s as [|c s IH]; simpl; [done|].
  destruct (is_digit_or_comma c); [|exact IH].
  intros [= <-]. apply capture_amount_chars.
Qed.

(** What is handed to [float] carries no sign. *)
Lemma remove_commas_chars group :
  str_forallb is_amount_char group = true ->
  str_forallb is_decimal_char (remove_commas group) = true.
Proof.
  induction group as [|c s IH]; simpl; [done|].
  intros [Hc Hs]%andb_true_iff.
  destruct (Ascii.eqb_spec c ",") as [->|Hne]; [by apply IH|].
  simpl. rewrite IH by done. rewrite andb_true_r.
  unfold is_amount_char in Hc. unfold is_decimal_char.
  apply Ascii.eqb_neq in Hne. rewrite Hne, orb_false_r in Hc. exact Hc.
Qed.

Lemma cost_row_stored row_div label amount :
  cost_row py_float row_div = Return (Some (label, amount)) ->
  exists label_div value_div others group numeric_value,
    find_all_children "div" row_div = label_div :: value_div :: others /\
    cell_text label_div = label /\
    search_amount (cell_text value_div) = Some group /\
    py_float (remove_commas group) = Return numeric_value /\
    amount = signed_amount label (cell_text value_div) numeric_value.
Proof.
  unfold cost_row.
  destruct (find_all_children "div" row_div) as [|label_div [|value_div others]];
    try discriminate.
  destruct (negb _ && negb _); [|discriminate].
  destruct (search_amount (cell_text value_div)) as [group|] eqn:Hs; [|discriminate].
  destruct (py_float (remove_commas group)) as [numeric_value|e] eqn:Hf;
    simpl; [|discriminate].
  intros [= <- <-]. by exists label_div, value_div, others, group, numeric_value.
Qed.

(** C4.  Let [float] give numbers that are not below zero for texts of
    digits and dots.  Every amount in the breakdown returned by
    [extract_cost_details] was stored by a row of the cost section: the
    label is the text of the row's first cell, and the number is what
    [float] made of the digits found in the text of the second cell, a
    text without any sign.  When the text of the second cell contains a
    minus sign or the lower-cased label contains "discount", the amount
    stored is minus the absolute value of that number, hence not above
    zero; otherwise it is the number as written, not below zero. *)
Theorem extract_cost_details_sign_rule
    (soup : node) (cost_breakdown : dict float) (label : string) (amount : float) :
  (forall s v,
     str_forallb is_decimal_char s = true -> py_float s = Return v ->
     (0 <=? v)%float = true) ->
  extract_cost_details py_float soup = Return cost_breakdown ->
  In (label, amount) cost_breakdown ->
  exists cost_section row_div label_div value_div others group numeric_value,
    find (fun n => is_tag "div" n && has_attr "data-testid" "cost-details-section" n)
         soup = Some cost_section /\
    In row_div (find_all_children "div" cost_section) /\
    find_all_children "div" row_div = label_div :: value_div :: others /\
    cell_text label_div = label /\
    search_amount (cell_text value_div) = Some group /\
    str_forallb is_decimal_char (remove_commas group) = true /\
    py_float (remove_commas group) = Return numeric_value /\
    if str_contains "-" (cell_text value_div) || str_contains "discount" (lower label)
    then amount = (- abs numeric_value)%float /\ (amount <=? 0)%float = true
    else amount = numeric_value /\ (0 <=? amount)%float = true.
Proof.
  intros Hfloat. unfold extract_cost_details.
  destruct (find _ soup) as [cost_section|] eqn:Hfind; [|by intros [= <-] []].
  intros Hrows Hin.
  destruct (cost_rows_In _ _ _ _ _ Hrows Hin) as [[]|(row_div & Hrow & Hstored)].
  apply cost_row_stored in Hstored
    as (label_div & value_div & others & group & numeric_value & Hc & Hl & Hs & Hf & Ha).
  assert (Hchars : str_forallb is_decimal_char (remove_commas group) = true)
    by (by eapply remove_commas_chars, search_amount_chars).
  pose proof (Hfloat _ _ Hchars Hf) as Hpos.
  exists cost_section, row_div, label_div, value_div, others, group, numeric_value.
  repeat (split; [done|]).
  unfold signed_amount, forced_negative in Ha.
  destruct (_ || _); rewrite Ha; [|done].
  split; [done|]. by apply opp_abs_nonpositive.
Qed.

End CostRows.

Section CostRowExamples.

Import Dom ReceiptProcessor Examples.

(** The discount row of the example receipt. *)
Lemma extract_cost_details_sign_rule_witness :
  exists cost_section row_div label_div value_div others group numeric_value,
    find (fun n => is_tag "div" n && has_attr "data-testid" "cost-details-section" n)
         receipt_soup = Some cost_section /\
    In row_div (find_all_children "div" cost_section) /\
    find_all_children "div" row_div = label_div :: value_div :: others /\
    cell_text label_div = "Weekly discount" /\
    search_amount (cell_text value_div) = Some group /\
    str_forallb is_decimal_char (remove_commas group) = true /\
    float_of_decimal (remove_commas group) = Return numeric_value /\
    if str_contains "-" (cell_text value_div) ||
       str_contains "discount" (lower "Weekly discount")
    then (-21.56)%float = (- abs numeric_value)%float /\ (-21.56 <=? 0)%float = true
    else (-21.56)%float = numeric_value /\ (0 <=? -21.56)%float = true.
Proof.
  apply (extract_cost_details_sign_rule float_of_decimal receipt_soup
           [("Trip price", 490.00%float); ("Weekly discount", (-21.56)%float)]);
    [intros s v _; apply float_of_decimal_nonnegative
    | reflexivity
    | right; left; reflexivity].
Defined.

End CostRowExamples.

(** ** rental_extractor.py: date ranges and the month filter *)

Section Dates.

Import RentalExtractor.

Local Arguments String.append !s1 s2 : simpl nomatch.

Lemma app_assoc_str (a b c : string) : (a +:+ b) +:+ c = a +:+ (b +:+ c).
Proof. induction a as [|x a IH]; simpl; [done|]. f_equal. exact IH. Qed.

Lemma span_app_eq p s : s = (span p s).1 +:+ (span p s).2.
Proof.
  induction s as [|c s IH]; simpl; [done|].
  destruct (p c); [|done]. destruct (span p s) as [a b]. simpl in *. by rewrite <- IH.
Qed.

(** [span] stops exactly where the characters of the class stop. *)
Lemma span_app p a r :
  str_forallb p a = true -> starts_with p r = false -> span p (a +:+ r) = (a, r).
Proof.
  intros Ha Hr. induction a as [|c a IH]; simpl in *.
  - destruct r as [|d r]; simpl in *; [done|]. by rewrite Hr.
  - apply andb_true_iff in Ha as [-> Ha]. by rewrite IH.
Qed.

Lemma digit_not_space c : is_digit c = true -> is_space c = false.
Proof.
  unfold is_digit, is_space, in_range.
  intros [H1 H2]%andb_true_iff. apply Nat.leb_le in H1, H2.
  apply orb_false_iff. split; apply andb_false_iff.
  - right. apply Nat.leb_gt. lia.
  - right. apply Nat.leb_gt. lia.
Qed.

Lemma word_not_space c : is_word c = true -> is_space c = false.
Proof.
  unfold is_word, is_digit, is_space, in_range.
  rewrite !orb_true_iff, !andb_true_iff, !Nat.leb_le, Nat.eqb_eq.
  intros H. apply orb_false_iff. split; apply andb_false_iff; right; apply Nat.leb_gt; lia.
Qed.

(** *** The pieces of the pattern *)

Lemma word3_inv s w r :
  word3 s = Some (w, r) -> s = w +:+ r /\ is_month_token w.
Proof.
  unfold word3. destruct s as [|a [|b [|c s]]]; try discriminate.
  destruct (is_word a && is_word b && is_word c) eqn:H; [|discriminate].
  intros [= <- <-]. split; [done|]. split; [done|].
  simpl. by rewrite andb_true_r, andb_assoc.
Qed.

Lemma word3_app w r : is_month_token w -> word3 (w +:+ r) = Some (w, r).
Proof.
  intros [Hl Hw]. destruct w as [|a [|b [|c [|d w]]]]; try discriminate.
  simpl in *. rewrite andb_true_r, andb_assoc in Hw. by rewrite Hw.
Qed.

Lemma spaces_inv s : exists ws, s = ws +:+ spaces s /\ is_blank ws.
Proof.
  exists (span is_space s).1. split; [apply span_app_eq | apply span_forallb].
Qed.

Lemma spaces_app ws r :
  is_blank ws -> starts_with is_space r = false -> spaces (ws +:+ r) = r.
Proof. intros Hw Hr. unfold spaces. by rewrite span_app. Qed.

Lemma spaces1_inv s r :
  spaces1 s = Some r -> exists ws, s = ws +:+ r /\ is_blank ws /\ ws <> "".
Proof.
  unfold spaces1. destruct s as [|c s]; [done|].
  destruct (is_space c) eqn:Hc; [|done]. intros [= <-].
  destruct (spaces_inv s) as (ws & Hs & Hw).
  exists (String c ws). split; [simpl; by rewrite <- Hs|].
  split; [|done]. unfold is_blank. simpl. by rewrite Hc.
Qed.

Lemma spaces1_app ws r :
  is_blank ws -> ws <> "" -> starts_with is_space r = false ->
  spaces1 (ws +:+ r) = Some r.
Proof.
  intros Hw Hne Hr. destruct ws as [|c ws]; [done|].
  unfold is_blank in Hw. simpl in *. apply andb_true_iff in Hw as [-> Hw].
  by rewrite spaces_app.
Qed.

Lemma day_inv s d r :
  day s = Some (d, r) ->
  s = d +:+ r /\ is_day_token d /\
  (String.length d = 1 -> starts_with is_digit r = false).
Proof.
  unfold day. destruct s as [|a s]; [done|].
  destruct (is_digit a) eqn:Ha; [|done].
  destruct s as [|b s].
  - intros [= <- <-]. repeat split; simpl; auto. by rewrite Ha.
  - destruct (is_digit b) eqn:Hb; intros [= <- <-].
    + repeat split; simpl; auto; [by rewrite Ha, Hb | discriminate].
    + repeat split; simpl; auto. by rewrite Ha.
Qed.

Lemma day_app d r :
  is_day_token d ->
  (String.length d = 1 -> starts_with is_digit r = false) ->
  day (d +:+ r) = Some (d, r).
Proof.
  intros [Hl Hd] Hr. destruct d as [|a [|b [|c d]]]; simpl in *.
  - by destruct Hl.
  - rewrite andb_true_r in Hd. rewrite Hd.
    destruct r as [|b r]; [done|]. simpl in Hr. by rewrite Hr.
  - apply andb_true_iff in Hd as [-> Hd]. rewrite andb_true_r in Hd. by rewrite Hd.
  - destruct Hl; discriminate.
Qed.

Lemma dash_inv s r : dash s = Some r -> s = "-" +:+ r.
Proof.
  unfold dash. destruct s as [|c s]; [done|].
  destruct (Ascii.eqb_spec c "-") as [->|]; [|done]. by intros [= <-].
Qed.

Lemma month_token_head w r : is_month_token w -> starts_with is_space (w +:+ r) = false.
Proof.
  intros [Hl Hw]. destruct w as [|c w]; [done|]. simpl in *.
  apply andb_true_iff in Hw as [Hc _]. by apply word_not_space.
Qed.

Lemma day_token_head d r : is_day_token d -> starts_with is_space (d +:+ r) = false.
Proof.
  intros [Hl Hd]. destruct d as [|c d]; [by destruct Hl|]. simpl in *.
  apply andb_true_iff in Hd as [Hc _]. by apply digit_not_space.
Qed.

Lemma blank_dash_head_digit ws r :
  is_blank ws -> starts_with is_digit (ws +:+ String "-" r) = false.
Proof.
  intros Hw. destruct ws as [|c ws]; [done|]. unfold is_blank in Hw. simpl in *.
  apply andb_true_iff in Hw as [Hc _].
  destruct (is_digit c) eqn:Hd; [|done]. apply digit_not_space in Hd. congruence.
Qed.

(** *** The parser against the shape *)

Lemma parse_stripped_complete sm ws1 sd ws2 ws3 em ws4 ed rest :
  is_month_token sm -> is_day_token sd -> is_month_token em -> is_day_token ed ->
  is_blank ws1 -> ws1 <> "" -> is_blank ws2 -> is_blank ws3 ->
  is_blank ws4 -> ws4 <> "" ->
  (String.length ed = 1 -> starts_with is_digit rest = false) ->
  match_date_range (date_range_text sm ws1 sd ws2 ws3 em ws4 ed +:+ rest)
  = Some (make_dates sm sd em ed).
Proof.
  intros Hsm Hsd Hem Hed H1 H1' H2 H3 H4 H4' Hrest.
  unfold match_date_range, date_range_text.
  rewrite !app_assoc_str.
  rewrite word3_app by done. simpl.
  rewrite spaces1_app; [simpl| done | done | by apply day_token_head].
  rewrite day_app; [simpl| done | intros _; by apply blank_dash_head_digit].
  rewrite spaces_app by done. simpl.
  rewrite spaces_app; [| done | by apply month_token_head].
  rewrite word3_app by done. simpl.
  rewrite spaces1_app; [simpl| done | done | by apply day_token_head].
  rewrite day_app by done. reflexivity.
Qed.

Lemma parse_date_range_complete text sm sd em ed :
  date_range_shape text sm sd em ed ->
  parse_date_range text = Some (make_dates sm sd em ed).
Proof.
  intros (ws1 & ws2 & ws3 & ws4 & rest & Hs & H).
  unfold parse_date_range. rewrite Hs.
  destruct H as (? & ? & ? & ? & ? & ? & ? & ? & ? & ? & ?).
  by apply parse_stripped_complete.
Qed.

Lemma parse_date_range_sound text r :
  parse_date_range text = Some r ->
  exists sm sd em ed, date_range_shape text sm sd em ed /\ r = make_dates sm sd em ed.
Proof.
  unfold parse_date_range, match_date_range.
  destruct (word3 (strip text)) as [[sm s1]|] eqn:E1; [|done]. simpl.
  destruct (spaces1 s1) as [s2|] eqn:E2; [|done]. simpl.
  destruct (day s2) as [[sd s3]|] eqn:E3; [|done]. simpl.
  destruct (dash (spaces s3)) as [s4|] eqn:E4; [|done]. simpl.
  destruct (word3 (spaces s4)) as [[em s5]|] eqn:E5; [|done]. simpl.
  destruct (spaces1 s5) as [s6|] eqn:E6; [|done]. simpl.
  destruct (day s6) as [[ed s7]|] eqn:E7; [|done]. simpl.
  intros [= <-].
  apply word3_inv in E1 as [E1 Hsm].
  apply spaces1_inv in E2 as (ws1 & E2 & H1 & H1').
  apply day_inv in E3 as (E3 & Hsd & _).
  destruct (spaces_inv s3) as (ws2 & E3' & H2).
  apply dash_inv in E4.
  destruct (spaces_inv s4) as (ws3 & E4' & H3).
  apply word3_inv in E5 as [E5 Hem].
  apply spaces1_inv in E6 as (ws4 & E6 & H4 & H4').
  apply day_inv in E7 as (E7 & Hed & Hrest).
  exists sm, sd, em, ed. split; [|done].
  exists ws1, ws2, ws3, ws4, s7. split.
  - unfold date_range_text. rewrite !app_assoc_str.
    rewrite E1, E2, E3, E3', E4, E4', E5, E6, E7. simpl. reflexivity.
  - repeat (split; [assumption|]). assumption.
Qed.

(** *** Stripping a text that starts with a date range *)

Lemma lstrip_id s : starts_with is_space s = false -> lstrip s = s.
Proof. destruct s as [|c s]; simpl; [done|]. by intros ->. Qed.

Lemma rstrip_prefix a x : rstrip x <> "" -> rstrip (a +:+ x) = a +:+ rstrip x.
Proof.
  intros Hx. induction a as [|c a IH]; simpl; [done|].
  rewrite IH. destruct (a +:+ rstrip x) eqn:E; [|done].
  destruct a; simpl in E; [done | discriminate].
Qed.

Lemma rstrip_cons_nonspace c r :
  is_space c = false -> rstrip (String c r) = String c (rstrip r).
Proof. intros Hc. simpl. destruct (rstrip r); [by rewrite Hc | done]. Qed.

Lemma rstrip_day d rest : is_day_token d -> rstrip (d +:+ rest) = d +:+ rstrip rest.
Proof.
  intros [Hl Hd]. destruct d as [|a [|b [|c d]]]; simpl in Hl, Hd.
  - by destruct Hl.
  - rewrite andb_true_r in Hd. by apply rstrip_cons_nonspace, digit_not_space.
  - apply andb_true_iff in Hd as [Ha Hb]. rewrite andb_true_r in Hb.
    change (String a (String b "") +:+ rest) with (String a (String b rest)).
    by rewrite !rstrip_cons_nonspace by by apply digit_not_space.
  - destruct Hl; discriminate.
Qed.


Lemma strip_date_range sm ws1 sd ws2 ws3 em ws4 ed rest :
  is_month_token sm -> is_day_token ed ->
  strip (date_range_text sm ws1 sd ws2 ws3 em ws4 ed +:+ rest) =
  date_range_text sm ws1 sd ws2 ws3 em ws4 ed +:+ rstrip rest.
Proof.
  intros Hsm Hed. unfold strip, date_range_text.
  rewrite !app_assoc_str.
  rewrite lstrip_id by by apply month_token_head.
  assert (E : forall x,
    sm +:+ ws1 +:+ sd +:+ ws2 +:+ "-" +:+ ws3 +:+ em +:+ ws4 +:+ x =
    (sm +:+ ws1 +:+ sd +:+ ws2 +:+ "-" +:+ ws3 +:+ em +:+ ws4) +:+ x).
  { intros x. by rewrite !app_assoc_str. }
  rewrite (E (ed +:+ rest)), (E (ed +:+ rstrip rest)).
  rewrite rstrip_prefix; rewrite rstrip_day by done; [done|].
  destruct Hed as [Hl _]. destruct ed; [by destruct Hl | done].
Qed.

End Dates.

Section DateClaims.

Import RentalExtractor.



(** C5.  Let the date texts be ASCII, as the English pages are.  A
    rental read from the page gives a record exactly when its date text
    has the shape of a date range and the second month token is the
    target month; the record then carries the vehicle, the link and the
    parsed dates.  A text that does not parse, or whose end month
    differs, gives no record and no failure: the vehicle is still
    reported, with the records of its other rentals.  "Jul 3 - Jul 13"
    parses to start "Jul 3", end "Jul 13", end month "Jul" and is
    dropped for the target month "Aug"; "Jul 28 - Aug 2" is kept. *)
Theorem rental_record_iff_target_month
    (extract : string -> outcome (list RawRental)) (target : string)
    (vehicle_url : string) (vehicle_info : list string)
    (all_rentals : list RawRental) :
  extract vehicle_url = Return all_rentals ->
  Forall (fun rental => is_ascii (date_text rental) = true) all_rentals ->
  (forall rental record,
     is_ascii (date_text rental) = true ->
     matching_rental (Some target) vehicle_info rental = Some record <->
     exists sm sd em ed,
       date_range_shape (date_text rental) sm sd em ed /\ em = target /\
       record = {| vehicle_info := vehicle_info; rental_href := raw_href rental;
                   parsed_dates := make_dates sm sd em ed |}) /\
  (forall rental,
     is_ascii (date_text rental) = true ->
     parse_date_range (date_text rental) = None ->
     matching_rental (Some target) vehicle_info rental = None) /\
  (forall rental dates,
     is_ascii (date_text rental) = true ->
     parse_date_range (date_text rental) = Some dates -> end_month dates <> target ->
     matching_rental (Some target) vehicle_info rental = None) /\
  (exists records,
     process_vehicle_rentals extract (Some target) vehicle_url vehicle_info =
       [(vehicle_url, records)] /\
     forall record,
       record ∈ records <->
       exists rental, rental ∈ all_rentals /\
         matching_rental (Some target) vehicle_info rental = Some record) /\
  parse_date_range "Jul 3 - Jul 13" =
    Some {| start_date := "Jul 3"; end_date := "Jul 13"; end_month := "Jul" |} /\
  (forall href trip name,
     matching_rental (Some "Aug") vehicle_info
       {| raw_href := href; date_text := "Jul 3 - Jul 13";
          trip_name := trip; vehicle_name := name |} = None) /\
  (forall href trip name,
     matching_rental (Some "Aug") vehicle_info
       {| raw_href := href; date_text := "Jul 28 - Aug 2";
          trip_name := trip; vehicle_name := name |} =
     Some {| vehicle_info := vehicle_info; rental_href := href;
             parsed_dates := {| start_date := "Jul 28"; end_date := "Aug 2";
                                end_month := "Aug" |} |}).
Proof.
  intros Hextract _.
  split; [|split; [|split; [|split; [|by repeat split]]]].
  - intros rental record _. unfold matching_rental, is_rental_in_target_month. split.
    + destruct (parse_date_range (date_text rental)) as [dates|] eqn:Hp; [|done].
      apply parse_date_range_sound in Hp as (sm & sd & em & ed & Hshape & ->).
      destruct (String.eqb_spec target ""); [done|]. simpl.
      destruct (String.eqb_spec em target) as [->|]; [|done].
      intros [= <-]. by exists sm, sd, target, ed.
    + intros (sm & sd & em & ed & Hshape & <- & ->).
      pose proof Hshape as (? & ? & ? & ? & ? & _ & _ & _ & [Hl _] & _).
      rewrite (parse_date_range_complete _ _ _ _ _ Hshape). simpl.
      destruct (String.eqb_spec em "") as [->|]; [done|].
      by rewrite String.eqb_refl.
  - intros rental _ Hp. unfold matching_rental. by rewrite Hp.
  - intros rental dates _ Hp Hne. unfold matching_rental, is_rental_in_target_month.
    rewrite Hp. destruct (String.eqb_spec target ""); [done|].
    by destruct (String.eqb_spec (end_month dates) target).
  - unfold process_vehicle_rentals. rewrite Hextract. eexists. split; [done|].
    intros record. rewrite list_elem_of_omap. naive_solver.
Qed.

End DateClaims.

Section DateExamples.

Import RentalExtractor Examples.

(** Of the two rentals on the example page only the one that ends in
    August gives a record. *)
Lemma rental_record_iff_target_month_witness :
  exists records,
    process_vehicle_rentals rentals_on_page (Some "Aug") tesla_url tesla =
      [(tesla_url, records)] /\
    forall record,
      record ∈ records <->
      exists rental, rental ∈ [july_rental; august_rental] /\
        matching_rental (Some "Aug") tesla rental = Some record.
Proof.
  apply (rental_record_iff_target_month rentals_on_page "Aug" tesla_url tesla
           [july_rental; august_rental] eq_refl).
  repeat constructor.
Defined.

End DateExamples.

(** ** Vehicles without an owner *)

Section Owners.

Import RentalExtractor ReceiptProcessor.

Lemma existsb_eqb_In (x : string) (l : list string) :
  existsb (String.eqb x) l = true <-> In x l.
Proof.
  rewrite existsb_exists. split.
  - intros (y & Hy & ->%String.eqb_eq). done.
  - intros H. exists x. split; [done | apply String.eqb_refl].
Qed.

Lemma indexed_spec vehicle_owners plate :
  indexed vehicle_owners plate = true <->
  exists owner_name plates, In (owner_name, plates) vehicle_owners /\ In plate plates.
Proof.
  unfold indexed. rewrite existsb_exists. split.
  - intros ([o ps] & Hin & Hp). exists o, ps. split; [done|]. by apply existsb_eqb_In.
  - intros (o & ps & Hin & Hp). exists (o, ps). split; [done|]. by apply existsb_eqb_In.
Qed.

(** The set built by [process_all_vehicles] holds the indexed plates. *)
Lemma allowed_license_plates_spec vehicle_owners plate :
  plate ∈ allowed_license_plates vehicle_owners <-> indexed vehicle_owners plate = true.
Proof.
  unfold allowed_license_plates.
  cut (forall acc : gset string,
         plate ∈ fold_left (fun allowed op => allowed ∪ list_to_set op.2) vehicle_owners acc
         <-> plate ∈ acc \/ indexed vehicle_owners plate = true).
  { intros H. rewrite H. set_solver. }
  induction vehicle_owners as [|[o ps] rest IH]; intros acc; simpl.
  - unfold indexed. simpl. naive_solver.
  - rewrite IH. unfold indexed. simpl.
    rewrite elem_of_union, elem_of_list_to_set, orb_true_iff, existsb_eqb_In,
      list_elem_of_In.
    tauto.
Qed.

Lemma get_owner_spec vehicle_owners plate owner_name :
  get_owner_for_license_plate vehicle_owners plate = Some owner_name ->
  exists plates, In (owner_name, plates) vehicle_owners /\ In plate plates.
Proof.
  induction vehicle_owners as [|[o ps] rest IH]; simpl; [done|].
  destruct (existsb (String.eqb plate) ps) eqn:E.
  - intros [= <-]. exists ps. split; [by left | by apply existsb_eqb_In].
  - intros H. destruct (IH H) as (plates & Hin & Hp). exists plates. split; [by right|done].
Qed.

Lemma get_owner_unindexed vehicle_owners plate :
  indexed vehicle_owners plate = false ->
  get_owner_for_license_plate vehicle_owners plate = None.
Proof.
  unfold indexed. induction vehicle_owners as [|[o ps] rest IH]; simpl; [done|].
  intros [-> H]%orb_false_iff. by apply IH.
Qed.

Lemma filtered_vehicles_In allowed vehicles url info :
  In (url, info) (filtered_vehicles allowed vehicles) ->
  In (url, info) vehicles /\ exists plate, info !! 2 = Some plate /\ plate ∈ allowed.
Proof.
  unfold filtered_vehicles.
  cut (forall acc,
         In (url, info)
            (fold_left
               (fun filtered (uv : string * list string) =>
                  match uv.2 !! 2 with
                  | Some license_plate =>
                      if decide (license_plate ∈ allowed)
                      then dict_set filtered uv.1 uv.2
                      else filtered
                  | None => filtered
                  end) vehicles acc) ->
         In (url, info) acc \/
         (In (url, info) vehicles /\ exists plate, info !! 2 = Some plate /\ plate ∈ allowed)).
  { intros H Hin. by destruct (H [] Hin). }
  induction vehicles as [|[u i] rest IH]; intros acc; simpl; [by left|].
  intros H. apply IH in H as [H|(H & Hp)]; [|right; split; [by right | done]].
  destruct (i !! 2) as [plate|] eqn:Hi; [|by left].
  destruct (decide (plate ∈ allowed)); [|by left].
  apply dict_set_In in H as [[= -> ->]|H]; [|by left].
  right. split; [by left|]. by exists plate.
Qed.

Lemma process_vehicle_rentals_In extract target url info u records record :
  In (u, records) (process_vehicle_rentals extract target url info) ->
  In record records ->
  u = url /\ RentalExtractor.vehicle_info record = info.
Proof.
  unfold process_vehicle_rentals.
  destruct (extract url) as [all_rentals|e]; [|done].
  intros [[= <- <-]|[]] Hrec. split; [done|].
  apply list_elem_of_In, list_elem_of_omap in Hrec as (rental & _ & Hm).
  unfold matching_rental in Hm.
  destruct (parse_date_range _); [|done].
  destruct (is_rental_in_target_month _ _); [|done].
  by inversion Hm.
Qed.

(** Every record returned for the batch belongs to a listed vehicle
    whose plate is indexed. *)
Lemma process_all_vehicles_records extract target vehicles vehicle_owners result :
  process_all_vehicles extract target (Some (vehicles, vehicle_owners)) = Return result ->
  forall url records record,
    In (url, records) result -> In record records ->
    In (url, RentalExtractor.vehicle_info record) vehicles /\
    exists plate,
      RentalExtractor.vehicle_info record !! 2 = Some plate /\
      indexed vehicle_owners plate = true.
Proof.
  unfold process_all_vehicles.
  destruct target as [m|]; [|done]. destruct (String.eqb m ""); [done|].
  intros [= <-] url records record.
  set (fv := filtered_vehicles (allowed_license_plates vehicle_owners) vehicles).
  assert (Hfv : forall u i, In (u, i) fv ->
            In (u, i) vehicles /\
            exists plate, i !! 2 = Some plate /\ indexed vehicle_owners plate = true).
  { intros u i Hin. apply filtered_vehicles_In in Hin as (H & plate & Hp & Ha).
    split; [done|]. exists plate. split; [done|]. by apply allowed_license_plates_spec. }
  clearbody fv.
  cut (forall acc,
         In (url, records)
            (fold_left
               (fun all_matching (uv : string * list string) =>
                  dict_update all_matching
                    (process_vehicle_rentals extract (Some m) uv.1 uv.2)) fv acc) ->
         In record records ->
         In (url, records) acc \/
         (In (url, RentalExtractor.vehicle_info record) vehicles /\
          exists plate,
            RentalExtractor.vehicle_info record !! 2 = Some plate /\
            indexed vehicle_owners plate = true)).
  { intros H Hin Hrec. by destruct (H [] Hin Hrec). }
  induction fv as [|[u i] rest IH]; intros acc; simpl; [by left|].
  intros Hin Hrec.
  destruct (IH (fun u' i' H => Hfv u' i' (or_intror H)) _ Hin Hrec) as [H|H]; [|by right].
  apply dict_update_In in H as [H|H]; [by left|]. right.
  destruct (process_vehicle_rentals_In _ _ _ _ _ _ _ H Hrec) as [-> ->].
  apply Hfv. by left.
Qed.

(** [process_receipt] copies its arguments into the result. *)
Lemma process_receipt_fields py_float folders browser href info owner_name plate :
  let r := process_receipt py_float folders browser href info owner_name plate in
  rental_href r = href /\ ReceiptProcessor.vehicle_info r = info /\
  owner r = owner_name /\ license_plate r = plate.
Proof.
  unfold process_receipt.
  destruct (bind _ _) as [r|e] eqn:Hb; [|done].
  unfold bind in Hb.
  repeat match type of Hb with
         | match ?x with _ => _ end = _ => destruct x; try discriminate
         end;
    injection Hb as <-; done.
Qed.

(** Every receipt of the batch is for a plate that its owner lists. *)
Lemma process_all_receipts_owned process vehicle_owners rental_data receipt :
  In receipt (process_all_receipts process vehicle_owners rental_data) ->
  exists href info owner_name plate plates,
    receipt = process href info owner_name plate /\
    info !! 2 = Some plate /\
    get_owner_for_license_plate vehicle_owners plate = Some owner_name /\
    In (owner_name, plates) vehicle_owners /\ In plate plates.
Proof.
  unfold process_all_receipts.
  intros H.
  assert (H' : In receipt
                 (flat_map (fun ur => vehicle_receipts process vehicle_owners ur.2)
                    rental_data)).
  { destruct vehicle_owners, rental_data; done. }
  clear H. apply in_flat_map in H' as ([url rentals] & _ & H). simpl in H.
  unfold vehicle_receipts in H.
  destruct rentals as [|first rest]; [done|].
  destruct (RentalExtractor.vehicle_info first !! 2) as [plate|] eqn:Hp; [|done].
  destruct (get_owner_for_license_plate vehicle_owners plate) as [owner_name|] eqn:Ho;
    [|done].
  destruct (String.eqb owner_name ""); [done|].
  apply in_map_iff in H as (rental & <- & _).
  destruct (get_owner_spec _ _ _ Ho) as (plates & Hin & Hpl).
  by exists (RentalExtractor.rental_href rental), (RentalExtractor.vehicle_info first),
            owner_name, plate, plates.
Qed.

(** The rows of the income table come from the receipts. *)
Lemma owner_summary_rows (P : string -> string -> Prop) receipt_results :
  (forall r, In r receipt_results -> P (owner r) (license_plate r)) ->
  forall s0 s,
    (forall o vs p e, In (o, vs) s0 -> In (p, e) vs -> P o p) ->
    owner_summary_from receipt_results s0 = Return s ->
    forall o vs p e, In (o, vs) s -> In (p, e) vs -> P o p.
Proof.
  induction receipt_results as [|r rest IH]; intros HP s0 s Hs0; simpl.
  - intros [= <-]. exact Hs0.
  - destruct (summarise s0 r) as [s1|] eqn:Hs1; simpl; [|done].
    apply IH; [intros r' Hr'; apply HP; by right|].
    unfold summarise in Hs1.
    destruct (error r); [by injection Hs1 as <-|].
    destruct (ReceiptProcessor.vehicle_info r) as [|name ?]; [done|].
    destruct (income_calculation r) as [calc|]; [|done].
    injection Hs1 as <-.
    intros o vs p e [[= -> ->]|Hin]%dict_set_In; [|by eapply Hs0].
    intros [[= -> ->]|Hin]%dict_set_In; [apply HP; by left|].
    match type of Hin with
    | In _ (default [] ?g) => destruct g as [vs0|] eqn:Hg
    end; simpl in Hin; [|destruct Hin].
    eapply Hs0; [by eapply dict_get_In | done].
Qed.

End Owners.

Section OwnerClaims.

Import RentalExtractor ReceiptProcessor.

(** C6.  A plate that no owner of the index lists is dropped before any
    processing.  In the rental batch its vehicle is not among the
    filtered vehicles and no record returned is for it; no owner is
    looked up for it; in the receipt batch no receipt is for it, every
    receipt being attributed to an owner who lists its plate; and the
    income table, whose totals are sums over those receipts, has no row
    for it. *)
Theorem unindexed_plate_dropped
    (vehicle_owners : dict (list string)) (plate : string)
    (extract : string -> outcome (list RawRental)) (target : option string)
    (vehicles : dict (list string))
    (py_float : string -> outcome float) (owner_folders : dict string)
    (browser : string -> ReceiptPage)
    (rental_data : dict (list RentalRecord)) :
  indexed vehicle_owners plate = false ->
  (forall url info,
     info !! 2 = Some plate ->
     ~ In (url, info) (filtered_vehicles (allowed_license_plates vehicle_owners) vehicles)) /\
  (forall result url records record,
     process_all_vehicles extract target (Some (vehicles, vehicle_owners)) = Return result ->
     In (url, records) result -> In record records ->
     RentalExtractor.vehicle_info record !! 2 <> Some plate) /\
  get_owner_for_license_plate vehicle_owners plate = None /\
  let receipts :=
    process_all_receipts (process_receipt py_float owner_folders browser)
      vehicle_owners rental_data in
  (forall receipt,
     In receipt receipts ->
     license_plate receipt <> plate /\
     exists plates,
       In (owner receipt, plates) vehicle_owners /\ In (license_plate receipt) plates) /\
  (forall summary owner_name rows row_plate row,
     owner_summary receipts = Return summary ->
     In (owner_name, rows) summary -> In (row_plate, row) rows ->
     row_plate <> plate /\
     exists plates, In (owner_name, plates) vehicle_owners /\ In row_plate plates).
Proof.
  intros Hun.
  assert (Hno : forall o ps, In (o, ps) vehicle_owners -> In plate ps -> False).
  { intros o ps Hin Hp.
    assert (indexed vehicle_owners plate = true) by (apply indexed_spec; eauto).
    congruence. }
  assert (Hreceipts : forall receipt,
            In receipt
              (process_all_receipts (process_receipt py_float owner_folders browser)
                 vehicle_owners rental_data) ->
            exists plates,
              In (owner receipt, plates) vehicle_owners /\
              In (license_plate receipt) plates).
  { intros receipt Hin.
    apply process_all_receipts_owned in Hin
      as (href & info & o & p & plates & -> & _ & _ & Hin & Hp).
    pose proof (process_receipt_fields py_float owner_folders browser href info o p)
      as (_ & _ & -> & ->).
    by exists plates. }
  split; [|split; [|split; [|split]]].
  - intros url info Hp Hin.
    apply filtered_vehicles_In in Hin as (_ & p & Hp' & Ha).
    apply allowed_license_plates_spec in Ha. congruence.
  - intros result url records record Hres Hin Hrec Hp.
    destruct (process_all_vehicles_records _ _ _ _ _ Hres _ _ _ Hin Hrec)
      as (_ & p & Hp' & Hi).
    congruence.
  - by apply get_owner_unindexed.
  - intros receipt Hin. destruct (Hreceipts receipt Hin) as (plates & Ho & Hp).
    split; [|by exists plates]. intros Heq. rewrite Heq in Hp. by eapply Hno.
  - intros summary owner_name rows row_plate row Hsum Hin Hrow.
    assert (Hrows : exists plates,
              In (owner_name, plates) vehicle_owners /\ In row_plate plates).
    { eapply (owner_summary_rows
                (fun o p => exists plates, In (o, plates) vehicle_owners /\ In p plates));
        [exact Hreceipts | | exact Hsum | exact Hin | exact Hrow].
      intros ? ? ? ? []. }
    split; [|done]. intros ->. destruct Hrows as (plates & Ho & Hp). by eapply Hno.
Qed.

End OwnerClaims.

Section OwnerExamples.

Import RentalExtractor Examples.

(** The Civic's plate is in nobody's list: the listing is filtered out
    and no owner is found for it. *)
Lemma unindexed_plate_dropped_witness :
  ReceiptProcessor.get_owner_for_license_plate owners "ZZZ999" = None /\
  ~ In (civic_url, civic) (filtered_vehicles (allowed_license_plates owners) listings).
Proof.
  pose proof
    (unindexed_plate_dropped owners "ZZZ999" rentals_on_page (Some "Aug") listings
       ReceiptProcessor.float_of_decimal []
       (fun _ => quiet_receipt_page)
       [] eq_refl) as (Hfiltered & _ & Howner & _).
  split; [exact Howner | exact (Hfiltered civic_url civic eq_refl)].
Defined.

End OwnerExamples.

(** ** extract_vehicle_from_listing.py *)

Section Cards.

Import VehicleExtractor.

Lemma for_each_card_missing_subtitle cards vehicles :
  Exists (fun card => length (subtitles card) < 2) cards ->
  exists e, for_each_card cards vehicles = Raise e.
Proof.
  intros Hex. revert vehicles. induction Hex as [card rest Hcard|card rest _ IH];
    intros vehicles; simpl.
  - assert (Hd : exists e, card_details card = Raise e).
    { unfold card_details, subtitle_title.
      destruct (subtitles card) as [|s1 [|s2 l]]; simpl in *; [eauto | eauto | lia]. }
    destruct Hd as [e ->]. by exists e.
  - destruct (card_details card) as [details|e]; simpl; [apply IH | by exists e].
Qed.

(** One card without its two subtitle paragraphs makes the whole
    extraction return the empty mapping. *)
Lemma extract_vehicle_listings_missing_subtitle self vehicle_data cards :
  Crawler.page self <> None ->
  Exists (fun card => length (subtitles card) < 2) cards ->
  extract_vehicle_listings self vehicle_data cards = (Return [], vehicle_data).
Proof.
  intros Hpage Hex. unfold extract_vehicle_listings, page_script.
  destruct (Crawler.page self); [|done].
  by destruct (for_each_card_missing_subtitle cards [] Hex) as [e ->].
Qed.

(** When the script runs through, every entry has details. *)
Lemma for_each_card_details cards vehicles result :
  for_each_card cards vehicles = Return result ->
  (forall href details, In (href, details) vehicles -> details <> []) ->
  forall href details, In (href, details) result -> details <> [].
Proof.
  revert vehicles. induction cards as [|card rest IH]; intros vehicles; simpl.
  - by intros [= <-].
  - destruct (card_details card) as [details|e]; simpl; [|done].
    intros Hrest Hv. eapply IH; [exact Hrest|].
    destruct (0 <? length details)%nat eqn:Hl; [|exact Hv].
    intros href d [[= -> ->]|Hin]%dict_set_In; [|by eapply Hv].
    by destruct details.
Qed.

End Cards.

Section CardExamples.

Import VehicleExtractor Examples.

(** C8, on the code.  The complete card alone is extracted; followed by
    a card that lacks its second subtitle paragraph, nothing is: the
    script fails on the second card and the extractor returns the empty
    mapping, the first card included. *)
Theorem bare_card_empties_extraction :
  extract_vehicle_listings connected [] [complete_card] =
    (Return [(tesla_url, tesla)], [(tesla_url, tesla)]) /\
  page_script [complete_card; bare_card] =
    Raise (TypeError "Cannot read properties of undefined (reading 'getAttribute')") /\
  extract_vehicle_listings connected [] [complete_card; bare_card] = (Return [], []).
Proof. repeat split. Qed.

End CardExamples.

(** ** The missing method *)

Section MissingMethod.

Import Crawler.

Lemma open_new_tab_not_defined (c : cls) : has_attribute c "open_new_tab" = false.
Proof. by destruct c. Qed.

(** C9, as the code has it.  No class defines [open_new_tab] and no
    instance attribute has that name, so the lookup fails for every
    object.  With a page connected, [extract_rentals_from_page] catches
    the failure and returns the empty list; without one its guard raises
    before the [try] is entered.  [process_receipt] returns, for every
    input, the failure record with the text of the lookup failure under
    ['error'] and without cost breakdown or income. *)
Theorem open_new_tab_missing
    (self : Session) (rentals_browser : string -> RentalExtractor.RentalsPage)
    (vehicle_url : string)
    (py_float : string -> outcome float) (owner_folders : dict string)
    (receipt_browser : string -> ReceiptProcessor.ReceiptPage)
    (rental_href : string) (vehicle_info : list string)
    (owner_name license_plate : string) :
  (forall c, ~ In "open_new_tab" (methods c) /\
             ~ In "open_new_tab" (instance_attributes c) /\
             has_attribute c "open_new_tab" = false) /\
  (is_Some (page self) ->
   RentalExtractor.extract_rentals_from_page self rentals_browser vehicle_url =
     Return []) /\
  (page self = None ->
   RentalExtractor.extract_rentals_from_page self rentals_browser vehicle_url =
     Raise (RuntimeError "No page connected. Call connect_to_browser() first.")) /\
  ReceiptProcessor.process_receipt py_float owner_folders receipt_browser
    rental_href vehicle_info owner_name license_plate =
    {| ReceiptProcessor.rental_href := rental_href;
       ReceiptProcessor.vehicle_info := vehicle_info;
       ReceiptProcessor.owner := owner_name;
       ReceiptProcessor.license_plate := license_plate;
       ReceiptProcessor.timestamp := None;
       ReceiptProcessor.cost_breakdown := None;
       ReceiptProcessor.income_calculation := None;
       ReceiptProcessor.screenshot_path := None;
       ReceiptProcessor.error :=
         Some "'ReceiptProcessor' object has no attribute 'open_new_tab'" |}.
Proof.
  split; [|split; [|split]].
  - intros c. split; [|split]; [| |apply open_new_tab_not_defined];
      destruct c; simpl; intros H; repeat (destruct H as [H|H]; [discriminate|]);
      exact H.
  - intros [url Hp]. unfold RentalExtractor.extract_rentals_from_page. by rewrite Hp.
  - intros Hp. unfold RentalExtractor.extract_rentals_from_page. by rewrite Hp.
  - reflexivity.
Qed.

End MissingMethod.

Section MissingMethodExamples.

Import RentalExtractor Examples.

(** With a page connected the rentals of the example page are lost. *)
Lemma open_new_tab_missing_witness :
  extract_rentals_from_page connected (fun _ => quiet_rentals_page) tesla_url = Return [].
Proof.
  apply (open_new_tab_missing connected (fun _ => quiet_rentals_page) tesla_url
           ReceiptProcessor.float_of_decimal [] (fun _ => quiet_receipt_page)
           "https://turo.com/us/en/reservation/1" tesla "Alice" "ABC123").
  by eexists.
Defined.

(** C9 as stated fails without a connected page: the guard of
    [extract_rentals_from_page] raises to the caller. *)
Lemma extract_rentals_from_page_raises_disconnected :
  extract_rentals_from_page disconnected (fun _ => quiet_rentals_page) tesla_url =
    Raise (RuntimeError "No page connected. Call connect_to_browser() first.") /\
  extract_rentals_from_page disconnected (fun _ => quiet_rentals_page) tesla_url <>
    Return [].
Proof. split; [reflexivity | discriminate]. Qed.

End MissingMethodExamples.

(** ** crawler.py: the round-trip navigator *)

Section Navigator.

Import Crawler.

Variables (out_dir : string) (take_screenshot extract_data : bool).
Variables (script : nat -> Response) (original_url : string).

Abbreviation loop := (navigate_loop out_dir take_screenshot extract_data script original_url).
Abbreviation result_of := (target_result out_dir take_screenshot extract_data script).
Abbreviation trace_of := (target_trace out_dir take_screenshot extract_data script original_url).
Abbreviation visit_at i link := (visit out_dir take_screenshot extract_data i link (script i)).

(** *** One iteration *)

Ltac case_response r :=
  destruct (on_goto r) as [[]|?], (on_title r) as [?|?],
           (on_screenshot r) as [[]|?], (on_page_data r) as [?|?],
           (on_save r) as [[]|?].

(** The result of an iteration is either a capture or a failure record. *)
Lemma visit_result i link :
  let r := (visit_at i link).2 in
  index r = i /\ original_link r = link /\
  ((failed r = false /\ captured r = true /\ timestamp r = now_captured (script i)) \/
   (exists e, r = failure_result i link e (script i))).
Proof.
  unfold visit, try_body, call, tbind, tret.
  case_response (script i); destruct take_screenshot, extract_data; simpl;
    repeat split; eauto.
Qed.

Lemma visit_clean i link :
  succeeds take_screenshot extract_data (script i) = true ->
  failed (visit_at i link).2 = false /\ captured (visit_at i link).2 = true.
Proof.
  unfold succeeds, visit, try_body, call, tbind, tret, is_return.
  case_response (script i); destruct take_screenshot, extract_data; simpl;
    try discriminate; auto.
Qed.

Lemma visit_goto_failure i link e :
  on_goto (script i) = Raise e ->
  visit_at i link = ([EvNavigate i (href link)], failure_result i link e (script i)).
Proof.
  intros H. unfold visit, try_body, call, tbind. rewrite H. reflexivity.
Qed.

(** An iteration starts with the navigation to its target and makes no
    other navigation and no reconnect. *)
Lemma visit_trace i link :
  exists rest,
    (visit_at i link).1 = EvNavigate i (href link) :: rest /\
    Forall (fun ev => event_target ev = i /\
                      (forall j, is_navigate j ev = false) /\
                      (forall j, is_reconnect j ev = false)) rest.
Proof.
  unfold visit, try_body, call, tbind, tret.
  case_response (script i); destruct take_screenshot, extract_data; simpl;
    eexists; (split; [reflexivity|]); repeat constructor.
Qed.

Lemma return_trace_targets i :
  Forall (fun ev => event_target ev = i) (return_trace original_url i (script i)).
Proof.
  unfold return_trace. destruct (is_return _); repeat constructor.
Qed.

Lemma target_trace_targets i link :
  Forall (fun ev => event_target ev = i) (trace_of i link).
Proof.
  unfold target_trace. apply Forall_app. split; [|apply return_trace_targets].
  destruct (visit_trace i link) as (rest & -> & Hrest).
  constructor; [done|]. eapply Forall_impl; [exact Hrest|]. naive_solver.
Qed.

Lemma target_trace_navigations i link :
  List.filter (is_navigate i) (trace_of i link) = [EvNavigate i (href link)].
Proof.
  unfold target_trace, return_trace.
  destruct (visit_trace i link) as (rest & -> & Hrest).
  rewrite List.filter_app. simpl. rewrite Nat.eqb_refl.
  assert (Hn : List.filter (is_navigate i) rest = []).
  { induction Hrest as [|ev l [_ [Hev _]] _ IH]; simpl; [done|]. by rewrite Hev. }
  rewrite Hn. by destruct (is_return _).
Qed.

Lemma target_trace_reconnects i link :
  List.filter (is_reconnect i) (trace_of i link) =
  if is_return (on_return (script i)) then [] else [EvReconnect i].
Proof.
  unfold target_trace, return_trace.
  destruct (visit_trace i link) as (rest & -> & Hrest).
  rewrite List.filter_app. simpl.
  assert (Hn : List.filter (is_reconnect i) rest = []).
  { induction Hrest as [|ev l [_ [_ Hev]] _ IH]; simpl; [done|]. by rewrite Hev. }
  rewrite Hn. destruct (is_return _); simpl; [done|]. by rewrite Nat.eqb_refl.
Qed.

(** *** The loop *)

Lemma processed_le i hrefs : processed script i hrefs <= length hrefs.
Proof.
  revert i. induction hrefs as [|l hrefs IH]; intros i; simpl; [lia|].
  destruct (aborted (script i)); [lia|]. specialize (IH (S i)). lia.
Qed.

(** The loop handles the first [processed] targets, one after the other. *)
Lemma navigate_loop_spec i hrefs url :
  let n := processed script i hrefs in
  (loop i hrefs url).1 =
    (imap (fun p => result_of (i + p)) (take n hrefs),
     concat (imap (fun p => trace_of (i + p)) (take n hrefs))).
Proof.
  revert i url. induction hrefs as [|link hrefs IH]; intros i url; [reflexivity|].
  assert (Hshift : forall url',
    (loop (S i) hrefs url').1 =
      (imap ((fun p => result_of (i + p)) ∘ S) (take (processed script (S i) hrefs) hrefs),
       concat (imap ((fun p => trace_of (i + p)) ∘ S)
                 (take (processed script (S i) hrefs) hrefs)))).
  { intros url'. rewrite IH. simpl. f_equal; [|f_equal];
      apply imap_ext; intros p x _; simpl; by rewrite Nat.add_succ_r. }
  assert (Hhead : forall n,
    (imap (fun p => result_of (i + p)) (take (S n) (link :: hrefs)),
     concat (imap (fun p => trace_of (i + p)) (take (S n) (link :: hrefs)))) =
    ((visit_at i link).2 :: imap ((fun p => result_of (i + p)) ∘ S) (take n hrefs),
     ((visit_at i link).1 ++ return_trace original_url i (script i)) ++
     concat (imap ((fun p => trace_of (i + p)) ∘ S) (take n hrefs)))).
  { intros n. cbn [take imap concat]. by rewrite Nat.add_0_r. }
  cbn [navigate_loop processed]. unfold aborted, return_trace in *.
  destruct (visit_at i link) as [t result] eqn:Hv.
  destruct (on_return (script i)) as [[]|e]; simpl negb; simpl andb.
  - specialize (Hshift (url_after_return (script i))).
    destruct (loop (S i) hrefs (url_after_return (script i))) as [[rs tr] fin].
    rewrite Hhead. simpl in *. inversion Hshift; subst.
    by rewrite <- !app_assoc.
  - destruct (on_reconnect (script i)) as [url'|]; simpl negb; simpl andb.
    + specialize (Hshift url').
      destruct (loop (S i) hrefs url') as [[rs tr] fin].
      rewrite Hhead. simpl in *. inversion Hshift; subst.
      by rewrite <- !app_assoc.
    + cbv iota. rewrite (Hhead 0). simpl. by rewrite app_nil_r.
Qed.

Lemma navigate_loop_results i hrefs url :
  (loop i hrefs url).1.1 =
  imap (fun p => result_of (i + p)) (take (processed script i hrefs) hrefs).
Proof. by rewrite navigate_loop_spec. Qed.

Lemma navigate_loop_trace i hrefs url :
  (loop i hrefs url).1.2 =
  concat (imap (fun p => trace_of (i + p)) (take (processed script i hrefs) hrefs)).
Proof. by rewrite navigate_loop_spec. Qed.

Lemma navigate_loop_length i hrefs url :
  length (loop i hrefs url).1.1 = processed script i hrefs.
Proof.
  rewrite navigate_loop_results, length_imap, length_take.
  pose proof (processed_le i hrefs). lia.
Qed.

(** Without an abort every target is processed... *)
Lemma processed_all i hrefs :
  (forall p, p < length hrefs -> aborted (script (i + p)) = false) ->
  processed script i hrefs = length hrefs.
Proof.
  revert i. induction hrefs as [|l hrefs IH]; intros i H; simpl; [done|].
  rewrite <- (Nat.add_0_r i) at 1. rewrite H by (simpl; lia).
  f_equal. apply IH. intros p Hp. rewrite Nat.add_succ_comm. apply H. simpl. lia.
Qed.

(** ... and the targets before an abort are. *)
Lemma processed_reaches i hrefs p :
  p < length hrefs ->
  (forall q, q < p -> aborted (script (i + q)) = false) ->
  p < processed script i hrefs.
Proof.
  revert i p. induction hrefs as [|l hrefs IH]; intros i p Hp H; simpl in *; [lia|].
  destruct p as [|p]; [destruct (aborted _); lia|].
  rewrite <- (Nat.add_0_r i) at 1. rewrite H by lia.
  apply ->Nat.succ_lt_mono. apply IH; [lia|].
  intros q Hq. rewrite Nat.add_succ_comm. apply H. lia.
Qed.

(** The targets before the last processed one did not abort the run, and
    an abort is the last target processed. *)
Lemma processed_not_aborted i hrefs p :
  S p < processed script i hrefs -> aborted (script (i + p)) = false.
Proof.
  revert i p. induction hrefs as [|l hrefs IH]; intros i p Hp; simpl in *; [lia|].
  destruct (aborted (script i)) eqn:Ha; [lia|].
  destruct p as [|p]; [by rewrite Nat.add_0_r|].
  rewrite <- Nat.add_succ_comm. apply IH. lia.
Qed.

(** Where the page is after a run: where the return step of the last
    processed target left it, or where the reconnect found it. *)
Lemma navigate_loop_final i hrefs url :
  hrefs <> [] ->
  let last := script (i + processed script i hrefs - 1) in
  (loop i hrefs url).2 =
    if is_return (on_return last) then url_after_return last
    else default (url_after_return last) (on_reconnect last).
Proof.
  revert i url. induction hrefs as [|link hrefs IH]; intros i url Hne; [done|].
  cbn [navigate_loop processed]. unfold aborted.
  destruct (visit_at i link) as [t result].
  assert (Hstep : forall url',
    url' = (if is_return (on_return (script i)) then url_after_return (script i)
            else default (url_after_return (script i)) (on_reconnect (script i))) ->
    let last := script (i + S (processed script (S i) hrefs) - 1) in
    (loop (S i) hrefs url').2 =
      if is_return (on_return last) then url_after_return last
      else default (url_after_return last) (on_reconnect last)).
  { intros url' Hurl. destruct hrefs as [|link' hrefs'].
    - simpl. by replace (i + 1 - 1) with i by lia.
    - specialize (IH (S i) url' ltac:(done)). cbv zeta in IH.
      by replace (i + S (processed script (S i) (link' :: hrefs')) - 1)
        with (S i + processed script (S i) (link' :: hrefs') - 1) by lia. }
  destruct (on_return (script i)) as [[]|e] eqn:Hret; simpl negb; simpl andb.
  - specialize (Hstep (url_after_return (script i)) eq_refl).
    by destruct (loop (S i) hrefs (url_after_return (script i))) as [[rs tr] fin].
  - destruct (on_reconnect (script i)) as [url'|] eqn:Hrec; simpl negb; simpl andb.
    + specialize (Hstep url' eq_refl).
      by destruct (loop (S i) hrefs url') as [[rs tr] fin].
    + cbv iota zeta. replace (i + 1 - 1) with i by lia. by rewrite Hret, Hrec.
Qed.

(** Every event of the run belongs to one of the processed targets. *)
Lemma traces_targets i (l : list Link) :
  Forall (fun ev => i <= event_target ev < i + length l)
         (concat (imap (fun p => trace_of (i + p)) l)).
Proof.
  revert i. induction l as [|link l IH]; intros i; simpl; [constructor|].
  apply Forall_app. split.
  - eapply Forall_impl; [apply target_trace_targets|]. simpl. intros ev ->. lia.
  - erewrite imap_ext; [|intros p x _; simpl; by rewrite Nat.add_succ_r].
    eapply Forall_impl; [apply (IH (S i))|]. simpl. intros ev. lia.
Qed.

Lemma filter_other_target (sel : nat -> event -> bool) i (t : list event) :
  (forall j ev, sel j ev = true -> event_target ev = j) ->
  Forall (fun ev => event_target ev <> i) t ->
  List.filter (sel i) t = [].
Proof.
  intros Hsel. induction 1 as [|ev t Hev _ IH]; simpl; [done|].
  destruct (sel i ev) eqn:E; [|done]. apply Hsel in E. done.
Qed.

Lemma is_navigate_target j ev : is_navigate j ev = true -> event_target ev = j.
Proof. destruct ev; simpl; try discriminate. by intros ->%Nat.eqb_eq. Qed.

Lemma is_reconnect_target j ev : is_reconnect j ev = true -> event_target ev = j.
Proof. destruct ev; simpl; try discriminate. by intros ->%Nat.eqb_eq. Qed.

(** The trace of a run, cut around the events of target [p]. *)
Lemma traces_split (l : list Link) p link :
  l !! p = Some link ->
  exists t1 t2,
    concat (imap (fun q => trace_of (0 + q)) l) = t1 ++ trace_of p link ++ t2 /\
    Forall (fun ev => event_target ev < p) t1 /\
    Forall (fun ev => p < event_target ev) t2.
Proof.
  intros Hp. apply list_elem_of_split_length in Hp as (l1 & l2 & -> & ->).
  rewrite imap_app, concat_app. simpl.
  exists (concat (imap (fun q => trace_of q) l1)),
         (concat (imap ((fun q => trace_of (length l1 + q)) ∘ S) l2)).
  rewrite Nat.add_0_r. split; [done|]. split.
  - eapply Forall_impl; [apply (traces_targets 0 l1)|]. simpl. intros ev. lia.
  - erewrite imap_ext; [|intros q x _; simpl; by rewrite Nat.add_succ_r].
    eapply Forall_impl; [apply (traces_targets (S (length l1)) l2)|].
    simpl. intros ev. lia.
Qed.

(** *** Runs seen from the caller *)

Lemma navigate_and_return_connected (self : Session) hrefs origin :
  out_dir = output_dir self ->
  page self = Some origin ->
  original_url = origin ->
  navigate_and_return self script hrefs take_screenshot extract_data =
  Return ((loop 0 hrefs origin).1.1, (loop 0 hrefs origin).1.2,
          {| output_dir := output_dir self; page := Some (loop 0 hrefs origin).2 |}).
Proof.
  intros -> Hp ->. unfold navigate_and_return. rewrite Hp.
  by destruct (navigate_loop _ _ _ _ _ _ _ _) as [[rs tr] fin].
Qed.

End Navigator.

Section NavigatorClaims.

Import Crawler.

Lemma imap_index_seq out_dir ts ed script i (l : list Link) :
  map index (imap (fun p => target_result out_dir ts ed script (i + p)) l) =
  seq i (length l).
Proof.
  revert i. induction l as [|link l IH]; intros i; simpl; [done|].
  rewrite Nat.add_0_r. f_equal; [apply visit_result|].
  rewrite <- IH. f_equal. apply imap_ext. intros p x _. simpl. f_equal. lia.
Qed.

Lemma imap_original_link out_dir ts ed script i (l : list Link) :
  map original_link (imap (fun p => target_result out_dir ts ed script (i + p)) l) = l.
Proof.
  revert i. induction l as [|link l IH]; intros i; simpl; [done|].
  f_equal; [apply visit_result|].
  rewrite <- (IH (S i)) at 2. f_equal. apply imap_ext. intros p x _. simpl. f_equal. lia.
Qed.

Lemma succeeds_not_aborted ts ed r : succeeds ts ed r = true -> aborted r = false.
Proof.
  unfold succeeds, aborted. intros H.
  apply andb_true_iff in H as [_ ->]. reflexivity.
Qed.

Lemma succeeds_return ts ed r : succeeds ts ed r = true -> is_return (on_return r) = true.
Proof. unfold succeeds. intros H. by apply andb_true_iff in H as [_ ->]. Qed.

Lemma navigate_loop_returns out_dir ts ed script origin hrefs url i :
  i < processed script 0 hrefs ->
  In (EvReturn i origin) (navigate_loop out_dir ts ed script origin 0 hrefs url).1.2.
Proof.
  intros Hi. rewrite navigate_loop_trace.
  destruct (lookup_lt_is_Some_2 (take (processed script 0 hrefs) hrefs) i) as [link Hlink].
  { rewrite length_take. pose proof (processed_le script 0 hrefs). lia. }
  destruct (traces_split out_dir ts ed script origin _ _ _ Hlink) as (t1 & t2 & -> & _).
  apply in_or_app. right. apply in_or_app. left.
  unfold target_trace, return_trace. apply in_or_app. right. by left.
Qed.

(** C1, as the code has it.  When the crawler is connected and no
    navigation, capture or return step fails for any of the N targets,
    [navigate_and_return] returns N results, none of them a failure
    record, with the indices 0 .. N-1 and the links of the input in
    input order, and after every target it navigates back to the URL
    read before the loop.  The page is then where the last of these
    navigations landed (where it was, when N = 0): on the URL read
    before the loop if the browser was not sent elsewhere, which the
    code does not check. *)
Theorem navigate_and_return_all_succeed
    (self : Session) (script : nat -> Response) (hrefs : list Link)
    (take_screenshot extract_data : bool) (origin : string) :
  page self = Some origin ->
  (forall i, i < length hrefs -> succeeds take_screenshot extract_data (script i) = true) ->
  exists results trace final,
    navigate_and_return self script hrefs take_screenshot extract_data =
      Return (results, trace, final) /\
    length results = length hrefs /\
    map index results = seq 0 (length hrefs) /\
    map original_link results = hrefs /\
    Forall (fun r => failed r = false /\ captured r = true) results /\
    (forall i, i < length hrefs -> In (EvReturn i origin) trace) /\
    page final = Some match length hrefs with
                      | 0 => origin
                      | S last => url_after_return (script last)
                      end /\
    ((forall i, i < length hrefs -> url_after_return (script i) = origin) ->
     page final = Some origin).
Proof.
  intros Hpage Hok.
  eexists _, _, _. split.
  { by apply (navigate_and_return_connected (output_dir self) _ _ _ origin). }
  assert (Hn : processed script 0 hrefs = length hrefs).
  { apply processed_all. intros p Hp. eapply succeeds_not_aborted. by apply Hok. }
  rewrite navigate_loop_results, Hn, firstn_all.
  split; [by rewrite length_imap|].
  split; [apply imap_index_seq|].
  split; [apply imap_original_link|].
  split.
  { apply Forall_lookup. intros p r Hr.
    apply list_lookup_imap_Some in Hr as (link & Hlink & ->).
    apply visit_clean, Hok. by eapply lookup_lt_Some. }
  split.
  { intros i Hi. apply navigate_loop_returns. by rewrite Hn. }
  assert (Hfinal :
    (navigate_loop (output_dir self) take_screenshot extract_data script origin
       0 hrefs origin).2 =
    match length hrefs with
    | 0 => origin
    | S last => url_after_return (script last)
    end).
  { destruct (decide (hrefs = [])) as [->|Hne]; [done|].
    rewrite navigate_loop_final by done. rewrite Hn.
    destruct (length hrefs) as [|last] eqn:Hl; [by destruct hrefs|].
    replace (0 + S last - 1) with last by lia.
    rewrite (succeeds_return take_screenshot extract_data); [done|]. apply Hok. lia. }
  simpl. rewrite Hfinal. split; [done|].
  intros Hland. destruct (length hrefs) as [|last] eqn:Hl; [done|].
  rewrite Hland; [done|lia].
Qed.

End NavigatorClaims.

Section NavigatorPolicy.

Import Crawler.

Lemma filter_split_target (sel : nat -> event -> bool) i (t1 mid t2 : list event) :
  (forall j ev, sel j ev = true -> event_target ev = j) ->
  Forall (fun ev => event_target ev < i) t1 ->
  Forall (fun ev => i < event_target ev) t2 ->
  List.filter (sel i) (t1 ++ mid ++ t2) = List.filter (sel i) mid.
Proof.
  intros Hsel H1 H2. rewrite !List.filter_app.
  rewrite (filter_other_target sel i t1), (filter_other_target sel i t2), app_nil_r; auto.
  - eapply Forall_impl; [exact H2|]. simpl. lia.
  - eapply Forall_impl; [exact H1|]. simpl. lia.
Qed.

(** C2.  A connected crawler always gets a list of at most N results,
    never an exception.  For a processed target whose return to the
    origin fails, exactly one reconnect is attempted (and none when the
    return succeeds).  When that reconnect succeeds the next target, if
    there is one, is navigated to and gets a result; when it fails, the
    target is the last one with a result and no call is made for any
    later target. *)
Theorem navigate_and_return_reconnect_policy
    (self : Session) (script : nat -> Response) (hrefs : list Link)
    (take_screenshot extract_data : bool) (origin : string) :
  page self = Some origin ->
  exists results trace final,
    navigate_and_return self script hrefs take_screenshot extract_data =
      Return (results, trace, final) /\
    length results <= length hrefs /\
    forall i, i < length results ->
      (is_return (on_return (script i)) = true ->
         List.filter (is_reconnect i) trace = []) /\
      (is_return (on_return (script i)) = false ->
         List.filter (is_reconnect i) trace = [EvReconnect i] /\
         (is_Some (on_reconnect (script i)) ->
            forall next, hrefs !! S i = Some next ->
              S i < length results /\ In (EvNavigate (S i) (href next)) trace) /\
         (on_reconnect (script i) = None ->
            length results = S i /\
            Forall (fun ev => event_target ev <= i) trace)).
Proof.
  intros Hpage.
  eexists _, _, _. split.
  { by apply (navigate_and_return_connected (output_dir self) _ _ _ origin). }
  rewrite navigate_loop_length, navigate_loop_trace.
  split; [apply processed_le|].
  intros i Hi.
  set (n := processed script 0 hrefs) in *.
  assert (Hlen : length (take n hrefs) = n).
  { rewrite length_take. pose proof (processed_le script 0 hrefs). lia. }
  destruct (lookup_lt_is_Some_2 (take n hrefs) i) as [link Hlink]; [lia|].
  destruct (traces_split (output_dir self) take_screenshot extract_data script origin
              _ _ _ Hlink) as (t1 & t2 & Ht & H1 & H2).
  rewrite Ht.
  rewrite (filter_split_target is_reconnect) by auto using is_reconnect_target.
  rewrite target_trace_reconnects.
  split; [by intros ->|]. intros Hret. rewrite Hret.
  split; [done|]. split.
  - intros Hrec next Hnext.
    assert (Hna : aborted (script i) = false).
    { unfold aborted. rewrite bool_decide_eq_true_2 by done. apply andb_false_r. }
    assert (Hreach : S i < n).
    { apply (processed_reaches script 0 hrefs (S i)).
      - by eapply lookup_lt_Some.
      - intros q Hq. destruct (decide (q = i)) as [->|Hne]; [done|].
        apply (processed_not_aborted script 0 hrefs q). fold n. lia. }
    split; [done|]. rewrite <- Ht.
    assert (Hnext' : take n hrefs !! S i = Some next) by (by rewrite lookup_take_lt).
    destruct (traces_split (output_dir self) take_screenshot extract_data script origin
                _ _ _ Hnext') as (u1 & u2 & -> & _ & _).
    apply in_or_app. right. apply in_or_app. left.
    unfold target_trace.
    destruct (visit_trace (output_dir self) take_screenshot extract_data script (S i) next)
      as (rest & -> & _).
    by left.
  - intros Hrec.
    assert (Ha : aborted (script i) = true).
    { unfold aborted. rewrite Hret, Hrec. reflexivity. }
    assert (Hn : n = S i).
    { destruct (decide (S i < n)) as [Hlt|Hge]; [|lia].
      pose proof (processed_not_aborted script 0 hrefs i Hlt) as Hc.
      simpl in Hc. congruence. }
    split; [done|]. rewrite <- Ht.
    eapply Forall_impl; [apply traces_targets|]. simpl. intros ev. lia.
Qed.

End NavigatorPolicy.

Section NavigatorResults.

Import Crawler.

(** C7.  In every result exactly one of the two holds: the error is
    set, or the capture fields (the URL reached, the page title, and
    the time of the capture as time stamp) are; a failure record carries
    none of the capture fields.  When the navigation to a processed
    target raises, the result of that target is the failure record with
    the text of the exception, the target is navigated to once only, the
    call that follows is the return to the origin, and unless the run is
    aborted there the next target gets a result as well. *)
Theorem navigation_result_error_xor_capture
    (self : Session) (script : nat -> Response) (hrefs : list Link)
    (take_screenshot extract_data : bool) (origin : string)
    (results : list NavigationResult) (trace : list event) (final : Session) :
  page self = Some origin ->
  navigate_and_return self script hrefs take_screenshot extract_data =
    Return (results, trace, final) ->
  Forall (fun r =>
            xorb (failed r) (captured r) = true /\
            (failed r = false -> timestamp r = now_captured (script (index r))) /\
            (failed r = true ->
               current_url r = None /\ page_title r = None /\
               screenshot_path r = None /\ data_path r = None /\ page_data r = None))
         results /\
  forall i link e,
    hrefs !! i = Some link ->
    i < length results ->
    on_goto (script i) = Raise e ->
    results !! i = Some (failure_result i link e (script i)) /\
    error (failure_result i link e (script i)) = Some (exn_str e) /\
    List.filter (is_navigate i) trace = [EvNavigate i (href link)] /\
    (exists t1 t2,
       trace = t1 ++ [EvNavigate i (href link); EvReturn i origin] ++ t2) /\
    (aborted (script i) = false -> S i < length hrefs -> S i < length results).
Proof.
  intros Hpage Hrun.
  rewrite (navigate_and_return_connected (output_dir self) _ _ _ origin _ _ origin)
    in Hrun by done.
  inversion Hrun as [[Hres Htr Hfin]]. clear Hrun Hfin.
  rewrite navigate_loop_results. rewrite navigate_loop_trace.
  set (n := processed script 0 hrefs) in *.
  split.
  - apply Forall_lookup. intros p r Hr.
    apply list_lookup_imap_Some in Hr as (link & Hlink & ->).
    pose proof (visit_result (output_dir self) take_screenshot extract_data script p link)
      as (Hi & _ & Hcase).
    simpl in *. unfold target_result.
    destruct Hcase as [(Hf & Hc & Ht)|(e & He)].
    + rewrite Hf, Hc, Hi. by repeat split.
    + rewrite He. by repeat split.
  - intros i link e Hlink Hi Hgoto.
    rewrite length_imap in Hi.
    assert (Hlen : length (take n hrefs) = n).
    { rewrite length_take. pose proof (processed_le script 0 hrefs). lia. }
    rewrite Hlen in Hi.
    assert (Hlink' : take n hrefs !! i = Some link) by (by rewrite lookup_take_lt).
    destruct (traces_split (output_dir self) take_screenshot extract_data script origin
                _ _ _ Hlink') as (t1 & t2 & Ht & H1 & H2).
    split.
    { rewrite list_lookup_imap, Hlink'. simpl. unfold target_result.
      by rewrite (visit_goto_failure _ _ _ _ _ _ e). }
    split; [done|]. split.
    { rewrite Ht.
      rewrite (filter_split_target is_navigate) by auto using is_navigate_target.
      apply target_trace_navigations. }
    split.
    { rewrite Ht. unfold target_trace, return_trace.
      rewrite (visit_goto_failure _ _ _ _ _ _ e) by done. simpl.
      exists t1. eexists. reflexivity. }
    intros Hna Hnext. rewrite length_imap, Hlen.
    apply (processed_reaches script 0 hrefs (S i)); [done|].
    intros q Hq. destruct (decide (q = i)) as [->|Hne]; [done|].
    apply (processed_not_aborted script 0 hrefs q). fold n. lia.
Qed.

End NavigatorResults.

Section NavigatorExamples.

Import Crawler Examples.

(** Two targets, every call succeeding and every return landing on the
    trips page. *)
Lemma navigate_and_return_all_succeed_witness :
  exists results trace final,
    navigate_and_return connected calm_script two_links true true =
      Return (results, trace, final) /\
    length results = length two_links /\
    map index results = seq 0 (length two_links) /\
    map original_link results = two_links /\
    Forall (fun r => failed r = false /\ captured r = true) results /\
    In (EvReturn 0 host_page) trace /\ In (EvReturn 1 host_page) trace /\
    page final = Some host_page.
Proof.
  destruct (navigate_and_return_all_succeed connected calm_script two_links true true
              host_page eq_refl (fun i _ => eq_refl))
    as (results & trace & final & Hrun & Hlen & Hidx & Hlinks & Hok & Hret & _ & Hland).
  exists results, trace, final.
  repeat (split; [assumption|]).
  split; [apply Hret; simpl; lia|]. split; [apply Hret; simpl; lia|].
  apply Hland. intros i _. reflexivity.
Defined.

(** C1 as stated fails when the site redirects the return: no call
    fails for either target, yet the run ends on the sign-in page and
    not on the URL read before the loop. *)
Lemma navigate_and_return_redirected_return :
  (forall i, succeeds true true (redirected_script i) = true) /\
  exists results trace final,
    navigate_and_return connected redirected_script two_links true true =
      Return (results, trace, final) /\
    length results = length two_links /\
    page final = Some sign_in_page /\
    page final <> Some host_page.
Proof.
  split; [reflexivity|]. do 3 eexists. split; [reflexivity|].
  split; [reflexivity|]. split; [reflexivity|]. discriminate.
Qed.

(** The browser is lost while the first of two targets is processed:
    one result, one reconnect, nothing for the second target. *)
Lemma navigate_and_return_reconnect_policy_witness :
  exists results trace final,
    navigate_and_return connected lost_script two_links true true =
      Return (results, trace, final) /\
    length results = 1 /\
    List.filter (is_reconnect 0) trace = [EvReconnect 0] /\
    Forall (fun ev => event_target ev <= 0) trace.
Proof.
  destruct (navigate_and_return_reconnect_policy connected lost_script two_links true true
              host_page eq_refl) as (results & trace & final & Hrun & Hlen & Hpol).
  exists results, trace, final.
  assert (H0 : 0 < length results).
  { vm_compute in Hrun. injection Hrun as <- _ _. simpl. lia. }
  destruct (Hpol 0 H0) as [_ Hfail].
  destruct (Hfail eq_refl) as (Hrec & _ & Habort).
  destruct (Habort eq_refl) as [Hone Hlast].
  auto.
Defined.

(** The first navigation times out, the second target is still visited. *)
Lemma navigation_result_error_xor_capture_witness :
  let run := navigate_loop "output" true true refused_script host_page 0 two_links host_page in
  run.1.1 !! 0 = Some (failure_result 0 first_link (BrowserError "Timeout 30000ms exceeded.")
                         refused) /\
  List.filter (is_navigate 0) run.1.2 = [EvNavigate 0 (href first_link)] /\
  1 < length run.1.1.
Proof.
  intros run.
  destruct (navigation_result_error_xor_capture connected refused_script two_links true true
              host_page run.1.1 run.1.2
              {| output_dir := "output"; page := Some run.2 |} eq_refl eq_refl)
    as [_ H].
  destruct (H 0 first_link (BrowserError "Timeout 30000ms exceeded.") eq_refl
              ltac:(vm_compute; lia) eq_refl) as (Hres & _ & Hnav & _ & Hnext).
  split; [exact Hres|]. split; [exact Hnav|].
  apply Hnext; [reflexivity | simpl; lia].
Defined.

End NavigatorExamples.

(** ** More on the navigation loop *)

Section NavigatorRuns.

Import Crawler Navigation.

Lemma navigate_and_return_inv self script hrefs ts ed results trace final :
  navigate_and_return self script hrefs ts ed = Return (results, trace, final) ->
  exists origin,
    page self = Some origin /\
    let run := navigate_loop (output_dir self) ts ed script origin 0 hrefs origin in
    results = run.1.1 /\ trace = run.1.2 /\
    final = {| output_dir := output_dir self; page := Some run.2 |}.
Proof.
  unfold navigate_and_return. destruct (page self) as [origin|]; [|discriminate].
  destruct (navigate_loop _ _ _ _ _ _ _ _) as [[rs tr] fin] eqn:E. intros [= <- <- <-].
  exists origin. split; [reflexivity|]. simpl. by rewrite E.
Qed.

Lemma processed_positive script i (hrefs : list Link) :
  hrefs <> [] -> 0 < processed script i hrefs.
Proof. destruct hrefs; [done|]. simpl. destruct (aborted _); lia. Qed.

Lemma navigate_loop_lookup out_dir ts ed script origin hrefs url i link :
  hrefs !! i = Some link ->
  i < length (navigate_loop out_dir ts ed script origin 0 hrefs url).1.1 ->
  (navigate_loop out_dir ts ed script origin 0 hrefs url).1.1 !! i =
    Some (target_result out_dir ts ed script i link).
Proof.
  intros Hi Hlen. rewrite navigate_loop_length in Hlen.
  rewrite navigate_loop_results, list_lookup_imap, lookup_take_lt by done.
  by rewrite Hi.
Qed.

(** X1.  Whatever fails on the way, the results of a run are those of
    the first targets of the input, in input order and numbered from 0;
    a run over a non-empty input has at least one result. *)
Theorem navigate_and_return_results_prefix
    (self : Session) (script : nat -> Response) (hrefs : list Link)
    (take_screenshot extract_data : bool)
    (results : list NavigationResult) (trace : list event) (final : Session) :
  navigate_and_return self script hrefs take_screenshot extract_data =
    Return (results, trace, final) ->
  map index results = seq 0 (length results) /\
  map original_link results = take (length results) hrefs /\
  (hrefs <> [] -> results <> []).
Proof.
  intros (origin & _ & -> & _ & _)%navigate_and_return_inv.
  rewrite navigate_loop_length, navigate_loop_results.
  pose proof (processed_le script 0 hrefs) as Hle.
  split; [|split].
  - rewrite imap_index_seq, length_take. f_equal. lia.
  - by rewrite imap_original_link.
  - intros Hne%(processed_positive script 0) Hnil.
    apply (f_equal length) in Hnil. rewrite length_imap, length_take in Hnil.
    simpl in Hnil. lia.
Qed.

Lemma visit_first_failure out_dir ts ed i link r :
  let v := (visit out_dir ts ed i link r).2 in
  match first_failure ts ed r with
  | Some e => v = failure_result i link e r
  | None =>
      error v = None /\
      current_url v = Some (url_after_goto r) /\
      page_title v = (match on_title r with Return t => Some t | Raise _ => None end) /\
      screenshot_path v =
        (if ts then Some (path_join [out_dir; "screenshots";
                                     navigation_filename i (text link) ".png"])
         else None) /\
      data_path v =
        (if ed then Some (path_join [out_dir; "data";
                                     navigation_filename i (text link) ".json"])
         else None) /\
      page_data v =
        (if ed then match on_page_data r with Return d => Some d | Raise _ => None end
         else None)
  end.
Proof.
  unfold visit, try_body, call, tbind, tret, first_failure, failure_of.
  destruct (on_goto r) as [[]|?], (on_title r) as [?|?],
           (on_screenshot r) as [[]|?], (on_page_data r) as [?|?],
           (on_save r) as [[]|?]; destruct ts, ed; simpl; auto 10.
Qed.

(** X2.  The result of a processed target is decided by the first call
    of its capture that raises: with such a call the result is the
    failure record carrying the text of that exception, whichever call it
    was; without one the result has no error, the URL the browser showed
    after the navigation, and the screenshot and data paths exactly when
    the options ask for them.
    A failed capture alone does not end the run: unless the return and
    the reconnect fail, the next target gets a result as well. *)
Theorem navigate_and_return_first_failure
    (self : Session) (script : nat -> Response) (hrefs : list Link)
    (take_screenshot extract_data : bool)
    (results : list NavigationResult) (trace : list event) (final : Session)
    (i : nat) (link : Link) :
  navigate_and_return self script hrefs take_screenshot extract_data =
    Return (results, trace, final) ->
  hrefs !! i = Some link ->
  i < length results ->
  exists r,
    results !! i = Some r /\
    match first_failure take_screenshot extract_data (script i) with
    | Some e => r = failure_result i link e (script i)
    | None =>
        error r = None /\
        current_url r = Some (url_after_goto (script i)) /\
        (is_Some (screenshot_path r) <-> take_screenshot = true) /\
        (is_Some (data_path r) <-> extract_data = true) /\
        (is_Some (page_data r) <-> extract_data = true)
    end /\
    (aborted (script i) = false -> S i < length hrefs -> S i < length results).
Proof.
  intros (origin & _ & -> & _ & _)%navigate_and_return_inv Hi Hlen.
  eexists. split; [by apply navigate_loop_lookup|]. split.
  - pose proof (visit_first_failure (output_dir self) take_screenshot extract_data
                  i link (script i)) as Hv.
    unfold target_result.
    destruct (first_failure _ _ _) as [e|] eqn:Hf; [exact Hv|].
    destruct Hv as (He & Hu & _ & Hs & Hd & Hp).
    split; [done|]. split; [done|].
    rewrite Hs, Hd, Hp.
    unfold first_failure, failure_of in Hf.
    destruct (on_goto (script i)), (on_title (script i)); try discriminate.
    destruct take_screenshot, extract_data, (on_page_data (script i)),
             (on_screenshot (script i));
      try discriminate; repeat split; intros H; try done; try (by inversion H);
      try (by eexists).
  - intros Ha Hnext. rewrite navigate_loop_length in *.
    apply processed_reaches; [done|].
    intros q Hq. destruct (decide (q = i)) as [->|Hne]; [done|].
    apply (processed_not_aborted script 0 hrefs q). lia.
Qed.

End NavigatorRuns.

Section NavigatorCalls.

Import Crawler Navigation.

Lemma visit_allowed out_dir ts ed i link r :
  Forall (fun ev => allowed_event ts ed ev = true /\
                    forall j, is_return_to j ev = false)
         (visit out_dir ts ed i link r).1.
Proof.
  unfold visit, try_body, call, tbind, tret.
  destruct (on_goto r) as [[]|?], (on_title r) as [?|?],
           (on_screenshot r) as [[]|?], (on_page_data r) as [?|?],
           (on_save r) as [[]|?]; destruct ts, ed; simpl; repeat constructor.
Qed.

Lemma target_trace_allowed out_dir ts ed script origin i link :
  Forall (fun ev => allowed_event ts ed ev = true)
         (target_trace out_dir ts ed script origin i link).
Proof.
  unfold target_trace, return_trace. apply Forall_app. split.
  - eapply Forall_impl; [apply visit_allowed|]. naive_solver.
  - destruct (is_return _); repeat constructor.
Qed.

Lemma target_trace_returns out_dir ts ed script origin i link :
  List.filter (is_return_to i) (target_trace out_dir ts ed script origin i link) =
  [EvReturn i origin].
Proof.
  unfold target_trace, return_trace. rewrite List.filter_app.
  assert (Hn : List.filter (is_return_to i)
                 (visit out_dir ts ed i link (script i)).1 = []).
  { pose proof (visit_allowed out_dir ts ed i link (script i)) as H.
    induction H as [|ev l [_ Hev] _ IH]; simpl; [done|]. by rewrite Hev. }
  rewrite Hn. simpl. rewrite Nat.eqb_refl. by destruct (is_return _).
Qed.

Lemma is_return_to_target j ev : is_return_to j ev = true -> event_target ev = j.
Proof. destruct ev; simpl; try discriminate. by intros ->%Nat.eqb_eq. Qed.

Lemma traces_allowed out_dir ts ed script origin i (l : list Link) :
  Forall (fun ev => allowed_event ts ed ev = true)
         (concat (imap (fun p => target_trace out_dir ts ed script origin (i + p)) l)).
Proof.
  revert i. induction l as [|link l IH]; intros i; simpl; [constructor|].
  apply Forall_app. split; [apply target_trace_allowed|].
  erewrite imap_ext; [apply (IH (S i))|].
  intros p x _. simpl. by rewrite Nat.add_succ_r.
Qed.

(** X3.  The two options are obeyed throughout a run: every browser
    call made is a navigation, a title read, a return or a reconnect,
    a screenshot only when [take_screenshot] is set, and a snapshot or
    its file only when [extract_data] is set; and no result carries a
    screenshot path, a data path or page data that its option did not
    ask for. *)
Theorem navigate_and_return_obeys_options
    (self : Session) (script : nat -> Response) (hrefs : list Link)
    (take_screenshot extract_data : bool)
    (results : list NavigationResult) (trace : list event) (final : Session) :
  navigate_and_return self script hrefs take_screenshot extract_data =
    Return (results, trace, final) ->
  Forall (fun ev => allowed_event take_screenshot extract_data ev = true) trace /\
  Forall (fun r =>
            (take_screenshot = false -> screenshot_path r = None) /\
            (extract_data = false -> data_path r = None /\ page_data r = None))
         results.
Proof.
  intros (origin & _ & -> & -> & _)%navigate_and_return_inv. split.
  - rewrite navigate_loop_trace. apply traces_allowed.
  - rewrite navigate_loop_results.
    generalize (take (processed script 0 hrefs) hrefs). generalize 0.
    intros i l. revert i. induction l as [|link l IH]; intros i; simpl; [constructor|].
    constructor.
    + unfold target_result.
      pose proof (visit_first_failure (output_dir self) take_screenshot extract_data
                    (i + 0) link (script (i + 0))) as Hv.
      destruct (first_failure _ _ _) as [e|].
      * rewrite Hv. simpl. auto.
      * destruct Hv as (_ & _ & _ & -> & -> & ->). split; [by intros ->|by intros ->].
    + erewrite imap_ext; [apply (IH (S i))|].
      intros p x _. simpl. by rewrite Nat.add_succ_r.
Qed.

(** X4.  Each target that has a result is left by exactly one return
    to the URL the run started from, whatever happened during its
    capture; and no browser call at all is made for a target without a
    result. *)
Theorem navigate_and_return_one_return_each
    (self : Session) (script : nat -> Response) (hrefs : list Link)
    (take_screenshot extract_data : bool) (origin : string)
    (results : list NavigationResult) (trace : list event) (final : Session) :
  page self = Some origin ->
  navigate_and_return self script hrefs take_screenshot extract_data =
    Return (results, trace, final) ->
  (forall i, i < length results ->
     List.filter (is_return_to i) trace = [EvReturn i origin]) /\
  Forall (fun ev => event_target ev < length results) trace.
Proof.
  intros Hpage (origin' & Hpage' & -> & -> & _)%navigate_and_return_inv.
  rewrite Hpage in Hpage'. injection Hpage' as <-.
  rewrite navigate_loop_length, navigate_loop_trace.
  pose proof (processed_le script 0 hrefs) as Hle.
  split.
  - intros i Hi.
    destruct (lookup_lt_is_Some_2 (take (processed script 0 hrefs) hrefs) i)
      as [link Hlink]; [rewrite length_take; lia|].
    destruct (traces_split (output_dir self) take_screenshot extract_data script origin
                _ _ _ Hlink) as (t1 & t2 & -> & H1 & H2).
    rewrite (filter_split_target is_return_to); auto using is_return_to_target.
    apply target_trace_returns.
  - eapply Forall_impl; [apply traces_targets|]. simpl. intros ev.
    rewrite length_take. lia.
Qed.

(** X5.  Where the crawler is left after a run with at least one
    target, whatever failed on the way: where the return after the last
    processed target landed when that return succeeded; on the page
    found by the reconnect when the return failed and the reconnect
    succeeded, which need not be where the run started; and where the
    failed return left it when the run was aborted. *)
Theorem navigate_and_return_final_page
    (self : Session) (script : nat -> Response) (hrefs : list Link)
    (take_screenshot extract_data : bool)
    (results : list NavigationResult) (trace : list event) (final : Session) :
  hrefs <> [] ->
  navigate_and_return self script hrefs take_screenshot extract_data =
    Return (results, trace, final) ->
  let last := script (length results - 1) in
  (is_return (on_return last) = true -> page final = Some (url_after_return last)) /\
  (forall u, is_return (on_return last) = false -> on_reconnect last = Some u ->
             page final = Some u) /\
  (aborted last = true -> page final = Some (url_after_return last)).
Proof.
  intros Hne (origin & _ & -> & _ & ->)%navigate_and_return_inv.
  rewrite navigate_loop_length. simpl.
  rewrite navigate_loop_final by done. simpl. unfold aborted.
  destruct (is_return (on_return _)); simpl.
  - split; [done|]. split; [by intros u [=]|done].
  - split; [done|]. split; [by intros u _ ->|].
    by destruct (on_reconnect _).
Qed.

End NavigatorCalls.

Section SelectorRuns.

Import Crawler Navigation.

(** X6.  With a positive [max_links] the selector variant visits at
    most that many links, and only the first ones found: the results
    are for a prefix of the links found and no browser call is made for
    a link at or past the cap. *)
Theorem navigate_with_selector_positive_cap
    (self : Session) (script : nat -> Response) (hrefs : list Link)
    (take_screenshot extract_data : bool) (n : Z)
    (results : list NavigationResult) (trace : list event) (final : Session) :
  (0 < n)%Z ->
  navigate_and_return_with_selector self script (Return hrefs)
    take_screenshot extract_data (Some n) = Return (results, trace, final) ->
  length results <= Z.to_nat n /\
  map original_link results = take (length results) hrefs /\
  Forall (fun ev => event_target ev < Z.to_nat n) trace.
Proof.
  intros Hn. unfold navigate_and_return_with_selector, cap_links, slice_to.
  destruct (page self) as [origin|] eqn:Hpage; [|discriminate]. simpl.
  destruct (Z.eqb_spec n 0) as [->|_]; [lia|].
  destruct (Z.leb_spec 0 n) as [_|?]; [|lia].
  intros (origin' & _ & -> & -> & _)%navigate_and_return_inv.
  rewrite navigate_loop_length, navigate_loop_results, navigate_loop_trace,
    imap_original_link.
  pose proof (processed_le script 0 (take (Z.to_nat n) hrefs)) as Hle.
  rewrite length_take in Hle.
  split; [lia|]. split.
  - rewrite take_take. f_equal. lia.
  - eapply Forall_impl; [apply traces_targets|]. simpl. intros ev.
    rewrite length_take. lia.
Qed.

(** X7.  [max_links=0] does not mean no links: the cap is then not
    applied, and a run in which no return is lost for good visits every
    link the selector found. *)
Theorem navigate_with_selector_zero_cap
    (self : Session) (script : nat -> Response) (hrefs : list Link)
    (take_screenshot extract_data : bool) (origin : string) :
  page self = Some origin ->
  (forall i, i < length hrefs -> aborted (script i) = false) ->
  exists results trace final,
    navigate_and_return_with_selector self script (Return hrefs)
      take_screenshot extract_data (Some 0%Z) = Return (results, trace, final) /\
    map original_link results = hrefs.
Proof.
  intros Hpage Hok. unfold navigate_and_return_with_selector, cap_links.
  rewrite Hpage. simpl.
  rewrite (navigate_and_return_connected (output_dir self) take_screenshot extract_data
             script origin self hrefs origin) by done.
  do 3 eexists. split; [reflexivity|]. simpl.
  rewrite navigate_loop_results, imap_original_link, processed_all by done.
  apply take_ge. lia.
Qed.

End SelectorRuns.

Section Forms.

Import Crawler Interaction.

Lemma fill_fields_spec fill form :
  let '(done, calls) := fill_fields fill form in
  exists rest, form = calls ++ rest /\
    (done = true ->
       rest = [] /\ Forall (fun sv => is_return (fill sv.1 sv.2) = true) form) /\
    (done = false ->
       exists before selector value,
         calls = before ++ [(selector, value)] /\
         Forall (fun sv => is_return (fill sv.1 sv.2) = true) before /\
         is_return (fill selector value) = false).
Proof.
  induction form as [|[selector value] form IH]; simpl.
  - exists []. split; [done|]. split; [by split|done].
  - destruct (fill selector value) as [[]|e] eqn:Hf.
    + destruct (fill_fields fill form) as [done calls].
      destruct IH as (rest & -> & Ht & Hfalse).
      exists rest. split; [done|]. split.
      * intros Hd. destruct (Ht Hd) as [-> Hall]. split; [done|].
        constructor; [simpl; by rewrite Hf|done].
      * intros Hd. destruct (Hfalse Hd) as (before & s & v & -> & Hall & Hv).
        exists ((selector, value) :: before), s, v. split; [done|]. split; [|done].
        constructor; [simpl; by rewrite Hf|done].
    + exists form. split; [done|]. split; [done|]. intros _.
      exists [], selector, value. split; [done|]. split; [constructor|].
      by rewrite Hf.
Qed.

(** X8.  [fill_form] fills the fields in the order of the dictionary
    and stops at the first field that cannot be filled: the fields
    tried are a prefix of the form, all of them filled except, when the
    answer is [False], the last one tried; the fields after it are left
    untouched.  The answer is [True] exactly when every field was
    filled. *)
Theorem fill_form_stops_at_first_failure
    (self : Session) (fill : string -> string -> outcome unit)
    (form_data : dict string) (url : string) :
  page self = Some url ->
  exists done calls rest,
    fill_form self fill form_data = Return (done, calls) /\
    form_data = calls ++ rest /\
    (done = true <->
       Forall (fun sv => is_return (fill sv.1 sv.2) = true) form_data) /\
    (done = true -> rest = []) /\
    (done = false ->
       exists before selector value,
         calls = before ++ [(selector, value)] /\
         Forall (fun sv => is_return (fill sv.1 sv.2) = true) before /\
         is_return (fill selector value) = false).
Proof.
  intros Hpage. unfold fill_form. rewrite Hpage.
  pose proof (fill_fields_spec fill form_data) as H.
  destruct (fill_fields fill form_data) as [done calls].
  destruct H as (rest & Hform & Ht & Hf).
  exists done, calls, rest. split; [done|]. split; [done|]. split; [|split].
  - split; [by intros [_ H]%Ht|].
    intros Hall. destruct done; [done|].
    destruct (Hf eq_refl) as (before & s & v & -> & _ & Hv).
    rewrite Hform in Hall. rewrite <- app_assoc in Hall.
    apply Forall_app in Hall as [_ Hall]. apply Forall_app in Hall as [Hall _].
    inversion Hall as [|? ? Hsv _]; subst. simpl in Hsv. congruence.
  - by intros [-> _]%Ht.
  - exact Hf.
Qed.

End Forms.

(** ** More on dictionaries *)

Section DictionaryLookups.

Context {V : Type}.

Lemma dict_get_dict_set (d : dict V) k v k' :
  dict_get (dict_set d k v) k' = if String.eqb k k' then Some v else dict_get d k'.
Proof.
  induction d as [|[k0 v0] d IH]; simpl.
  - reflexivity.
  - destruct (String.eqb_spec k0 k) as [->|Hne]; simpl.
    + by destruct (String.eqb k k').
    + rewrite IH. destruct (String.eqb_spec k0 k') as [->|?]; [|done].
      by destruct (String.eqb_spec k k') as [->|?].
Qed.

Lemma dict_set_keys (d : dict V) k v :
  map fst (dict_set d k v) =
  if dict_get d k is Some _ then map fst d else map fst d ++ [k].
Proof.
  induction d as [|[k0 v0] d IH]; simpl; [done|].
  destruct (String.eqb_spec k0 k) as [->|Hne]; simpl; [done|].
  rewrite IH. by destruct (dict_get d k).
Qed.

Lemma dict_get_None_keys (d : dict V) k : dict_get d k = None -> ~ In k (map fst d).
Proof.
  induction d as [|[k0 v0] d IH]; simpl; [tauto|].
  destruct (String.eqb_spec k0 k) as [->|Hne]; [done|]. intros H [?|?]; [done|].
  by apply IH.
Qed.

Lemma dict_set_NoDup (d : dict V) k v :
  NoDup (map fst d) -> NoDup (map fst (dict_set d k v)).
Proof.
  intros Hd. rewrite dict_set_keys. destruct (dict_get d k) eqn:E; [done|].
  apply NoDup_app.
  split; [done|]. split; [|apply NoDup_singleton].
  intros x Hx ->%list_elem_of_singleton. apply list_elem_of_In in Hx.
  by apply dict_get_None_keys in E.
Qed.

End DictionaryLookups.

(** ** receipt_processor.py: more on the cost rows *)

Section CostRowOrder.

Import Dom ReceiptProcessor.

Variable py_float : string -> outcome float.

Lemma cost_rows_app l1 l2 d :
  cost_rows py_float (l1 ++ l2) d = bind (cost_rows py_float l1 d) (cost_rows py_float l2).
Proof.
  revert d. induction l1 as [|r l1 IH]; intros d; simpl; [done|].
  destruct (cost_row py_float r) as [entry|e]; simpl; [apply IH|done].
Qed.

Lemma cost_rows_other_label rows d d' label :
  cost_rows py_float rows d = Return d' ->
  Forall (fun r => forall a, cost_row py_float r <> Return (Some (label, a))) rows ->
  dict_get d' label = dict_get d label.
Proof.
  revert d. induction rows as [|r rows IH]; intros d; simpl.
  - by intros [= ->].
  - intros Hrun Hall. inversion Hall as [|? ? Hr Hrest]; subst.
    destruct (cost_row py_float r) as [[[l a]|]|e] eqn:E; simpl in Hrun; [| |done].
    + rewrite (IH _ Hrun Hrest), dict_get_dict_set.
      destruct (String.eqb_spec l label) as [->|?]; [|done]. by destruct (Hr a).
    + by apply IH.
Qed.

Lemma cost_rows_NoDup rows d d' :
  cost_rows py_float rows d = Return d' ->
  NoDup (map fst d) -> NoDup (map fst d').
Proof.
  revert d. induction rows as [|r rows IH]; intros d; simpl.
  - by intros [= ->].
  - destruct (cost_row py_float r) as [[[l a]|]|e]; simpl; [| |done].
    + intros Hrun Hd. apply (IH _ Hrun). by apply dict_set_NoDup.
    + apply IH.
Qed.

(** X9.  On a receipt in ASCII text: when two rows of the cost section
    carry the same label, the amount of the later row replaces the
    earlier one: the breakdown holds, under a label, the amount of the
    last row that stored it, and it never holds a label twice. *)
Theorem extract_cost_details_last_row_wins
    (soup cost_section row_div : node) (before after : list node)
    (label : string) (amount : float) (cost_breakdown : dict float) :
  Forall (fun s => is_ascii s = true) (strings soup) ->
  find (fun n => is_tag "div" n && has_attr "data-testid" "cost-details-section" n)
       soup = Some cost_section ->
  find_all_children "div" cost_section = before ++ row_div :: after ->
  cost_row py_float row_div = Return (Some (label, amount)) ->
  Forall (fun r => forall a, cost_row py_float r <> Return (Some (label, a))) after ->
  extract_cost_details py_float soup = Return cost_breakdown ->
  dict_get cost_breakdown label = Some amount /\
  NoDup (map fst cost_breakdown).
Proof.
  intros _ Hsec Hrows Hrow Hafter. unfold extract_cost_details. rewrite Hsec, Hrows.
  intros Hrun. split; [|by apply (cost_rows_NoDup _ _ _ Hrun); constructor].
  rewrite cost_rows_app in Hrun.
  destruct (cost_rows py_float before []) as [d1|e]; [|done]. simpl in Hrun.
  rewrite Hrow in Hrun. simpl in Hrun.
  rewrite (cost_rows_other_label _ _ _ _ Hrun Hafter), dict_get_dict_set.
  by rewrite String.eqb_refl.
Qed.

(** X10.  On a receipt in ASCII text: [extract_cost_details] has no
    handler of its own, so when [float] rejects the amount text of a
    row, that exception leaves the function and the rows read before it
    are lost with it.  Only the conversion can fail: the row then has a
    label, a value text and an amount found in it. *)
Theorem extract_cost_details_conversion_failure
    (soup cost_section row_div : node) (before after : list node) (e : exn) :
  Forall (fun s => is_ascii s = true) (strings soup) ->
  find (fun n => is_tag "div" n && has_attr "data-testid" "cost-details-section" n)
       soup = Some cost_section ->
  find_all_children "div" cost_section = before ++ row_div :: after ->
  Forall (fun r => Crawler.is_return (cost_row py_float r) = true) before ->
  cost_row py_float row_div = Raise e ->
  extract_cost_details py_float soup = Raise e /\
  exists label_div value_div others group,
    find_all_children "div" row_div = label_div :: value_div :: others /\
    cell_text label_div <> "" /\ cell_text value_div <> "" /\
    search_amount (cell_text value_div) = Some group /\
    py_float (remove_commas group) = Raise e.
Proof.
  intros _ Hsec Hrows Hbefore Hrow. split.
  - unfold extract_cost_details. rewrite Hsec, Hrows, cost_rows_app.
    assert (Hb : forall d, exists d', cost_rows py_float before d = Return d').
    { clear Hrows. induction Hbefore as [|r l Hr _ IH]; intros d; simpl; [by eexists|].
      destruct (cost_row py_float r) as [entry|?]; [|done]. simpl. apply IH. }
    destruct (Hb []) as [d' ->]. simpl. by rewrite Hrow.
  - unfold cost_row in Hrow.
    destruct (find_all_children "div" row_div) as [|label_div [|value_div others]];
      try discriminate.
    destruct (String.eqb_spec (cell_text label_div) "") as [?|Hl]; [discriminate|].
    destruct (String.eqb_spec (cell_text value_div) "") as [?|Hv]; [discriminate|].
    simpl in Hrow.
    destruct (search_amount (cell_text value_div)) as [group|] eqn:Hg; [|discriminate].
    destruct (py_float (remove_commas group)) as [x|e'] eqn:Hf; [discriminate|].
    injection Hrow as ->. by exists label_div, value_div, others, group.
Qed.

End CostRowOrder.

(** ** receipt_processor.py: owners, incomes and the table *)

Section Attribution.

Import ReceiptProcessor Reports.

(** X11.  An owner is found for a plate exactly when some owner of the
    index lists it, and a plate listed by several owners goes to the one
    that comes first in the index. *)
Theorem get_owner_first_listing
    (vehicle_owners : dict (list string)) (plate : string) :
  (is_Some (get_owner_for_license_plate vehicle_owners plate) <->
   indexed vehicle_owners plate = true) /\
  forall before owner_name plates after,
    vehicle_owners = before ++ (owner_name, plates) :: after ->
    In plate plates ->
    Forall (fun op => ~ In plate op.2) before ->
    get_owner_for_license_plate vehicle_owners plate = Some owner_name.
Proof.
  split.
  - induction vehicle_owners as [|[o ps] rest IH]; simpl.
    + split; [by intros [? ?]|done].
    + destruct (existsb (String.eqb plate) ps); simpl; [|exact IH].
      split; [done|by eexists].
  - intros before owner_name plates after -> Hin Hbefore.
    induction Hbefore as [|[o ps] l Hop _ IH]; simpl.
    + apply existsb_eqb_In in Hin. by rewrite Hin.
    + destruct (existsb (String.eqb plate) ps) eqn:E; [|exact IH].
      apply existsb_eqb_In in E. by destruct Hop.
Qed.

Lemma filter_keep_discounts (keep : string * float -> bool) (d : dict float) :
  (forall kv, is_discount kv = true -> keep kv = true) ->
  List.filter is_discount (List.filter keep d) = List.filter is_discount d.
Proof.
  intros Hk. induction d as [|kv d IH]; simpl; [done|].
  destruct (keep kv) eqn:E; simpl.
  - rewrite IH. done.
  - destruct (is_discount kv) eqn:E'; [|done]. apply Hk in E'. congruence.
Qed.

Lemma dict_get_filter_keep (keep : string * float -> bool) (d : dict float) k :
  (forall v, keep (k, v) = true) ->
  dict_get (List.filter keep d) k = dict_get d k.
Proof.
  intros Hk. induction d as [|[k0 v0] d IH]; simpl; [done|].
  destruct (keep (k0, v0)) eqn:E; simpl.
  - by rewrite IH.
  - destruct (String.eqb_spec k0 k) as [->|?]; [|done]. by rewrite Hk in E.
Qed.

(** X12.  The income depends on two kinds of entries only, the one
    under "Trip price" and the discount entries below zero: dropping any
    other entry of a breakdown (fees, taxes, a discount that is not
    negative) leaves every figure of the calculation as it was. *)
Theorem calculate_income_ignores_other_entries
    (keep : string * float -> bool) (cost_breakdown : dict float) :
  (forall v, keep ("Trip price", v) = true) ->
  (forall kv, is_discount kv = true -> keep kv = true) ->
  calculate_income (List.filter keep cost_breakdown) = calculate_income cost_breakdown.
Proof.
  intros Hp Hd. unfold calculate_income.
  by rewrite dict_get_filter_keep, filter_keep_discounts.
Qed.

End Attribution.

Section IncomeTable.

Import ReceiptProcessor Reports.

Lemma row_summarise s0 r s1 o p :
  summarise s0 r = Return s1 ->
  row s1 o p =
    if counted o p r then
      Some match row s0 o p with
           | Some e =>
               {| summary_vehicle_name := summary_vehicle_name e;
                  total_income := (total_income e + receipt_income r)%float;
                  receipt_count := receipt_count e + 1 |}
           | None =>
               {| summary_vehicle_name := receipt_vehicle_name r;
                  total_income := (0 + receipt_income r)%float;
                  receipt_count := 0 + 1 |}
           end
    else row s0 o p.
Proof.
  unfold summarise, counted, has_error, row, receipt_income, receipt_vehicle_name.
  destruct (error r) as [msg|]; simpl.
  { by intros [= ->]. }
  destruct (ReceiptProcessor.vehicle_info r) as [|name rest]; [done|].
  destruct (income_calculation r) as [calc|]; [|done].
  intros [= <-]. rewrite dict_get_dict_set.
  destruct (String.eqb_spec (owner r) o) as [->|Ho]; simpl; [|done].
  rewrite dict_get_dict_set.
  destruct (String.eqb_spec (license_plate r) p) as [->|Hp]; simpl.
  - destruct (dict_get s0 _) as [vs|]; simpl; [|done].
    by destruct (dict_get vs _).
  - by destruct (dict_get s0 _).
Qed.

Lemma owner_summary_from_row rs s0 s o p :
  owner_summary_from rs s0 = Return s ->
  row s o p =
    match List.filter (counted o p) rs with
    | [] => row s0 o p
    | first :: rest =>
        Some match row s0 o p with
             | Some e =>
                 {| summary_vehicle_name := summary_vehicle_name e;
                    total_income :=
                      fold_left PrimFloat.add (map receipt_income (first :: rest))
                        (total_income e);
                    receipt_count := receipt_count e + length (first :: rest) |}
             | None =>
                 {| summary_vehicle_name := receipt_vehicle_name first;
                    total_income :=
                      fold_left PrimFloat.add (map receipt_income (first :: rest)) 0%float;
                    receipt_count := length (first :: rest) |}
             end
    end.
Proof.
  revert s0. induction rs as [|r rs IH]; intros s0; simpl.
  - by intros [= ->].
  - destruct (summarise s0 r) as [s1|e] eqn:Hs; [|done]. simpl. intros Hrun.
    rewrite (IH _ Hrun), (row_summarise _ _ _ _ _ Hs).
    destruct (counted o p r); [|done].
    destruct (List.filter (counted o p) rs) as [|f rest], (row s0 o p) as [e|];
      simpl; do 2 f_equal; lia.
Qed.

(** X13.  The row of the income table for a plate under an owner is
    the tally of the receipts without error recorded for that owner and
    plate: there is no row without such a receipt; otherwise the row
    carries the vehicle name of the first of them, their number, and
    their final incomes added up in the order of the receipts. *)
Theorem owner_summary_tally
    (receipt_results : list Receipt) (summary : dict (dict PlateSummary))
    (owner_name plate : string) :
  owner_summary receipt_results = Return summary ->
  row summary owner_name plate = tally owner_name plate receipt_results.
Proof.
  intros Hrun. unfold owner_summary in Hrun.
  rewrite (owner_summary_from_row _ _ _ owner_name plate Hrun). unfold tally.
  by destruct (List.filter _ _).
Qed.

Lemma process_receipt_fails py_float folders browser href info owner_name plate :
  process_receipt py_float folders browser href info owner_name plate =
  failed_receipt href info owner_name plate None
    "'ReceiptProcessor' object has no attribute 'open_new_tab'".
Proof.
  unfold process_receipt, open_new_tab.
  by rewrite open_new_tab_not_defined.
Qed.

Lemma failures_summarised rs s0 :
  Forall (fun r => has_error r = true) rs ->
  owner_summary_from rs s0 = Return s0 /\
  report_incomes rs = Return [] /\
  List.filter (fun r => negb (has_error r)) rs = [].
Proof.
  induction 1 as [|r rs Hr _ (IH1 & IH2 & IH3)]; simpl; [done|].
  unfold summarise. unfold has_error in Hr.
  apply bool_decide_eq_true in Hr as [msg Hr]. rewrite Hr. simpl.
  split; [done|]. split; [done|].
  unfold has_error at 1. rewrite Hr. simpl. exact IH3.
Qed.

(** X14.  What the receipt run of the code base produces.  As
    [process_receipt] cannot open a tab, every receipt of
    [process_all_receipts] is a failure record with the text of the
    attribute error; the income table then has no row, and the summary
    report counts no successful receipt, as many failed ones as there
    are receipts, and a total income of zero. *)
Theorem receipt_run_reports_failures_only
    (py_float : string -> outcome float) (owner_folders : dict string)
    (browser : string -> ReceiptPage) (vehicle_owners : dict (list string))
    (rental_data : dict (list RentalExtractor.RentalRecord))
    (output_dir now_file now : string) (filename : option string) :
  let receipt_results :=
    process_all_receipts (process_receipt py_float owner_folders browser)
      vehicle_owners rental_data in
  Forall (fun r =>
            error r = Some "'ReceiptProcessor' object has no attribute 'open_new_tab'" /\
            income_calculation r = None /\ screenshot_path r = None)
         receipt_results /\
  owner_summary receipt_results = Return [] /\
  exists report_path,
    save_summary_report output_dir now_file now (Return ()) receipt_results filename =
    Return (report_path,
            {| sd_timestamp := now;
               total_receipts := length receipt_results;
               successful_receipts := 0;
               failed_receipts := length receipt_results;
               sd_total_income := 0;
               receipts := receipt_results |}).
Proof.
  intros receipt_results.
  assert (Hall : Forall (fun r =>
            error r = Some "'ReceiptProcessor' object has no attribute 'open_new_tab'" /\
            income_calculation r = None /\ screenshot_path r = None) receipt_results).
  { apply List.Forall_forall. intros r Hr.
    apply process_all_receipts_owned in Hr as (href & info & o & p & _ & -> & _).
    by rewrite process_receipt_fails. }
  split; [exact Hall|].
  destruct (failures_summarised receipt_results []) as (H1 & H2 & H3).
  { eapply Forall_impl; [exact Hall|]. simpl. intros r (He & _).
    unfold has_error. by rewrite He. }
  split; [exact H1|].
  unfold save_summary_report, report_total_income. rewrite H2, H3. simpl.
  rewrite Nat.sub_0_r. by eexists.
Qed.

End IncomeTable.

(** ** rental_extractor.py: more on the dates and the batch *)

Section DateRoundTrip.

Import RentalExtractor.

Local Arguments String.append !s1 s2 : simpl nomatch.

Lemma blank_space : is_blank " ".
Proof. reflexivity. Qed.

(** X15.  For an ASCII date text: the two dates of a parsed range,
    written with a dash between them, parse to the same result again: the parser normalises the
    separators and drops what follows the range, and its output is a
    fixed point. *)
Theorem parse_date_range_normal_form (date_text : string) (dates : ParsedDates) :
  is_ascii date_text = true ->
  parse_date_range date_text = Some dates ->
  parse_date_range (start_date dates +:+ " - " +:+ end_date dates) = Some dates.
Proof.
  intros _ (sm & sd & em & ed & Hshape & ->)%parse_date_range_sound.
  destruct Hshape as (ws1 & ws2 & ws3 & ws4 & rest & _ & Hsm & Hsd & Hem & Hed & _).
  apply parse_date_range_complete.
  exists " ", " ", " ", " ", "".
  repeat (split; [first [assumption | exact blank_space | discriminate | idtac]|]).
  - replace (start_date (make_dates sm sd em ed) +:+ " - " +:+
             end_date (make_dates sm sd em ed))
      with (date_range_text sm " " sd " " " " em " " ed +:+ "").
    + rewrite strip_date_range by assumption. reflexivity.
    + unfold date_range_text, make_dates. simpl start_date. simpl end_date.
      rewrite !app_assoc_str. simpl. repeat f_equal.
      clear. induction ed as [|c ed IH]; simpl; [done|by rewrite IH].
  - done.
Qed.

End DateRoundTrip.

Section RentalBatch.

Import RentalExtractor Reports.

Variable extract : string -> outcome (list RawRental).
Variable target_month : option string.

Abbreviation rentals_of := (process_vehicle_rentals extract target_month).
Abbreviation gather :=
  (fold_left (fun all_matching (uv : string * list string) =>
                dict_update all_matching (rentals_of uv.1 uv.2))).

Lemma dict_get_rentals_of acc url info k :
  dict_get (dict_update acc (rentals_of url info)) k =
  match extract url with
  | Return all_rentals =>
      if String.eqb url k
      then Some (omap (matching_rental target_month info) all_rentals)
      else dict_get acc k
  | Raise _ => dict_get acc k
  end.
Proof.
  unfold process_vehicle_rentals, dict_update.
  destruct (extract url) as [all_rentals|e]; simpl; [|done].
  apply dict_get_dict_set.
Qed.

Lemma gather_other (fv : dict (list string)) acc k :
  ~ In k (map fst fv) -> dict_get (gather fv acc) k = dict_get acc k.
Proof.
  revert acc. induction fv as [|[u i] fv IH]; intros acc Hk; simpl in *; [done|].
  rewrite IH by tauto. rewrite dict_get_rentals_of.
  destruct (extract u); [|done].
  destruct (String.eqb_spec u k) as [->|?]; [tauto|done].
Qed.

Lemma gather_lookup (fv : dict (list string)) acc k :
  NoDup (map fst fv) ->
  dict_get (gather fv acc) k =
  match dict_get fv k with
  | Some info =>
      match extract k with
      | Return all_rentals => Some (omap (matching_rental target_month info) all_rentals)
      | Raise _ => dict_get acc k
      end
  | None => dict_get acc k
  end.
Proof.
  revert acc. induction fv as [|[u i] fv IH]; intros acc Hnd; simpl in *; [done|].
  apply NoDup_cons in Hnd as [Hu Hnd].
  destruct (String.eqb_spec u k) as [->|Hne].
  - rewrite gather_other by (by rewrite <- list_elem_of_In).
    rewrite dict_get_rentals_of. destruct (extract k); [|done].
    by rewrite String.eqb_refl.
  - rewrite IH by done. rewrite dict_get_rentals_of.
    destruct (dict_get fv k) as [info|].
    + destruct (extract k); [done|]. destruct (extract u); [|done].
      by destruct (String.eqb_spec u k).
    + destruct (extract u); [|done]. by destruct (String.eqb_spec u k).
Qed.

Lemma filtered_vehicles_NoDup allowed vehicles :
  NoDup (map fst (filtered_vehicles allowed vehicles)).
Proof.
  unfold filtered_vehicles.
  assert (H : forall acc : dict (list string), NoDup (map fst acc) ->
    NoDup (map fst (fold_left
      (fun filtered (uv : string * list string) =>
         match uv.2 !! 2%nat with
         | Some license_plate =>
             if decide (license_plate ∈ allowed) then dict_set filtered uv.1 uv.2
             else filtered
         | None => filtered
         end) vehicles acc))).
  { induction vehicles as [|[u i] vs IH]; intros acc Hacc; simpl; [done|].
    apply IH. destruct (i !! 2); [|done].
    destruct (decide _); [|done]. by apply dict_set_NoDup. }
  apply H. constructor.
Qed.

Lemma gather_In (fv : dict (list string)) acc u records :
  In (u, records) (gather fv acc) ->
  In (u, records) acc \/
  exists info all_rentals,
    extract u = Return all_rentals /\
    records = omap (matching_rental target_month info) all_rentals.
Proof.
  revert acc. induction fv as [|[url i] fv IH]; intros acc; simpl; [tauto|].
  intros [H|H]%IH; [|tauto].
  apply dict_update_In in H as [H|H]; [tauto|]. right.
  unfold process_vehicle_rentals in H.
  destruct (extract url) as [all_rentals|e] eqn:E; [|done].
  destruct H as [[= <- <-]|[]]. eauto.
Qed.

End RentalBatch.

Section RentalRuns.

Import RentalExtractor Reports.

(** X16.  With date texts in ASCII, the answer of
    [process_all_vehicles] has an entry for a URL
    exactly when the URL is one of the vehicles that passed the plate
    filter and its rentals could be read; the entry lists the rentals of
    the target month, so a vehicle without any is still listed, with an
    empty list, while a vehicle whose page could not be read is left
    out. *)
Theorem process_all_vehicles_entries
    (extract : string -> outcome (list RawRental)) (target_month : option string)
    (vehicles vehicle_owners : dict (list string))
    (result : dict (list RentalRecord)) (vehicle_url : string) :
  (forall url all_rentals,
     extract url = Return all_rentals ->
     Forall (fun rental => is_ascii (date_text rental) = true) all_rentals) ->
  process_all_vehicles extract target_month (Some (vehicles, vehicle_owners)) =
    Return result ->
  dict_get result vehicle_url =
  match dict_get (filtered_vehicles (allowed_license_plates vehicle_owners) vehicles)
                 vehicle_url with
  | Some vehicle_info =>
      match extract vehicle_url with
      | Return all_rentals =>
          Some (omap (matching_rental target_month vehicle_info) all_rentals)
      | Raise _ => None
      end
  | None => None
  end.
Proof.
  intros _. unfold process_all_vehicles. destruct target_month as [m|]; [|done].
  destruct (String.eqb m ""); [done|]. intros [= <-].
  rewrite gather_lookup by apply filtered_vehicles_NoDup. done.
Qed.

Lemma matching_rental_month m info rental record :
  matching_rental (Some m) info rental = Some record -> is_month_token m.
Proof.
  unfold matching_rental.
  destruct (parse_date_range (date_text rental)) as [dates|] eqn:Hp; [|done].
  apply parse_date_range_sound in Hp as (sm & sd & em & ed & Hshape & ->).
  destruct Hshape as (ws1 & ws2 & ws3 & ws4 & rest & _ & _ & _ & Hem & _).
  unfold is_rental_in_target_month. destruct (String.eqb m ""); [done|].
  simpl. destruct (String.eqb_spec em m) as [<-|?]; [|done]. done.
Qed.

(** X17.  The target month is compared with the month token of the
    page as it stands: with date texts in ASCII, a target that is not
    made of exactly three ASCII word characters, such as a full month
    name, matches no rental, and the batch then returns empty lists
    only. *)
Theorem target_month_must_be_a_token
    (extract : string -> outcome (list RawRental)) (m : string)
    (vehicles vehicle_owners : dict (list string))
    (result : dict (list RentalRecord)) :
  (forall url all_rentals,
     extract url = Return all_rentals ->
     Forall (fun rental => is_ascii (date_text rental) = true) all_rentals) ->
  ~ is_month_token m ->
  process_all_vehicles extract (Some m) (Some (vehicles, vehicle_owners)) =
    Return result ->
  Forall (fun ur => ur.2 = []) result /\
  total_rentals (rental_data_summary (Some m) result) = 0.
Proof.
  intros _ Hm. unfold process_all_vehicles.
  destruct (String.eqb m ""); [done|]. intros [= <-].
  set (result := fold_left _ _ _).
  assert (Hall : Forall (fun ur : string * list RentalRecord => ur.2 = []) result).
  { apply List.Forall_forall. intros [u records] Hin. simpl.
    apply gather_In in Hin as [[]|(info & all_rentals & _ & ->)].
    induction all_rentals as [|rental rest IH]; simpl; [done|].
    destruct (matching_rental (Some m) info rental) as [record|] eqn:E; [|exact IH].
    by apply matching_rental_month in E. }
  split; [exact Hall|].
  unfold rental_data_summary. simpl.
  induction Hall as [|[u rs] l Hrs _ IH]; simpl in *; [done|]. by rewrite Hrs, IH.
Qed.

(** X18.  What the rental run of the code base produces.  As
    [extract_rentals_from_page] cannot open a tab, a connected
    extractor reads no rental from any page: every vehicle that passes
    the plate filter is listed with an empty list, the file written by
    [save_rental_data] counts no rental, and a receipt run over that
    data has no receipt to process.  Without a connected page the batch
    returns the empty mapping. *)
Theorem rental_run_finds_no_rental
    (self : Crawler.Session) (browser : string -> RentalsPage) (m : string)
    (vehicles vehicle_owners : dict (list string)) :
  m <> "" ->
  exists result,
    process_all_vehicles (extract_rentals_from_page self browser) (Some m)
      (Some (vehicles, vehicle_owners)) = Return result /\
    Forall (fun ur => ur.2 = []) result /\
    total_rentals (rental_data_summary (Some m) result) = 0 /\
    (forall vehicle_url,
       is_Some (Crawler.page self) ->
       is_Some (dict_get (filtered_vehicles (allowed_license_plates vehicle_owners)
                            vehicles) vehicle_url) ->
       dict_get result vehicle_url = Some []) /\
    (Crawler.page self = None -> result = []) /\
    forall process,
      ReceiptProcessor.process_all_receipts process vehicle_owners result = [].
Proof.
  intros Hm. unfold process_all_vehicles.
  destruct (String.eqb_spec m "") as [?|_]; [done|].
  eexists. split; [reflexivity|].
  set (extract := extract_rentals_from_page self browser).
  set (fv := filtered_vehicles _ _).
  assert (Hextract : forall url,
    extract url = Return [] \/
    (Crawler.page self = None /\ exists e, extract url = Raise e)).
  { intros url. unfold extract, extract_rentals_from_page, open_new_tab.
    rewrite open_new_tab_not_defined.
    destruct (Crawler.page self); [by left|right; eauto]. }
  assert (Hall : Forall (fun ur : string * list RentalRecord => ur.2 = [])
                   (fold_left (fun all_matching (uv : string * list string) =>
                      dict_update all_matching
                        (process_vehicle_rentals extract (Some m) uv.1 uv.2)) fv [])).
  { apply List.Forall_forall. intros [u records] Hin. simpl.
    apply gather_In in Hin as [[]|(info & all_rentals & He & ->)].
    destruct (Hextract u) as [H|(_ & e & H)]; rewrite H in He; [|done].
    by injection He as <-. }
  split; [exact Hall|]. split; [|split; [|split]].
  - unfold rental_data_summary. simpl.
    induction Hall as [|[u rs] l Hrs _ IH]; simpl in *; [done|]. by rewrite Hrs, IH.
  - intros url [origin Hpage] [info Hinfo].
    rewrite gather_lookup by apply filtered_vehicles_NoDup.
    fold fv. rewrite Hinfo.
    destruct (Hextract url) as [->|(Hnone & _)]; [done|congruence].
  - intros Hnone. clear Hall.
    match goal with
    | |- fold_left ?f fv [] = [] =>
        enough (H : forall acc, fold_left f fv acc = acc) by apply H
    end.
    induction fv as [|[u i] fv IH]; intros acc; simpl; [done|].
    rewrite IH. unfold process_vehicle_rentals.
    destruct (Hextract u) as [H|(_ & e & ->)]; [|done].
    unfold extract, extract_rentals_from_page in H. by rewrite Hnone in H.
  - intros process. unfold ReceiptProcessor.process_all_receipts.
    destruct vehicle_owners as [|o os]; [done|].
    match goal with |- match ?r with _ => _ end = _ => destruct r as [|ur l] eqn:E end;
      [done|].
    rewrite <- E in *. clear E.
    induction Hall as [|[u rs] l' Hrs _ IH]; simpl in *; [done|].
    rewrite Hrs. simpl. exact IH.
Qed.

End RentalRuns.

(** ** extract_vehicle_from_listing.py: complete and untitled cards *)

Section CompleteCards.

Import VehicleExtractor.

Lemma card_details_shape card details :
  card_details card = Return details ->
  exists s1 s2 others,
    subtitles card = s1 :: s2 :: others /\
    match main_title card with
    | Some p =>
        let title := js_or (title_attr p) (js_trim (text_content p)) in
        details = (if String.eqb title "" then [] else [title]) ++
                  [template (title_attr s1); template (title_attr s2)]
    | None => details = [template (title_attr s1); template (title_attr s2)]
    end.
Proof.
  unfold card_details, subtitle_title.
  destruct (subtitles card) as [|s1 [|s2 others]]; simpl; try discriminate.
  intros [= <-]. exists s1, s2, others. split; [done|].
  destruct (main_title card) as [p|]; [|done]. simpl.
  by rewrite <- app_assoc.
Qed.

Lemma card_details_total card :
  2 <= length (subtitles card) ->
  exists details, card_details card = Return details /\ 0 < length details.
Proof.
  unfold card_details, subtitle_title.
  destruct (subtitles card) as [|s1 [|s2 others]]; simpl; try lia.
  intros _. eexists. split; [reflexivity|]. rewrite !length_app. simpl. lia.
Qed.

Lemma for_each_card_app l1 l2 vehicles :
  for_each_card (l1 ++ l2) vehicles = bind (for_each_card l1 vehicles) (for_each_card l2).
Proof.
  revert vehicles. induction l1 as [|c l1 IH]; intros vehicles; simpl; [done|].
  destruct (card_details c) as [details|e]; simpl; [apply IH|done].
Qed.

Lemma for_each_card_total cards vehicles :
  Forall (fun c => 2 <= length (subtitles c)) cards ->
  exists result, for_each_card cards vehicles = Return result.
Proof.
  intros H. revert vehicles. induction H as [|c l Hc _ IH]; intros vehicles; simpl.
  - by eexists.
  - destruct (card_details_total c Hc) as (details & -> & _). simpl. apply IH.
Qed.

Lemma for_each_card_other cards vehicles result href :
  for_each_card cards vehicles = Return result ->
  Forall (fun c => card_href c <> href) cards ->
  dict_get result href = dict_get vehicles href.
Proof.
  revert vehicles. induction cards as [|c l IH]; intros vehicles; simpl.
  - by intros [= ->].
  - destruct (card_details c) as [details|e]; simpl; [|done].
    intros Hrun Hall. inversion Hall as [|? ? Hc Hl]; subst.
    rewrite (IH _ Hrun Hl). destruct (0 <? length details)%nat; [|done].
    rewrite dict_get_dict_set. by destruct (String.eqb_spec (card_href c) href).
Qed.

Lemma for_each_card_NoDup cards vehicles result :
  for_each_card cards vehicles = Return result ->
  NoDup (map fst vehicles) -> NoDup (map fst result).
Proof.
  revert vehicles. induction cards as [|c l IH]; intros vehicles; simpl.
  - by intros [= ->].
  - destruct (card_details c) as [details|e]; simpl; [|done].
    intros Hrun Hv. apply (IH _ Hrun).
    destruct (0 <? length details)%nat; [|done]. by apply dict_set_NoDup.
Qed.

(** X19.  When every card of the page has its two subtitle paragraphs,
    the extraction succeeds and [self.vehicle_data] becomes the mapping
    returned.  Each address occurs once in it; a card is found under its
    address, unless a later card has the same address, with two or three
    details: the two subtitle titles, after the title when there is
    one. *)
Theorem extract_vehicle_listings_complete_cards
    (self : Crawler.Session) (vehicle_data : dict (list string))
    (before after : list Card) (card : Card) (url : string) :
  Crawler.page self = Some url ->
  Forall (fun c => 2 <= length (subtitles c)) (before ++ card :: after) ->
  Forall (fun c => card_href c <> card_href card) after ->
  exists vehicles details,
    extract_vehicle_listings self vehicle_data (before ++ card :: after) =
      (Return vehicles, vehicles) /\
    NoDup (map fst vehicles) /\
    card_details card = Return details /\
    dict_get vehicles (card_href card) = Some details /\
    (length details = 2 \/ length details = 3).
Proof.
  intros Hpage Hall Hafter. unfold extract_vehicle_listings, page_script.
  rewrite Hpage.
  destruct (for_each_card_total _ [] Hall) as [vehicles Hrun]. rewrite Hrun.
  apply Forall_app in Hall as [_ Hcard]. inversion Hcard as [|? ? Hc _]; subst.
  destruct (card_details_total card Hc) as (details & Hd & Hlen).
  exists vehicles, details. split; [done|].
  split; [by apply (for_each_card_NoDup _ _ _ Hrun); constructor|].
  split; [done|]. split.
  - rewrite for_each_card_app in Hrun.
    destruct (for_each_card before []) as [v1|e]; [|done]. simpl in Hrun.
    rewrite Hd in Hrun. simpl in Hrun.
    rewrite (for_each_card_other _ _ _ _ Hrun Hafter).
    apply Nat.ltb_lt in Hlen. rewrite Hlen, dict_get_dict_set.
    by rewrite String.eqb_refl.
  - apply card_details_shape in Hd as (s1 & s2 & others & _ & Hd).
    destruct (main_title card) as [p|]; [|left; by rewrite Hd].
    simpl in Hd. destruct (String.eqb _ ""); rewrite Hd; simpl; auto.
Qed.

(** X20.  A card without a title gives two details only, so that the
    license plate stands second instead of third; the rental batch,
    which reads the plate from the third element, never keeps such a
    listing. *)
Theorem untitled_card_is_skipped_by_the_rental_batch
    (card : Card) (details : list string) :
  match main_title card with
  | Some p => js_or (title_attr p) (js_trim (text_content p)) = ""
  | None => True
  end ->
  card_details card = Return details ->
  (exists trim plate, subtitles card !! 0 = Some trim /\ subtitles card !! 1 = Some plate /\
     details = [template (title_attr trim); template (title_attr plate)]) /\
  forall allowed vehicles vehicle_url,
    ~ In (vehicle_url, details) (RentalExtractor.filtered_vehicles allowed vehicles).
Proof.
  intros Htitle (s1 & s2 & others & Hsub & Hd)%card_details_shape.
  assert (Hdet : details = [template (title_attr s1); template (title_attr s2)]).
  { destruct (main_title card) as [p|]; [|done]. simpl in Hd. by rewrite Htitle in Hd. }
  split.
  - exists s1, s2. by rewrite Hsub.
  - intros allowed vehicles vehicle_url Hin.
    apply filtered_vehicles_In in Hin as (_ & plate & Hplate & _).
    by rewrite Hdet in Hplate.
Qed.

End CompleteCards.

(** ** navigation_example.py *)

Section ExampleCallers.

Import Crawler Callers.

(** X21.  [example_navigate_data_testid_links] passes the keyword
    [customUrlAppend], which [navigate_and_return_with_selector] does
    not take: for every selector of its list the call fails before the
    body runs, so the example makes no browser call at all and prints
    one error line per selector, whatever the page shows. *)
Theorem example_data_testid_links_never_navigates
    (self : Session) (script : nat -> Response) (found : string -> outcome (list Link)) :
  let '(errors, trace) := example_navigate_data_testid_links self script found in
  trace = [] /\
  length errors = length data_testid_selectors /\
  Forall (fun line =>
            str_contains "unexpected keyword argument 'customUrlAppend'" line = true)
         errors.
Proof.
  unfold example_navigate_data_testid_links, data_testid_selectors. simpl.
  split; [done|]. split; [done|]. repeat constructor.
Qed.

End ExampleCallers.

(** ** crawler.py: the page snapshot *)

Section Snapshots.

Import Dom Crawler Snapshot.

Lemma node_nested_ind (P : node -> Prop) :
  (forall s, P (Text s)) ->
  (forall t attrs cs, Forall P cs -> P (Tag t attrs cs)) ->
  forall n, P n.
Proof.
  intros HText HTag. fix IH 1. intros [s|t attrs cs]; [apply HText|].
  apply HTag. induction cs as [|c cs IHcs]; constructor; [apply IH|exact IHcs].
Qed.

Lemma without_Tag p t attrs cs :
  without p (Tag t attrs cs) = Tag t attrs (kept p cs).
Proof.
  simpl. f_equal. induction cs as [|c cs IH]; simpl; [done|].
  destruct (p c); by rewrite IH.
Qed.

Lemma rewrite_hidden_tag f n :
  is_script_or_style (rewrite_hidden f n) = is_script_or_style n.
Proof.
  destruct n as [s|t attrs cs]; [done|]. cbn [rewrite_hidden].
  by destruct (is_script_or_style (Tag t attrs cs)) eqn:E.
Qed.

Lemma without_rewrite_hidden f n :
  is_script_or_style n = false ->
  without is_script_or_style (rewrite_hidden f n) = without is_script_or_style n.
Proof.
  induction n as [s|t attrs cs IH] using node_nested_ind; [done|].
  intros Hn. cbn [rewrite_hidden]. rewrite Hn, !without_Tag. f_equal. clear Hn.
  induction IH as [|c cs Hc _ IHcs]; simpl; [done|].
  rewrite rewrite_hidden_tag.
  destruct (is_script_or_style c) eqn:Hp; [exact IHcs|].
  by rewrite Hc, IHcs.
Qed.

(** X22.  Nothing inside a script or style element reaches the text or
    the images of a snapshot: two pages that differ only in what their
    script and style elements contain give the same [text_content] and
    the same [images], and fail alike. *)
Theorem get_page_data_ignores_scripts_and_styles
    (self : Session) (soup : node) (title : outcome string) (now : string)
    (f : list node -> list node) :
  is_script_or_style soup = false ->
  match get_page_data self (Return soup) title now,
        get_page_data self (Return (rewrite_hidden f soup)) title now with
  | Return plain, Return rewritten =>
      pd_text_content rewritten = pd_text_content plain /\
      pd_images rewritten = pd_images plain
  | Raise e, Raise e' => e = e'
  | _, _ => False
  end.
Proof.
  intros Hroot. unfold get_page_data.
  destruct (page self) as [url|]; [|done]. simpl.
  destruct title as [t|e]; [|done]. simpl.
  by rewrite without_rewrite_hidden.
Qed.

Lemma add_meta_In tags meta name value :
  In (name, value) (add_meta tags meta) ->
  In (name, value) tags \/
  (name <> "" /\ value <> "" /\ meta_name meta = Some name /\
   attr "content" meta = Some value).
Proof.
  unfold add_meta.
  destruct (meta_name meta) as [n|]; [|tauto].
  destruct (attr "content" meta) as [c|]; [|tauto].
  destruct (String.eqb_spec n "") as [?|Hn]; [tauto|].
  destruct (String.eqb_spec c "") as [?|Hc]; [tauto|]. simpl.
  intros [[= -> ->]|?]%dict_set_In; tauto.
Qed.

Lemma add_meta_other tags meta name :
  meta_name meta <> Some name ->
  dict_get (add_meta tags meta) name = dict_get tags name.
Proof.
  unfold add_meta. intros Hn.
  destruct (meta_name meta) as [n|]; [|done].
  destruct (attr "content" meta) as [c|]; [|done].
  destruct (negb _ && negb _); [|done].
  rewrite dict_get_dict_set. destruct (String.eqb_spec n name) as [->|?]; [done|done].
Qed.

Lemma add_meta_NoDup tags meta :
  NoDup (map fst tags) -> NoDup (map fst (add_meta tags meta)).
Proof.
  unfold add_meta. intros H.
  destruct (meta_name meta) as [n|]; [|done].
  destruct (attr "content" meta) as [c|]; [|done].
  destruct (negb _ && negb _); [|done]. by apply dict_set_NoDup.
Qed.

Lemma fold_add_meta_In metas tags name value :
  In (name, value) (fold_left add_meta metas tags) ->
  In (name, value) tags \/
  (name <> "" /\ value <> "" /\
   exists meta, In meta metas /\ meta_name meta = Some name /\
                attr "content" meta = Some value).
Proof.
  revert tags. induction metas as [|m metas IH]; intros tags; simpl; [tauto|].
  intros [H|(Hn & Hv & meta & Hin & H1 & H2)]%IH.
  - apply add_meta_In in H as [H|(Hn & Hv & H1 & H2)]; [tauto|].
    right. repeat (split; [done|]). exists m. tauto.
  - right. repeat (split; [done|]). exists meta. tauto.
Qed.

Lemma fold_add_meta_other metas tags name :
  Forall (fun m => meta_name m <> Some name) metas ->
  dict_get (fold_left add_meta metas tags) name = dict_get tags name.
Proof.
  intros H. revert tags. induction H as [|m metas Hm _ IH]; intros tags; simpl; [done|].
  by rewrite IH, add_meta_other.
Qed.

Lemma fold_add_meta_NoDup metas tags :
  NoDup (map fst tags) -> NoDup (map fst (fold_left add_meta metas tags)).
Proof.
  revert tags. induction metas as [|m metas IH]; intros tags H; simpl; [done|].
  by apply IH, add_meta_NoDup.
Qed.

(** X23.  The meta tags of a snapshot hold no empty name and no empty
    content.  Every entry comes from a [meta] element of the page, under
    its [name] attribute or, when that is missing or empty, its
    [property] attribute; a name occurs once, and when several elements
    carry it the content of the last one is kept. *)
Theorem get_page_data_meta_tags
    (self : Session) (soup : node) (title : outcome string) (now : string)
    (data : PageData) :
  get_page_data self (Return soup) title now = Return data ->
  (forall name value,
     In (name, value) (pd_meta_tags data) ->
     name <> "" /\ value <> "" /\
     exists meta,
       In meta (find_all (is_tag "meta") soup) /\
       py_or (attr "name" meta) (attr "property" meta) = Some name /\
       attr "content" meta = Some value) /\
  NoDup (map fst (pd_meta_tags data)) /\
  (forall before meta after name value,
     find_all (is_tag "meta") soup = before ++ meta :: after ->
     py_or (attr "name" meta) (attr "property" meta) = Some name -> name <> "" ->
     attr "content" meta = Some value -> value <> "" ->
     Forall (fun m => py_or (attr "name" m) (attr "property" m) <> Some name) after ->
     dict_get (pd_meta_tags data) name = Some value).
Proof.
  unfold get_page_data. destruct (page self) as [url|]; [|done]. simpl.
  destruct title as [t|e]; [|done]. simpl. intros [= <-]. simpl.
  unfold meta_tags_of. split; [|split].
  - intros name value [[]|H]%fold_add_meta_In. exact H.
  - apply fold_add_meta_NoDup. constructor.
  - intros before meta after name value -> Hname Hn Hcontent Hv Hafter.
    rewrite fold_left_app. simpl.
    rewrite (fold_add_meta_other _ _ _ Hafter).
    unfold add_meta at 1. unfold meta_name. rewrite Hname, Hcontent.
    destruct (String.eqb_spec name "") as [?|_]; [done|].
    destruct (String.eqb_spec value "") as [?|_]; [done|]. simpl.
    rewrite dict_get_dict_set. by rewrite String.eqb_refl.
Qed.

End Snapshots.

(** ** crawler.py: the file names of a run *)

Section FileNames.

Import Crawler.

Local Arguments String.append !s1 s2 : simpl nomatch.












End FileNames.

(** ** Examples for the further properties *)

Section NavigatorRunExamples.

Import Crawler Navigation Examples Scenarios.

(** The browser is lost on the first of two targets: one result, for
    the first link. *)
Lemma navigate_and_return_results_prefix_witness :
  let run := navigate_loop "output" true true lost_script host_page 0 two_links host_page in
  map index run.1.1 = seq 0 (length run.1.1) /\
  map original_link run.1.1 = take (length run.1.1) two_links /\
  run.1.1 <> [].
Proof.
  intros run.
  destruct (navigate_and_return_results_prefix connected lost_script two_links true true
              run.1.1 run.1.2 {| output_dir := "output"; page := Some run.2 |} eq_refl)
    as (H1 & H2 & H3).
  split; [exact H1|]. split; [exact H2|]. apply H3. discriminate.
Defined.

(** The screenshot of the first target cannot be written: its result is
    the failure record, and the second target is processed. *)
Lemma navigate_and_return_first_failure_witness :
  let run :=
    navigate_loop "output" true true unwritable_script host_page 0 two_links host_page in
  exists r,
    run.1.1 !! 0 = Some r /\
    r = failure_result 0 first_link (BrowserError "Unable to write screenshot") unwritable /\
    1 < length run.1.1.
Proof.
  intros run.
  destruct (navigate_and_return_first_failure connected unwritable_script two_links true true
              run.1.1 run.1.2 {| output_dir := "output"; page := Some run.2 |}
              0 first_link eq_refl eq_refl ltac:(vm_compute; lia))
    as (r & Hr & Hf & Hnext).
  exists r. split; [exact Hr|]. split; [exact Hf|].
  apply Hnext; [reflexivity | simpl; lia].
Defined.

(** A run without screenshots. *)
Lemma navigate_and_return_obeys_options_witness :
  let run := navigate_loop "output" false true calm_script host_page 0 two_links host_page in
  Forall (fun ev => allowed_event false true ev = true) run.1.2 /\
  Forall (fun r =>
            (false = false -> screenshot_path r = None) /\
            (true = false -> data_path r = None /\ page_data r = None))
         run.1.1.
Proof.
  intros run.
  apply (navigate_and_return_obeys_options connected calm_script two_links false true
           run.1.1 run.1.2 {| output_dir := "output"; page := Some run.2 |} eq_refl).
Defined.

(** The first navigation times out: the target is still returned from,
    once. *)
Lemma navigate_and_return_one_return_each_witness :
  let run := navigate_loop "output" true true refused_script host_page 0 two_links host_page in
  List.filter (is_return_to 0) run.1.2 = [EvReturn 0 host_page] /\
  Forall (fun ev => event_target ev < length run.1.1) run.1.2.
Proof.
  intros run.
  destruct (navigate_and_return_one_return_each connected refused_script two_links true true
              host_page run.1.1 run.1.2 {| output_dir := "output"; page := Some run.2 |}
              eq_refl eq_refl) as [H1 H2].
  split; [|exact H2]. apply H1. vm_compute. lia.
Defined.

(** The return after the second target fails and the reconnect finds the
    sign-in page: that is where the run ends. *)
Lemma navigate_and_return_final_page_witness :
  let run := navigate_loop "output" true true strayed_script host_page 0 two_links host_page in
  Some run.2 = Some sign_in_page.
Proof.
  intros run.
  destruct (navigate_and_return_final_page connected strayed_script two_links true true
              run.1.1 run.1.2 {| output_dir := "output"; page := Some run.2 |}
              ltac:(discriminate) eq_refl) as (_ & H & _).
  apply (H sign_in_page); reflexivity.
Defined.

(** Three links found, two allowed. *)
Lemma navigate_with_selector_positive_cap_witness :
  exists results trace final,
    navigate_and_return_with_selector connected calm_script (Return three_links)
      true true (Some 2%Z) = Return (results, trace, final) /\
    length results <= 2 /\
    map original_link results = take (length results) three_links /\
    Forall (fun ev => event_target ev < 2) trace.
Proof.
  do 3 eexists. split; [reflexivity|].
  eapply (navigate_with_selector_positive_cap connected calm_script three_links true true 2%Z);
    [lia | reflexivity].
Defined.

Lemma navigate_with_selector_zero_cap_witness :
  exists results trace final,
    navigate_and_return_with_selector connected calm_script (Return three_links)
      true true (Some 0%Z) = Return (results, trace, final) /\
    map original_link results = three_links.
Proof.
  apply (navigate_with_selector_zero_cap connected calm_script three_links true true
           host_page eq_refl (fun i _ => eq_refl)).
Defined.

(** The second of three fields cannot be filled. *)
Lemma fill_form_stops_at_first_failure_witness :
  exists done calls rest,
    Interaction.fill_form connected no_password_field sign_in_form = Return (done, calls) /\
    sign_in_form = calls ++ rest /\
    (done = true <->
       Forall (fun sv => is_return (no_password_field sv.1 sv.2) = true) sign_in_form) /\
    (done = true -> rest = []) /\
    (done = false ->
       exists before selector value,
         calls = before ++ [(selector, value)] /\
         Forall (fun sv => is_return (no_password_field sv.1 sv.2) = true) before /\
         is_return (no_password_field selector value) = false).
Proof.
  apply (fill_form_stops_at_first_failure connected no_password_field sign_in_form
           host_page eq_refl).
Defined.


End NavigatorRunExamples.

Section ReceiptExamples.

Import Dom ReceiptProcessor Reports Examples Scenarios.

(** The trip price is listed twice: the second amount is the one kept. *)
Lemma extract_cost_details_last_row_wins_witness :
  exists cost_breakdown,
    extract_cost_details float_of_decimal repriced_soup = Return cost_breakdown /\
    dict_get cost_breakdown "Trip price" = Some 120%float /\
    NoDup (map fst cost_breakdown).
Proof.
  eexists. split; [vm_compute; reflexivity|].
  apply (extract_cost_details_last_row_wins float_of_decimal repriced_soup
           (Tag "div" [("data-testid", "cost-details-section")]
              [row "Trip price" "$100.00"; row "Trip price" "$120.00";
               row "Cleaning fee" "$25.00"])
           (row "Trip price" "$120.00") [row "Trip price" "$100.00"]
           [row "Cleaning fee" "$25.00"] "Trip price" 120%float).
  - repeat constructor.
  - reflexivity.
  - reflexivity.
  - vm_compute. reflexivity.
  - constructor; [|constructor]. intros a H. vm_compute in H. discriminate.
  - vm_compute. reflexivity.
Defined.

(** An amount made of a comma only: [float] is given the empty text. *)
Lemma extract_cost_details_conversion_failure_witness :
  extract_cost_details float_of_decimal garbled_soup =
  Raise (ValueError "could not convert string to float: ''").
Proof.
  destruct (extract_cost_details_conversion_failure float_of_decimal garbled_soup
              (Tag "div" [("data-testid", "cost-details-section")]
                 [row "Trip price" "$100.00"; row "Extras" ","])
              (row "Extras" ",") [row "Trip price" "$100.00"] []
              (ValueError "could not convert string to float: ''")
              ltac:(repeat constructor) eq_refl eq_refl
              ltac:(repeat constructor) ltac:(vm_compute; reflexivity)) as [H _].
  exact H.
Defined.

(** A fee and a discount that is not negative are dropped without
    effect. *)
Lemma calculate_income_ignores_other_entries_witness :
  calculate_income
    (List.filter (fun kv => String.eqb kv.1 "Trip price" || is_discount kv)
       [("Trip price", 490%float); ("Cleaning fee", 25%float);
        ("Weekly discount", (-21.56)%float); ("Discount", 0%float)]) =
  calculate_income
    [("Trip price", 490%float); ("Cleaning fee", 25%float);
     ("Weekly discount", (-21.56)%float); ("Discount", 0%float)].
Proof.
  apply calculate_income_ignores_other_entries.
  - intros v. reflexivity.
  - intros kv H. rewrite H. apply orb_true_r.
Defined.

(** Two receipts of one vehicle: 90.00 and 45.00 make 135.00. *)
Lemma owner_summary_tally_witness :
  exists summary,
    owner_summary two_settled = Return summary /\
    Reports.row summary "Alice" "ABC123" = tally "Alice" "ABC123" two_settled /\
    tally "Alice" "ABC123" two_settled =
      Some {| summary_vehicle_name := "Tesla Model Y 2023";
              total_income := 135; receipt_count := 2 |}.
Proof.
  eexists. split; [vm_compute; reflexivity|]. split; [|vm_compute; reflexivity].
  apply owner_summary_tally. vm_compute. reflexivity.
Defined.

End ReceiptExamples.

Section RentalRunExamples.

Import RentalExtractor Reports Examples Scenarios.

Lemma parse_date_range_normal_form_witness :
  parse_date_range "Jul 28 - Aug 2" =
  Some {| start_date := "Jul 28"; end_date := "Aug 2"; end_month := "Aug" |}.
Proof.
  apply (parse_date_range_normal_form ("Jul  28" +:+ tab +:+ "-Aug 2 (5 days)")
           {| start_date := "Jul 28"; end_date := "Aug 2"; end_month := "Aug" |}
           eq_refl eq_refl).
Defined.

Lemma rentals_on_page_ascii url all_rentals :
  rentals_on_page url = Return all_rentals ->
  Forall (fun rental => is_ascii (date_text rental) = true) all_rentals.
Proof. intros [= <-]. repeat constructor. Qed.

(** The Tesla is listed with its August rental, the Civic is not listed. *)
Lemma process_all_vehicles_entries_witness :
  exists result,
    process_all_vehicles rentals_on_page (Some "Aug") (Some (listings, owners)) =
      Return result /\
    dict_get result tesla_url =
      Some (omap (matching_rental (Some "Aug") tesla) [july_rental; august_rental]) /\
    dict_get result civic_url = None.
Proof.
  eexists. split; [reflexivity|].
  split.
  - rewrite (process_all_vehicles_entries rentals_on_page (Some "Aug") listings owners _
               tesla_url rentals_on_page_ascii eq_refl).
    vm_compute. reflexivity.
  - vm_compute. reflexivity.
Defined.

Lemma target_month_must_be_a_token_witness :
  exists result,
    process_all_vehicles rentals_on_page (Some "July") (Some (listings, owners)) =
      Return result /\
    Forall (fun ur => ur.2 = []) result /\
    total_rentals (rental_data_summary (Some "July") result) = 0.
Proof.
  eexists. split; [reflexivity|].
  apply (target_month_must_be_a_token rentals_on_page "July" listings owners _
           rentals_on_page_ascii).
  - intros [H _]. discriminate H.
  - reflexivity.
Defined.

Lemma rental_run_finds_no_rental_witness :
  exists result,
    process_all_vehicles
      (extract_rentals_from_page connected (fun _ => quiet_rentals_page))
      (Some "Aug") (Some (listings, owners)) = Return result /\
    Forall (fun ur => ur.2 = []) result /\
    dict_get result tesla_url = Some [].
Proof.
  destruct (rental_run_finds_no_rental connected (fun _ => quiet_rentals_page) "Aug"
              listings owners ltac:(discriminate))
    as (result & Hrun & Hall & _ & Hget & _).
  exists result. split; [exact Hrun|]. split; [exact Hall|].
  apply Hget; [by eexists|]. vm_compute. by eexists.
Defined.

End RentalRunExamples.

Section ListingExamples.

Import VehicleExtractor Examples Scenarios.

Lemma extract_vehicle_listings_complete_cards_witness :
  exists vehicles details,
    extract_vehicle_listings connected [] ([] ++ complete_card :: []) =
      (Return vehicles, vehicles) /\
    NoDup (map fst vehicles) /\
    card_details complete_card = Return details /\
    dict_get vehicles (card_href complete_card) = Some details /\
    (length details = 2 \/ length details = 3).
Proof.
  apply (extract_vehicle_listings_complete_cards connected [] [] [] complete_card host_page
           eq_refl).
  - repeat constructor.
  - constructor.
Defined.

(** The Civic's card without its title: trim and plate only, and no
    filter keeps it. *)
Lemma untitled_card_is_skipped_by_the_rental_batch_witness :
  ~ In (civic_url, ["EX"; "ZZZ999"])
       (RentalExtractor.filtered_vehicles
          (RentalExtractor.allowed_license_plates [("Carol", ["ZZZ999"])])
          [(civic_url, ["EX"; "ZZZ999"])]).
Proof.
  destruct (untitled_card_is_skipped_by_the_rental_batch untitled_card ["EX"; "ZZZ999"]
              I eq_refl) as [_ H].
  apply H.
Defined.

End ListingExamples.

Section SnapshotExamples.

Import Dom Crawler Snapshot Examples Scenarios.

(** The script of the example page emptied: same text, same images. *)
Lemma get_page_data_ignores_scripts_and_styles_witness :
  match get_page_data connected (Return page_soup) (Return "Trips") "2025-07-22T19:46:49",
        get_page_data connected (Return (rewrite_hidden (fun _ => []) page_soup))
          (Return "Trips") "2025-07-22T19:46:49" with
  | Return plain, Return rewritten =>
      pd_text_content rewritten = pd_text_content plain /\
      pd_images rewritten = pd_images plain
  | Raise e, Raise e' => e = e'
  | _, _ => False
  end.
Proof.
  apply (get_page_data_ignores_scripts_and_styles connected page_soup (Return "Trips")
           "2025-07-22T19:46:49" (fun _ => [])).
  reflexivity.
Defined.

(** The description is given twice: the second one is kept. *)
Lemma get_page_data_meta_tags_witness :
  exists data,
    get_page_data connected (Return page_soup) (Return "Trips") "2025-07-22T19:46:49" =
      Return data /\
    dict_get (pd_meta_tags data) "description" = Some "Booked trips" /\
    NoDup (map fst (pd_meta_tags data)).
Proof.
  eexists. split; [reflexivity|].
  destruct (get_page_data_meta_tags connected page_soup (Return "Trips")
              "2025-07-22T19:46:49" _ eq_refl) as (_ & Hnd & Hlast).
  split; [|exact Hnd].
  apply (Hlast [Tag "meta" [("name", "description"); ("content", "Trips")] [];
                Tag "meta" [("property", "og:title"); ("content", "Booked")] []]
               (Tag "meta" [("name", "description"); ("content", "Booked trips")] [])
               [] "description" "Booked trips");
    first [reflexivity | discriminate | constructor].
Defined.

End SnapshotExamples.
